(** * Fraud-vote detection: the duplicate detector, embedded and verified

    A shallow embedding of [src/duplicate_detector.py]
    (class [DuplicateDetectorFinal]) together with the properties that
    the system description states about it, followed by the parts of the
    pipeline around the detector: the card segmentation
    ([src/card_segmenter.py]), the final statistics ([src/main.py]), the
    review report ([src/generate_fraud_review_report.py]), the loop over
    the card files ([src/google_vision.py]) and the embedded images of a
    document ([src/pdf_processor.py]).

    Conventions of the embedding:
    - the pandas frame [self.df] is a [list VoterRow], in row order;
    - a cell for which [pd.isna] holds is [None], any other cell is
      [Some v];
    - Python and numpy floats are IEEE binary64 numbers, here the
      primitive [float] type, whose operations round to nearest, ties to
      even, as the hardware does;
    - a [continue] in a loop body is the body returning [None];
    - the face distance of [face_recognition] and the photo hash of
      [imagehash] come from outside the repository and are parameters of
      the detector; the distance is taken to be defined for every two
      encodings, so a run in which the library raises, as it does for
      encodings of different lengths, is not described;
    - [print] statements only write to the console and are left out. *)

From Stdlib Require Import ZArith Ascii String List Bool Lia Floats Uint63.
From Stdlib.Strings Require Byte.
From stdpp Require Import base option list sorting strings pretty.
From stdpp Require gmap.

Set Warnings "-inexact-float".
Local Open Scope string_scope.
Local Open Scope list_scope.

(** ** Data model *)

(** A face encoding as [_load_encoding] produces it: the array of numbers
    parsed from the JSON text of the cell. *)
Definition encoding : Type := list float.

(** One row of the voter frame (the columns the detector reads). Names,
    gender and house number are text; an age, when present, is the whole
    number the extraction wrote. *)
Record VoterRow : Type := mkRow {
  card_id : string;
  name : option string;
  father_husband_name : option string;
  age : option Z;
  gender : option string;
  house_number : option string;
  face_encoding : option encoding;
  face_path : option string
}.

(** A report cell that holds either a number taken from the frame or a
    piece of text (the ['N/A'] placeholder). *)
Inductive cell : Type :=
| CNum (z : Z)
| CStr (s : string).

(** [x if pd.notna(x) else 'N/A'] on a text column. *)
Definition or_na (x : option string) : string := default "N/A" x.

(** [x if pd.notna(x) else 'N/A'] on the age column. *)
Definition age_or_na (x : option Z) : cell :=
  match x with Some a => CNum a | None => CStr "N/A" end.

(** [sep.join(items)]. *)
Fixpoint join (sep : string) (items : list string) : string :=
  match items with
  | [] => ""
  | [x] => x
  | x :: rest => x +:+ sep +:+ join sep rest
  end.

(** The four kinds of dictionaries the detector appends to its result
    lists, one record per kind; the key ['fraud_type'] is the constructor
    of [FraudFinding] below. *)
Module FakeDetails.
Record t : Type := mk {
  card_1 : string;
  card_2 : string;
  name : string;
  father_husband : string;
  age_1 : cell;
  age_2 : cell;
  gender_1 : string;
  gender_2 : string;
  matching_fields : string;
  confidence : string;
  likelihood : string
}.
End FakeDetails.

Module FakeFace.
Record t : Type := mk {
  card_1 : string;
  card_2 : string;
  name_1 : string;
  name_2 : string;
  father_1 : string;
  father_2 : string;
  face_similarity_percent : float;
  confidence_score : float;
  details_evidence : string;
  likelihood : string
}.
End FakeFace.

Module DuplicatePhoto.
Record t : Type := mk {
  card_1 : string;
  card_2 : string;
  name_1 : string;
  name_2 : string;
  father_1 : string;
  father_2 : string;
  photo_similarity : float;
  hash_difference : nat;
  likelihood : string
}.
End DuplicatePhoto.

Module AddressAnomaly.
Record t : Type := mk {
  house_number : string;
  voter_count : nat;
  unique_names : nat;
  unique_fathers : nat;
  risk_level : string;
  cards : string;
  likelihood : string
}.
End AddressAnomaly.

Inductive FraudFinding : Type :=
| FAKE_DETAILS (d : FakeDetails.t)
| FAKE_FACE (d : FakeFace.t)
| DUPLICATE_PHOTO (d : DuplicatePhoto.t)
| ADDRESS_ANOMALY (d : AddressAnomaly.t).

(** ** The pairwise scan

    [for i in range(len(xs)): for j in range(i + 1, len(xs)): body]
    where the body either appends one item to the result list or
    [continue]s: the first row is paired with every later row, in order,
    and then the scan goes on with the rows after it. *)
Fixpoint scan_pairs {A B : Type} (body : A → A → option B) (xs : list A)
  : list B :=
  match xs with
  | [] => []
  | x1 :: rest => omap (body x1) rest ++ scan_pairs body rest
  end.

(** ** Scenario 1: fake details *)

(** The optional check of one column: when both cells are present they
    must be equal, and then the column joins [matching_fields]; a
    difference [continue]s. *)
Definition optional_check {V : Type} `{EqDecision V}
    (v1 v2 : option V) (label : string) (matching_fields : list string)
  : option (list string) :=
  match v1, v2 with
  | Some a, Some b =>
      if decide (a ≠ b) then None else Some (matching_fields ++ [label])
  | _, _ => Some matching_fields
  end.

(** The body of the double loop of [detect_scenario_1_fake_details]. *)
Definition fake_details_pair (row1 row2 : VoterRow) : option FraudFinding :=
  match name row1, name row2 with
  | Some n1, Some n2 =>
    match father_husband_name row1, father_husband_name row2 with
    | Some f1, Some f2 =>
      let name_match := bool_decide (n1 = n2) in
      if negb name_match then None else
      let father_match := bool_decide (f1 = f2) in
      if negb father_match then None else
      let matching_fields := ["name"; "father/husband"] in
      matching_fields ← optional_check (age row1) (age row2) "age"
                          matching_fields;
      matching_fields ← optional_check (gender row1) (gender row2) "gender"
                          matching_fields;
      Some (FAKE_DETAILS {|
        FakeDetails.card_1 := card_id row1;
        FakeDetails.card_2 := card_id row2;
        FakeDetails.name := n1;
        FakeDetails.father_husband := f1;
        FakeDetails.age_1 := age_or_na (age row1);
        FakeDetails.age_2 := age_or_na (age row2);
        FakeDetails.gender_1 := or_na (gender row1);
        FakeDetails.gender_2 := or_na (gender row2);
        FakeDetails.matching_fields := join " + " matching_fields;
        FakeDetails.confidence := "100%";
        FakeDetails.likelihood := "DEFINITE FRAUD"
      |})
    | _, _ => None
    end
  | _, _ => None
  end.

Definition detect_scenario_1_fake_details (df : list VoterRow)
  : list FraudFinding :=
  scan_pairs fake_details_pair df.

(** ** Floating-point helpers *)

(** Conversion of an integer of the program to a float ([float(n)], or
    the implicit conversion of a mixed operation); exact below 2^53. *)
Definition float_of_Z (z : Z) : float :=
  if (z <? 0)%Z
  then PrimFloat.opp (of_uint63 (Uint63.of_Z (- z)))
  else of_uint63 (Uint63.of_Z z).

(** The integer nearest to [n / d] for [d > 0], ties going to the even
    one. *)
Definition round_half_even_div (n d : Z) : Z :=
  let q := (n / d)%Z in
  let r := (n mod d)%Z in
  match (2 * r ?= d)%Z with
  | Lt => q
  | Gt => (q + 1)%Z
  | Eq => if Z.even q then q else (q + 1)%Z
  end.

(** [np.rint]: the nearest integral float, ties to even; a float with a
    non-negative exponent is integral already, and infinities, zeros and
    NaN are returned as they are. *)
Definition rint (x : float) : float :=
  match Prim2SF x with
  | S754_finite s m e =>
      if (0 <=? e)%Z then x
      else
        let r := float_of_Z (round_half_even_div (Z.pos m) (2 ^ (- e))) in
        if s then PrimFloat.opp r else r
  | _ => x
  end.

(** [round(x, decimals)] on a numpy float64 scalar with [decimals >= 0]:
    numpy multiplies by the power of ten, applies [rint] and divides
    again, each step in binary64. *)
Definition np_round (x : float) (decimals : nat) : float :=
  let f := float_of_Z (10 ^ Z.of_nat decimals) in
  PrimFloat.div (rint (PrimFloat.mul x f)) f.

(** [round(x, ndigits)] on a Python float: the decimal number with
    [ndigits] fractional digits nearest to the exact value of [x] (ties to
    even), read back as the nearest float. The division below is that
    reading back as long as the scaled integer is below 2^53, that is for
    [|x| < 2^53 / 10^ndigits]; every percentage is in that range. *)
Definition py_round (x : float) (ndigits : nat) : float :=
  match Prim2SF x with
  | S754_finite s m e =>
      if (0 <=? e)%Z then x
      else
        let p := (10 ^ Z.of_nat ndigits)%Z in
        let n := round_half_even_div (Z.pos m * p) (2 ^ (- e)) in
        let r := PrimFloat.div (float_of_Z n) (float_of_Z p) in
        if s then PrimFloat.opp r else r
  | _ => x
  end.

(** ** Perceptual hashes

    [imagehash.average_hash(img, hash_size=16)] shrinks the photo to
    16 x 16 pixels and keeps one bit per pixel; an [ImageHash] is that
    grid of bits, flattened. *)
Definition hash_size : nat := 16.

Definition hash_bit_length : nat := hash_size * hash_size.

Record ImageHash : Type := mkHash {
  bits : list bool;
  bits_length : length bits = hash_bit_length
}.

(** [hash_1 - hash_2]: the number of positions where the bits differ.
    The two grids have the same shape by the type, so the shape check of
    the subtraction always passes. *)
Definition hash_sub (hash_1 hash_2 : ImageHash) : nat :=
  length (filter (λ p : bool * bool, p.1 ≠ p.2)
                 (zip (bits hash_1) (bits hash_2))).

(** The divisor written in [detect_exact_duplicate_photos]. *)
Definition photo_divisor : Z := 64.

(** [similarity_percent = (1 - hash_diff / 64) * 100]. *)
Definition photo_similarity_percent (hash_diff : nat) : float :=
  ((1 - float_of_Z (Z.of_nat hash_diff) / float_of_Z photo_divisor) * 100)%float.

(** ** Scenario 3: address anomalies *)

(** The order in which [groupby] lists its keys: ascending text order. *)
Definition str_le (s1 s2 : string) : Prop := String.leb s1 s2 = true.

#[global] Instance str_le_dec : RelDecision str_le.
Proof. intros s1 s2. unfold str_le. apply _. Defined.

(** [groupby(key).size()]: one entry per distinct key, in ascending key
    order, with the number of rows that carry the key. *)
Definition groupby_size (keys : list string) : list (string * nat) :=
  (λ k, (k, length (filter (λ k', k' = k) keys)))
    <$> merge_sort str_le (remove_dups keys).

(** [column.nunique()]: the number of distinct values among the present
    cells of a column. *)
Definition nunique (column : list (option string)) : nat :=
  length (remove_dups (omap id column)).

(** The risk tier from the number of voters at the address. *)
Definition risk_level_of (count : nat) : string :=
  if decide (50 ≤ count)%nat then "CRITICAL"
  else if decide (40 ≤ count)%nat then "HIGH"
  else "MEDIUM".

Definition detect_address_anomalies (df : list VoterRow)
    (suspicious_threshold : nat) : list FraudFinding :=
  let df_with_house :=
    omap (λ row, h ← house_number row; Some (row, h)) df in
  if decide (length df_with_house = 0)%nat then []
  else
    let house_counts := groupby_size (snd <$> df_with_house) in
    let suspicious_houses :=
      filter (λ hc : string * nat, (suspicious_threshold ≤ hc.2)%nat)
             house_counts in
    (λ house : string * nat,
       let house_num := house.1 in
       let count := house.2 in
       let voters_at_address :=
         fst <$> filter (λ x : VoterRow * string, x.2 = house_num)
                        df_with_house in
       let unique_names := nunique (name <$> voters_at_address) in
       let unique_fathers :=
         nunique (father_husband_name <$> voters_at_address) in
       let risk_level := risk_level_of count in
       ADDRESS_ANOMALY {|
         AddressAnomaly.house_number := house_num;
         AddressAnomaly.voter_count := count;
         AddressAnomaly.unique_names := unique_names;
         AddressAnomaly.unique_fathers := unique_fathers;
         AddressAnomaly.risk_level := risk_level;
         AddressAnomaly.cards :=
           join ", " (take 10 (card_id <$> voters_at_address)) +:+ "...";
         AddressAnomaly.likelihood :=
           pretty count
           +:+ " voters at one address - Likely fake voter operation"
       |}) <$> suspicious_houses.

(** How a call ends: it returns a value, or an exception leaves it. *)
Inductive outcome (A : Type) : Type :=
| Returned (a : A)
| Raised (exc : string).
Arguments Returned {A} a.
Arguments Raised {A} exc.

Section Detector.

(** The two collaborators from outside the repository.
    [face_distance e1 e2] is
    [face_recognition.face_distance([e1], e2)[0]].
    [average_hash path] is [Image.open(path)] followed by
    [imagehash.average_hash(img, hash_size=16)]; it is [None] when either
    call raises, the case the [try] block of the hashing loop catches. *)
Variable face_distance : encoding → encoding → float.
Variable average_hash : string → option ImageHash.

(** ** Scenario 2: fake face *)

(** [faces_df] zipped with [encodings]: the rows whose face encoding is
    present, in frame order, each with its encoding. *)
Definition faces_df (df : list VoterRow) : list (VoterRow * encoding) :=
  omap (λ row, enc ← face_encoding row; Some (row, enc)) df.

(** The body of the double loop of [detect_scenario_2_fake_face]. *)
Definition fake_face_pair (x1 x2 : VoterRow * encoding)
  : option FraudFinding :=
  let '(row1, enc1) := x1 in
  let '(row2, enc2) := x2 in
  let distance := face_distance enc1 enc2 in
  let similarity_percent := ((1 - distance) * 100)%float in
  if (similarity_percent <? 80)%float then None else
  let confidence_score := similarity_percent in
  let '(confidence_score, details_evidence, likelihood) :=
    match name row1, name row2 with
    | Some n1, Some n2 =>
        if decide (n1 ≠ n2)
        then ((confidence_score + 5)%float,
              ["DIFFERENT NAMES: '" +:+ n1 +:+ "' vs '" +:+ n2 +:+ "'"],
              "🚨 CRITICAL FRAUD - SAME FACE, DIFFERENT NAMES")
        else ((confidence_score - 5)%float,
              ["SAME NAME: " +:+ n1],
              "LIKELY FRAUD - SAME PERSON")
    | _, _ => (confidence_score, [], "LIKELY FRAUD - SAME PERSON")
    end in
  Some (FAKE_FACE {|
    FakeFace.card_1 := card_id row1;
    FakeFace.card_2 := card_id row2;
    FakeFace.name_1 := or_na (name row1);
    FakeFace.name_2 := or_na (name row2);
    FakeFace.father_1 := or_na (father_husband_name row1);
    FakeFace.father_2 := or_na (father_husband_name row2);
    FakeFace.face_similarity_percent := np_round similarity_percent 2;
    FakeFace.confidence_score := np_round confidence_score 1;
    FakeFace.details_evidence :=
      match details_evidence with
      | [] => "No matching details"
      | _ => join ", " details_evidence
      end;
    FakeFace.likelihood := likelihood
  |}).

Definition detect_scenario_2_fake_face (df : list VoterRow)
  : list FraudFinding :=
  let faces := faces_df df in
  if decide (length faces < 2) then []
  else scan_pairs fake_face_pair faces.

(** ** Scenario 2B: duplicate photos *)

(** [cards_with_faces]: the rows with a face photo, each with its path. *)
Definition cards_with_faces (df : list VoterRow) : list (VoterRow * string) :=
  omap (λ row, path ← face_path row; Some (row, path)) df.

(** The hashing loop: one [(card_id, img_hash, row)] per photo that
    could be opened and hashed; a failure skips the photo. *)
Definition compute_hashes (cards : list (VoterRow * string))
  : list (string * ImageHash * VoterRow) :=
  omap (λ c : VoterRow * string,
          img_hash ← average_hash c.2; Some (card_id c.1, img_hash, c.1))
       cards.

(** The body of the double loop of [detect_exact_duplicate_photos]. *)
Definition duplicate_photo_pair (x1 x2 : string * ImageHash * VoterRow)
  : option FraudFinding :=
  let '(card_1, hash_1, row_1) := x1 in
  let '(card_2, hash_2, row_2) := x2 in
  let hash_diff := hash_sub hash_1 hash_2 in
  if decide (hash_diff ≤ 10)%nat then
    let similarity_percent := photo_similarity_percent hash_diff in
    let likelihood :=
      if decide (hash_diff ≤ 5)%nat
      then "🚨 EXACT SAME PHOTO - DEFINITE FRAUD"
      else "VERY SIMILAR PHOTO - LIKELY FRAUD" in
    Some (DUPLICATE_PHOTO {|
      DuplicatePhoto.card_1 := card_1;
      DuplicatePhoto.card_2 := card_2;
      DuplicatePhoto.name_1 := or_na (name row_1);
      DuplicatePhoto.name_2 := or_na (name row_2);
      DuplicatePhoto.father_1 := or_na (father_husband_name row_1);
      DuplicatePhoto.father_2 := or_na (father_husband_name row_2);
      DuplicatePhoto.photo_similarity := py_round similarity_percent 2;
      DuplicatePhoto.hash_difference := hash_diff;
      DuplicatePhoto.likelihood := likelihood
    |})
  else None.

Definition detect_exact_duplicate_photos (df : list VoterRow)
  : list FraudFinding :=
  let cards := cards_with_faces df in
  if decide (length cards < 2) then []
  else scan_pairs duplicate_photo_pair (compute_hashes cards).

(** ** The whole run *)

(** [detect_all_frauds]: the frame it returns is the list of its rows.
    The function has no [raise] and no check of the frame, so every call
    returns. *)
Definition detect_all_frauds (df : list VoterRow)
  : outcome (list FraudFinding) :=
  let scenario_1 := detect_scenario_1_fake_details df in
  let scenario_2 := detect_scenario_2_fake_face df in
  let scenario_2b := detect_exact_duplicate_photos df in
  let scenario_3 := detect_address_anomalies df 30 in
  let all_frauds := scenario_1 ++ scenario_2 ++ scenario_2b ++ scenario_3 in
  match all_frauds with
  | [] => Returned []
  | _ :: _ => Returned all_frauds
  end.

End Detector.

(** ** Vocabulary of the properties *)

(** Both cells of a column are present. *)
Definition both_present {V : Type} (v1 v2 : option V) : bool :=
  match v1, v2 with Some _, Some _ => true | _, _ => false end.

(** Both cells of a column are present and hold the same value. *)
Definition present_and_equal {V : Type} (v1 v2 : option V) : Prop :=
  ∃ v, v1 = Some v ∧ v2 = Some v.

(** Whenever both cells of a column are present, they hold the same
    value. *)
Definition equal_if_both_present {V : Type} (v1 v2 : option V) : Prop :=
  ∀ a b, v1 = Some a → v2 = Some b → a = b.

(** The condition under which two rows are a fake-details pair. *)
Definition details_criteria (row1 row2 : VoterRow) : Prop :=
  present_and_equal (name row1) (name row2)
  ∧ present_and_equal (father_husband_name row1) (father_husband_name row2)
  ∧ equal_if_both_present (age row1) (age row2)
  ∧ equal_if_both_present (gender row1) (gender row2).

(** The columns among name, father/husband, age and gender that are
    present on both rows (for a pair that meets [details_criteria] these
    are the columns that matched). *)
Definition fields_present_on_both (row1 row2 : VoterRow) : list string :=
  (if both_present (name row1) (name row2) then ["name"] else [])
  ++ (if both_present (father_husband_name row1) (father_husband_name row2)
      then ["father/husband"] else [])
  ++ (if both_present (age row1) (age row2) then ["age"] else [])
  ++ (if both_present (gender row1) (gender row2) then ["gender"] else []).

(** A column is present on both rows and its two values are equal. *)
Definition matched {V : Type} `{EqDecision V} (v1 v2 : option V) : bool :=
  match v1, v2 with
  | Some a, Some b => bool_decide (a = b)
  | _, _ => false
  end.

(** The columns among name, father/husband, age and gender that are
    present on both rows and matched, in that order. *)
Definition fields_matched (row1 row2 : VoterRow) : list string :=
  (if matched (name row1) (name row2) then ["name"] else [])
  ++ (if matched (father_husband_name row1) (father_husband_name row2)
      then ["father/husband"] else [])
  ++ (if matched (age row1) (age row2) then ["age"] else [])
  ++ (if matched (gender row1) (gender row2) then ["gender"] else []).

(** Rows for the examples: the same name and father throughout; [row_a]
    and [row_b] carry different ages, [row_c] has no age. *)
Definition row_a : VoterRow :=
  mkRow "page_1_card_1" (Some "RAM KUMAR") (Some "SHYAM LAL") (Some 34%Z)
        (Some "M") (Some "12") None None.

Definition row_b : VoterRow :=
  mkRow "page_1_card_2" (Some "RAM KUMAR") (Some "SHYAM LAL") (Some 43%Z)
        (Some "M") (Some "12") None None.

Definition row_c : VoterRow :=
  mkRow "page_1_card_3" (Some "RAM KUMAR") (Some "SHYAM LAL") None
        (Some "M") (Some "12") None None.

(** The pairs of positions of the double loop, as the two [range]s
    enumerate them: [i] over [range(n)], [j] over [range(i + 1, n)]. *)
Definition range_pairs (n : nat) : list (nat * nat) :=
  i ← seq 0 n; (λ j, (i, j)) <$> seq (S i) (n - S i).

(** The loop body run at a pair of positions of the scanned list. *)
Definition body_at {A B : Type} (body : A → A → option B) (xs : list A)
    (p : nat * nat) : option B :=
  x1 ← xs !! p.1; x2 ← xs !! p.2; body x1 x2.

(** The two cards a pairwise finding names, in the order it names them. *)
Definition pair_cards (f : FraudFinding) : option (string * string) :=
  match f with
  | FAKE_DETAILS d => Some (FakeDetails.card_1 d, FakeDetails.card_2 d)
  | FAKE_FACE d => Some (FakeFace.card_1 d, FakeFace.card_2 d)
  | DUPLICATE_PHOTO d =>
      Some (DuplicatePhoto.card_1 d, DuplicatePhoto.card_2 d)
  | ADDRESS_ANOMALY _ => None
  end.

(** Card [a] is at an earlier position of the frame than card [b]. *)
Definition earlier_in (df : list VoterRow) (a b : string) : Prop :=
  ∃ i j, (i < j)%nat ∧ card_id <$> df !! i = Some a
         ∧ card_id <$> df !! j = Some b.

(** No two findings name the same two cards, in either order, and each
    finding names the earlier card first. *)
Definition reported_once_in_scan_order (df : list VoterRow)
    (findings : list FraudFinding) : Prop :=
  NoDup (pair_cards <$> findings)
  ∧ (∀ f, f ∈ findings →
       ∃ a b, pair_cards f = Some (a, b) ∧ earlier_in df a b)
  ∧ (∀ a b, Some (a, b) ∈ pair_cards <$> findings →
       Some (b, a) ∉ pair_cards <$> findings).

(** Collaborators for the examples. The distance of two encodings is the
    absolute difference of their first numbers; photos hash to a grid
    whose first [k] bits are set, [k] being the length of the path, and
    a path that starts with ['!'] cannot be opened. *)
Definition first_number_distance (e1 e2 : encoding) : float :=
  PrimFloat.abs (hd 0%float e1 - hd 0%float e2)%float.

Definition leading_ones_bits (k : nat) : list bool :=
  (λ i, bool_decide (i < k)%nat) <$> seq 0 hash_bit_length.

Definition leading_ones (k : nat) : ImageHash :=
  mkHash (leading_ones_bits k)
         (eq_trans (length_fmap _ _) (length_seq _ _)).

Definition path_length_hash (path : string) : option ImageHash :=
  match path with
  | String "!"%char _ => None
  | _ => Some (leading_ones (String.length path))
  end.

(** [similarity_percent] of two encodings. *)
Definition similarity_percent_of (face_distance : encoding → encoding → float)
    (enc1 enc2 : encoding) : float :=
  ((1 - face_distance enc1 enc2) * 100)%float.

Definition CRITICAL_SAME_FACE : string :=
  "🚨 CRITICAL FRAUD - SAME FACE, DIFFERENT NAMES".

Definition LIKELY_SAME_PERSON : string := "LIKELY FRAUD - SAME PERSON".

(** Rows with a face for the examples. Under [first_number_distance] the
    distance from [face_anita] is the number in the other encoding. *)
Definition face_row (card : string) (nm : option string) (x : float)
  : VoterRow * encoding :=
  (mkRow card nm None None None None (Some [x]) None, [x]).

Definition face_anita : VoterRow * encoding :=
  face_row "page_2_card_1" (Some "ANITA DEVI") 0%float.

Definition face_sunita (distance : float) : VoterRow * encoding :=
  face_row "page_2_card_2" (Some "SUNITA DEVI") distance.

Definition face_anita_again (distance : float) : VoterRow * encoding :=
  face_row "page_2_card_3" (Some "ANITA DEVI") distance.

Definition face_unnamed (distance : float) : VoterRow * encoding :=
  face_row "page_2_card_4" None distance.

(** The scoring rule of the face matcher for a finding [d] of two rows
    with similarity [sim]; [round] is what is applied to the score before
    it is stored. *)
Definition face_scoring_rule (round : float → float)
    (row1 row2 : VoterRow) (sim : float) (d : FakeFace.t) : Prop :=
  (∀ n1 n2, name row1 = Some n1 → name row2 = Some n2 → n1 ≠ n2 →
     FakeFace.confidence_score d = round (sim + 5)%float
     ∧ FakeFace.likelihood d = CRITICAL_SAME_FACE)
  ∧ (∀ n, name row1 = Some n → name row2 = Some n →
       FakeFace.confidence_score d = round (sim - 5)%float
       ∧ FakeFace.likelihood d = LIKELY_SAME_PERSON)
  ∧ (name row1 = None ∨ name row2 = None →
       FakeFace.confidence_score d = round sim
       ∧ FakeFace.likelihood d = LIKELY_SAME_PERSON).

Definition EXACT_SAME_PHOTO : string :=
  "🚨 EXACT SAME PHOTO - DEFINITE FRAUD".

Definition VERY_SIMILAR_PHOTO : string :=
  "VERY SIMILAR PHOTO - LIKELY FRAUD".

(** Rows with a photo for the examples; under [path_length_hash] the
    hashes of two photos differ in as many bits as their paths differ in
    length. *)
Definition photo_row (card path : string) : VoterRow :=
  mkRow card None None None None None None (Some path).

Definition photo_0 : VoterRow := photo_row "page_3_card_1" "a.jpg".
Definition photo_5 : VoterRow := photo_row "page_3_card_2" "photo5.jpg".
Definition photo_6 : VoterRow := photo_row "page_3_card_3" "photo_6.jpg".
Definition photo_8 : VoterRow := photo_row "page_3_card_4" "photo_008.jpg".
Definition photo_11 : VoterRow := photo_row "page_3_card_5" "photo_000011.jpg".

(** The percentage the description asks for, over the bits of the hash. *)
Definition percent_of_hash_bits (hash_diff : nat) : float :=
  ((1 - float_of_Z (Z.of_nat hash_diff)
        / float_of_Z (Z.of_nat hash_bit_length)) * 100)%float.

(** The number of rows of the frame whose house number is [h]. *)
Definition group_size (df : list VoterRow) (h : string) : nat :=
  length (filter (λ row, house_number row = Some h) df).

(** The house an address finding is about. *)
Definition anomaly_house (f : FraudFinding) : option string :=
  match f with
  | ADDRESS_ANOMALY d => Some (AddressAnomaly.house_number d)
  | _ => None
  end.

(** The findings of a run that are about house [h]. *)
Definition findings_for_house (h : string) (findings : list FraudFinding)
  : list FraudFinding :=
  filter (λ f, anomaly_house f = Some h) findings.

(** A frame of [n] voters who all live at house [h]. *)
Definition crowded_house (h : string) (n : nat) : list VoterRow :=
  (λ i, mkRow ("card_" +:+ pretty i) (Some ("VOTER " +:+ pretty i)) None None
              None (Some h) None None) <$> seq 0 n.

Definition row_without_house : VoterRow :=
  mkRow "page_4_card_1" (Some "RAM KUMAR") (Some "SHYAM LAL") None None
        None None None.

(** The kind of a finding, its ['fraud_type']. *)
Definition is_fake_details (f : FraudFinding) : Prop :=
  ∃ d, f = FAKE_DETAILS d.

Definition is_fake_face (f : FraudFinding) : Prop := ∃ d, f = FAKE_FACE d.

Definition is_duplicate_photo (f : FraudFinding) : Prop :=
  ∃ d, f = DUPLICATE_PHOTO d.

Definition is_address_anomaly (f : FraudFinding) : Prop :=
  ∃ d, f = ADDRESS_ANOMALY d.

(** Two cards with the same details and nearly the same face. *)
Definition twin_1 : VoterRow :=
  mkRow "page_5_card_1" (Some "GITA RANI") (Some "MOHAN LAL") (Some 52%Z)
        (Some "F") (Some "7") (Some [0.25%float]) None.

Definition twin_2 : VoterRow :=
  mkRow "page_5_card_2" (Some "GITA RANI") (Some "MOHAN LAL") (Some 52%Z)
        (Some "F") (Some "7") (Some [0.375%float]) None.

(** The two cards of a pair, exchanged. *)
Definition swap_cards (p : option (string * string))
  : option (string * string) :=
  match p with Some (a, b) => Some (b, a) | None => None end.
(** The value under the key ['fraud_type'] of a finding. *)
Definition fraud_type (f : FraudFinding) : string :=
  match f with
  | FAKE_DETAILS _ => "FAKE_DETAILS"
  | FAKE_FACE _ => "FAKE_FACE"
  | DUPLICATE_PHOTO _ => "DUPLICATE_PHOTO"
  | ADDRESS_ANOMALY _ => "ADDRESS_ANOMALY"
  end.

(** [frauds_df[frauds_df['fraud_type'] == t]]: the rows of the report of
    one type, in report order. *)
Definition of_fraud_type (t : string) (frauds : list FraudFinding)
  : list FraudFinding :=
  filter (λ f, fraud_type f = t) frauds.

(** ** Card segmentation ([src/card_segmenter.py])

    Further conventions: a call that can raise is an [outcome], chained
    with [x ← call; rest]; a page number is a natural number, counted
    from 0 as the docstrings say; writing a file is left out, like
    printing. *)

#[global] Instance outcome_ret : MRet outcome := λ A a, Returned a.

#[global] Instance outcome_bind : MBind outcome := λ A B k m,
  match m with
  | Returned a => k a
  | Raised exc => Raised exc
  end.

(** A single-channel 8-bit image, as the line detection produces it: its
    shape and its pixels, [img_pixel y x] being the pixel of row [y] and
    column [x]. *)
Record GrayImage : Type := mkGray {
  img_height : nat;
  img_width : nat;
  img_pixel : nat → nat → Byte.byte
}.

(** The sum of a list of pixel values. *)
Definition pixel_sum (pixels : list Byte.byte) : Z :=
  foldr (λ p acc, (Z.of_N (Byte.to_N p) + acc)%Z) 0%Z pixels.

(** [np.sum(line_image, axis=0)] for ['vertical'], one sum per column;
    [np.sum(line_image, axis=1)] otherwise, one sum per row. *)
Definition projection_of (line_image : GrayImage) (direction : string)
  : list Z :=
  if decide (direction = "vertical")
  then (λ x, pixel_sum ((λ y, img_pixel line_image y x)
                          <$> seq 0 (img_height line_image)))
         <$> seq 0 (img_width line_image)
  else (λ y, pixel_sum (img_pixel line_image y
                          <$> seq 0 (img_width line_image)))
         <$> seq 0 (img_height line_image).

(** [np.max(projection)] on a projection that is not empty. *)
Definition projection_max (projection : list Z) : Z :=
  foldr Z.max 0%Z projection.

(** [projection[i] > threshold]. *)
Definition above_threshold (projection : list Z) (threshold : float)
    (i : nat) : bool :=
  (threshold <? float_of_Z (projection !!! i))%float.

(** One round of the loop of [find_line_positions]. *)
Definition line_step (projection : list Z) (threshold : float)
    (line_positions : list nat) (i : nat) : list nat :=
  if above_threshold projection threshold i then
    match last line_positions with
    | None => line_positions ++ [i]
    | Some previous =>
        if decide (20 < Z.of_nat i - Z.of_nat previous)%Z
        then line_positions ++ [i]
        else line_positions
    end
  else line_positions.

(** [find_line_positions]; [np.max] raises on an empty projection. *)
Definition find_line_positions (line_image : GrayImage) (direction : string)
  : outcome (list nat) :=
  let projection := projection_of line_image direction in
  match projection with
  | [] => Raised "ValueError"
  | _ :: _ =>
      let threshold := (float_of_Z (projection_max projection) * 0.3)%float in
      Returned (foldl (line_step projection threshold) []
                      (seq 0 (length projection)))
  end.

(** A bounding box [(x, y, w, h)]. *)
Definition box : Type := Z * Z * Z * Z.

(** [extract_cards_from_grid]; [shape] is [(image.shape[0],
    image.shape[1])], the height and the width of the page image. *)
Definition extract_cards_from_grid (shape : nat * nat)
    (v_lines h_lines : list Z) : list box :=
  i ← seq 0 (length v_lines - 1);
  j ← seq 0 (length h_lines - 1);
  let x1 := v_lines !!! i in
  let x2 := v_lines !!! (i + 1)%nat in
  let y1 := h_lines !!! j in
  let y2 := h_lines !!! (j + 1)%nat in
  let w := (x2 - x1)%Z in
  let h := (y2 - y1)%Z in
  if bool_decide (100 < w)%Z && bool_decide (100 < h)%Z
     && (float_of_Z w <? float_of_Z (Z.of_nat shape.2) * 0.9)%float
     && (float_of_Z h <? float_of_Z (Z.of_nat shape.1) * 0.9)%float
  then [(x1, y1, w, h)]
  else [].

Module CardInfo.
Record t : Type := mk {
  page : nat;
  card_index : nat;
  path : string;
  bbox : box;
  dimensions : Z * Z
}.
End CardInfo.

(** The bound of a slice of a sequence of length [n], as Python places
    it: a negative bound counts from the end, and both ends are kept
    within the sequence. *)
Definition slice_bound (n i : Z) : Z :=
  if (i <? 0)%Z then Z.max (i + n) 0 else Z.min i n.

(** [len(seq[a:b])]. *)
Definition slice_length (n a b : Z) : Z :=
  Z.max 0 (slice_bound n b - slice_bound n a).

(** [f"page_{page_num + 1}_card_{idx + 1}.jpg"]. *)
Definition card_filename (page_num idx : nat) : string :=
  "page_" +:+ pretty (page_num + 1)%nat +:+ "_card_"
  +:+ pretty (idx + 1)%nat +:+ ".jpg".

(** The body of the loop of [crop_cards_from_image] for the box at
    position [idx]; [path_of name] is [str(self.output_dir / name)]. *)
Definition crop_card (path_of : string → string) (shape : nat * nat)
    (page_num : nat) (idx : nat) (b : box) : option CardInfo.t :=
  let '(x, y, w, h) := b in
  let padding := 5%Z in
  let x1 := Z.max 0 (x + padding) in
  let y1 := Z.max 0 (y + padding) in
  let x2 := Z.min (Z.of_nat shape.2) (x + w - padding) in
  let y2 := Z.min (Z.of_nat shape.1) (y + h - padding) in
  let card_img_shape :=
    (slice_length (Z.of_nat shape.1) y1 y2,
     slice_length (Z.of_nat shape.2) x1 x2) in
  if bool_decide (card_img_shape.1 < 50)%Z
     || bool_decide (card_img_shape.2 < 50)%Z
  then None
  else Some {|
    CardInfo.page := (page_num + 1)%nat;
    CardInfo.card_index := (idx + 1)%nat;
    CardInfo.path := path_of (card_filename page_num idx);
    CardInfo.bbox := (x, y, w, h);
    CardInfo.dimensions := (w, h)
  |}.

(** [crop_cards_from_image]: the boxes with their positions, as
    [enumerate] gives them, through the loop body. *)
Definition crop_cards_from_image (path_of : string → string)
    (shape : nat * nat) (card_boxes : list box) (page_num : nat)
  : list CardInfo.t :=
  omap (λ ib : nat * box, crop_card path_of shape page_num ib.1 ib.2)
       (zip (seq 0 (length card_boxes)) card_boxes).

(** What the rendering of a page and [detect_grid_lines] give: the shape
    of the page image and the two images of lines, which have that
    shape. *)
Record PageScan : Type := mkScan {
  scan_height : nat;
  scan_width : nat;
  vertical_pixels : nat → nat → Byte.byte;
  horizontal_pixels : nat → nat → Byte.byte
}.

Section Segmenter.

(** The collaborators: [render_page n] is [pdf_page_to_image(n)] followed
    by [detect_grid_lines], two methods made of calls of PyMuPDF and
    OpenCV, raising what these raise; [path_of name] is
    [str(self.output_dir / name)]; [page_count] is [len(self.doc)]. *)
Variable render_page : nat → outcome PageScan.
Variable path_of : string → string.
Variable page_count : nat.

(** [process_page]; the visualisation only writes a file. *)
Definition process_page (page_num : nat) : outcome (list CardInfo.t) :=
  scan ← render_page page_num;
  let shape := (scan_height scan, scan_width scan) in
  let vertical_lines :=
    mkGray (scan_height scan) (scan_width scan) (vertical_pixels scan) in
  let horizontal_lines :=
    mkGray (scan_height scan) (scan_width scan) (horizontal_pixels scan) in
  v_line_positions ← find_line_positions vertical_lines "vertical";
  h_line_positions ← find_line_positions horizontal_lines "horizontal";
  if decide (length v_line_positions < 2 ∨ length h_line_positions < 2)%nat
  then mret []
  else
    let card_boxes :=
      extract_cards_from_grid shape (Z.of_nat <$> v_line_positions)
                              (Z.of_nat <$> h_line_positions) in
    mret (crop_cards_from_image path_of shape card_boxes page_num).

(** The loop of [process_all_pages] over the pages still to do. *)
Fixpoint process_pages (pages : list nat) (all_cards : list CardInfo.t)
  : outcome (list CardInfo.t) :=
  match pages with
  | [] => mret all_cards
  | page_num :: rest =>
      cards ← process_page page_num;
      process_pages rest (all_cards ++ cards)
  end.

(** [process_all_pages]. [None] is Python's [None]; the average of the
    summary is a division, which raises when the divisor is 0. *)
Definition process_all_pages (start_page : nat) (end_page : option nat)
    (sample_size : option nat) : outcome (list CardInfo.t) :=
  let end_page := default page_count end_page in
  let end_page :=
    match sample_size with
    | None | Some 0%nat => end_page
    | Some n => (start_page + n)%nat `min` end_page
    end in
  all_cards ← process_pages (seq start_page (end_page - start_page)) [];
  match all_cards with
  | [] => mret all_cards
  | _ :: _ =>
      if decide (Z.of_nat end_page - Z.of_nat start_page = 0)%Z
      then Raised "ZeroDivisionError"
      else mret all_cards
  end.

End Segmenter.

(** ** Vocabulary of the segmentation properties *)

(** Position [q] is more than 20 pixels after position [p]. *)
Definition well_after (p q : nat) : Prop := (p + 20 < q)%nat.

(** An image of lines for the examples: [height] rows, [width] columns,
    white at the columns listed in [white] and black elsewhere. *)
Definition striped (height width : nat) (white : list nat) : GrayImage :=
  mkGray height width
    (λ _ x, if bool_decide (x ∈ white) then Byte.xff else Byte.x00).

(** What holds of the line positions collected in the first [k] rounds
    of the loop: they are more than 20 apart, each is a position before
    [k] above the threshold, and every such position is at most 20 after
    one of them. *)
Definition lines_invariant (projection : list Z) (threshold : float)
    (k : nat) (lines : list nat) : Prop :=
  Sorted well_after lines
  ∧ Forall (λ p, (p < k)%nat ∧ above_threshold projection threshold p = true)
           lines
  ∧ (∀ i, (i < k)%nat → above_threshold projection threshold i = true →
       ∃ p, p ∈ lines ∧ (p ≤ i ≤ p + 20)%nat).

(** The cell of the grid between line [i] and the next vertical line and
    between line [j] and the next horizontal line, as a box. *)
Definition grid_cell (v_lines h_lines : list Z) (i j : nat) : box :=
  (v_lines !!! i, h_lines !!! j,
   (v_lines !!! (i + 1)%nat - v_lines !!! i)%Z,
   (h_lines !!! (j + 1)%nat - h_lines !!! j)%Z).

(** Two boxes share no pixel. *)
Definition boxes_disjoint (b1 b2 : box) : Prop :=
  let '(x1, y1, w1, h1) := b1 in
  let '(x2, y2, w2, h2) := b2 in
  (x1 + w1 ≤ x2 ∨ x2 + w2 ≤ x1 ∨ y1 + h1 ≤ y2 ∨ y2 + h2 ≤ y1)%Z.

(** Any two items at different positions of a list are related. *)
Definition pairwise {A : Type} (R : A → A → Prop) (l : list A) : Prop :=
  ∀ p q a b, (p < q)%nat → l !! p = Some a → l !! q = Some b → R a b.

(** A box lies within an image of the given shape and is at least 60
    wide and 60 high. *)
Definition box_fits (shape : nat * nat) (b : box) : Prop :=
  let '(x, y, w, h) := b in
  (0 ≤ x ∧ x + w ≤ Z.of_nat shape.2 ∧ 60 ≤ w
   ∧ 0 ≤ y ∧ y + h ≤ Z.of_nat shape.1 ∧ 60 ≤ h)%Z.

(** The character [c] does not occur in a string. *)
Fixpoint free_of (c : ascii) (s : string) : Prop :=
  match s with
  | EmptyString => True
  | String c' rest => c' ≠ c ∧ free_of c rest
  end.

(** A page scan for the examples: 130 rows of 240 pixels, vertical lines
    at columns 0, 110 and 220, horizontal lines at rows 0 and 110. *)
Definition sample_scan : PageScan :=
  mkScan 130 240
    (λ _ x, if bool_decide (x ∈ [0; 110; 220]%nat)
            then Byte.xff else Byte.x00)
    (λ y _, if bool_decide (y ∈ [0; 110]%nat) then Byte.xff else Byte.x00).

(** A document of five pages, all like [sample_scan]; a page beyond the
    last cannot be rendered. *)
Definition sample_render (page_num : nat) : outcome PageScan :=
  if decide (page_num < 5)%nat then Returned sample_scan
  else Raised "IndexError".

(** A box lies within an image of the given shape and is more than 100
    wide and more than 100 high. *)
Definition card_sized_within (shape : nat * nat) (b : box) : Prop :=
  let '(x, y, w, h) := b in
  (0 ≤ x ∧ x + w < Z.of_nat shape.2 ∧ 100 < w
   ∧ 0 ≤ y ∧ y + h < Z.of_nat shape.1 ∧ 100 < h)%Z.

(** ** The final statistics of the pipeline ([src/main.py]) *)

(** What [main] works out for its last lines from [len(voter_data)] and
    the report the detector returned: nothing for an empty report,
    otherwise the number of its rows of the first and of the second
    scenario and the fraud rate in percent. Dividing by 0 raises. *)
Definition final_statistics (voter_count : nat) (frauds : list FraudFinding)
  : outcome (option (nat * nat * float)) :=
  if decide (0 < length frauds)%nat then
    let scenario_1 := length (of_fraud_type "FAKE_DETAILS" frauds) in
    let scenario_2 := length (of_fraud_type "FAKE_FACE" frauds) in
    if decide (voter_count = 0)%nat then Raised "ZeroDivisionError"
    else
      let fraud_rate :=
        (float_of_Z (Z.of_nat (length frauds))
         / float_of_Z (Z.of_nat voter_count) * 100)%float in
      mret (Some (scenario_1, scenario_2, fraud_rate))
  else mret None.

(** ** The review report ([src/generate_fraud_review_report.py])

    The two frames are taken as [pd.read_csv] gives them: the report of
    the detector, a row of a kind having NaN in the columns of the other
    kinds, and the voter frame. *)

(** A row of [review_data]. The cells copied from the voter frame keep
    its NaN as [None]; the text of ['similarity'] is kept as the number
    it starts with, if it is formatted from one, and the text after. *)
Module ReviewRow.
Record t : Type := mk {
  fraud_number : nat;
  fraud_type : string;
  card_1 : option string;
  card_1_name : option string;
  card_1_father : option string;
  card_1_age : option Z;
  card_1_house : option string;
  card_2 : option string;
  card_2_name : option string;
  card_2_father : option string;
  card_2_age : option Z;
  card_2_house : option string;
  similarity : option float * string;
  recommendation : string;
  decision : string
}.
End ReviewRow.

(** The columns of the report frame are the keys of all its rows taken
    together: ['card_1'] and ['card_2'] are columns when some row is
    about a pair of cards. *)
Definition has_card_columns (frauds_df : list FraudFinding) : Prop :=
  Exists (λ f, is_Some (pair_cards f)) frauds_df.

(** [fraud['card_1']] and [fraud['card_2']]: a KeyError without the
    column, NaN in a row of a kind without the key. *)
Definition card_cell (frauds_df : list FraudFinding)
    (side : string * string → string) (fraud : FraudFinding)
  : outcome (option string) :=
  if decide (has_card_columns frauds_df)
  then mret (side <$> pair_cards fraud)
  else Raised "KeyError".

(** [voters_df[voters_df['card_id'] == card].iloc[0]]: the first row of
    that card; NaN equals no card id, and [iloc[0]] raises when no row
    is left. *)
Definition first_voter (voters_df : list VoterRow) (card : option string)
  : outcome VoterRow :=
  match filter (λ voter, Some (card_id voter) = card) voters_df with
  | [] => Raised "IndexError"
  | voter :: _ => mret voter
  end.

(** The dictionary the two branches append, with the cells in which they
    differ as arguments. *)
Definition review_record (idx : nat) (review_type : string)
    (card_1 card_2 : option string) (voter_1 voter_2 : VoterRow)
    (similarity : option float * string) (recommendation : string)
  : ReviewRow.t := {|
  ReviewRow.fraud_number := (idx + 1)%nat;
  ReviewRow.fraud_type := review_type;
  ReviewRow.card_1 := card_1;
  ReviewRow.card_1_name := name voter_1;
  ReviewRow.card_1_father := father_husband_name voter_1;
  ReviewRow.card_1_age := age voter_1;
  ReviewRow.card_1_house := house_number voter_1;
  ReviewRow.card_2 := card_2;
  ReviewRow.card_2_name := name voter_2;
  ReviewRow.card_2_father := father_husband_name voter_2;
  ReviewRow.card_2_age := age voter_2;
  ReviewRow.card_2_house := house_number voter_2;
  ReviewRow.similarity := similarity;
  ReviewRow.recommendation := recommendation;
  ReviewRow.decision := "PENDING (Needs human review)"
|}.

(** The body of the loop over the rows of the report: what it appends to
    [review_data] for the row [fraud] at index [idx]. *)
Definition review_entry (frauds_df : list FraudFinding)
    (voters_df : list VoterRow) (idx : nat) (fraud : FraudFinding)
  : outcome (list ReviewRow.t) :=
  card_1 ← card_cell frauds_df fst fraud;
  card_2 ← card_cell frauds_df snd fraud;
  voter_1 ← first_voter voters_df card_1;
  voter_2 ← first_voter voters_df card_2;
  match fraud with
  | FAKE_DETAILS _ =>
      mret [review_record idx "DUPLICATE_DETAILS" card_1 card_2
              voter_1 voter_2 (None, "100% (all details match)")
              "REVIEW DOCUMENT QUALITY - Keep earlier card as original"]
  | FAKE_FACE d =>
      let similarity := FakeFace.face_similarity_percent d in
      mret [review_record idx "DUPLICATE_FACE" card_1 card_2
              voter_1 voter_2 (Some similarity, "% (SAME PERSON)")
              "LIKELY FRAUD - Same person, different details"]
  | _ => mret []
  end.

(** The loop over [frauds_df.iterrows()], on the rows still to do. *)
Fixpoint review_loop (frauds_df : list FraudFinding)
    (voters_df : list VoterRow) (rows : list (nat * FraudFinding))
    (review_data : list ReviewRow.t) : outcome (list ReviewRow.t) :=
  match rows with
  | [] => mret review_data
  | (idx, fraud) :: rest =>
      entry ← review_entry frauds_df voters_df idx fraud;
      review_loop frauds_df voters_df rest (review_data ++ entry)
  end.

(** [generate_fraud_review_report]: the review frame it wrote to
    [fraud_review_report.csv], if it came to write one, and how the call
    ended. The summary after the writing selects the column
    ['fraud_type'] of the review frame, which a frame made of no row
    does not have. *)
Definition generate_fraud_review_report (frauds_df : list FraudFinding)
    (voters_df : list VoterRow)
  : option (list ReviewRow.t) * outcome unit :=
  if decide (length frauds_df = 0)%nat then (None, mret ())
  else
    match review_loop frauds_df voters_df
            (zip (seq 0 (length frauds_df)) frauds_df) [] with
    | Raised exc => (None, Raised exc)
    | Returned review_data =>
        (Some review_data,
         match review_data with
         | [] => Raised "KeyError"
         | _ :: _ => mret ()
         end)
    end.

(** ** Vocabulary of the review properties *)

(** A row of the report that the review takes up. *)
Definition reviewed (f : FraudFinding) : Prop :=
  fraud_type f = "FAKE_DETAILS" ∨ fraud_type f = "FAKE_FACE".

(** A row of the report about two cards that are both in the voter
    frame. *)
Definition cards_known (voters_df : list VoterRow) (f : FraudFinding)
  : Prop :=
  ∃ c1 c2, pair_cards f = Some (c1, c2)
    ∧ c1 ∈ card_id <$> voters_df ∧ c2 ∈ card_id <$> voters_df.

(** The cells a review row copies from a voter row. *)
Definition voter_cells (voter : VoterRow)
  : option string * option string * option Z * option string :=
  (name voter, father_husband_name voter, age voter, house_number voter).

(** Three cards with the same details and the same face. *)
Definition triplet : list VoterRow :=
  [twin_1; twin_2;
   mkRow "page_6_card_4" (Some "GITA RANI") (Some "MOHAN LAL") (Some 52%Z)
         (Some "F") (Some "7") (Some [0.3125%float]) None].

(** [voter] is the first row of the voter frame with card id [c]. *)
Definition first_with_card (voters_df : list VoterRow) (c : string)
    (voter : VoterRow) : Prop :=
  ∃ i, voters_df !! i = Some voter ∧ card_id voter = c
    ∧ ∀ j voter', (j < i)%nat → voters_df !! j = Some voter' →
        card_id voter' ≠ c.

(** [r] is the review row for the row [fraud] at index [idx] of the
    report: numbered from 1, with the two cards of the row, the details
    of the first voter row of each card, and the type and the similarity
    text of the kind of the row. *)
Definition review_of (voters_df : list VoterRow) (idx : nat)
    (fraud : FraudFinding) (r : ReviewRow.t) : Prop :=
  ReviewRow.fraud_number r = (idx + 1)%nat
  ∧ ∃ c1 c2 voter_1 voter_2,
      pair_cards fraud = Some (c1, c2)
      ∧ ReviewRow.card_1 r = Some c1 ∧ ReviewRow.card_2 r = Some c2
      ∧ first_with_card voters_df c1 voter_1
      ∧ first_with_card voters_df c2 voter_2
      ∧ (ReviewRow.card_1_name r, ReviewRow.card_1_father r,
         ReviewRow.card_1_age r, ReviewRow.card_1_house r)
        = voter_cells voter_1
      ∧ (ReviewRow.card_2_name r, ReviewRow.card_2_father r,
         ReviewRow.card_2_age r, ReviewRow.card_2_house r)
        = voter_cells voter_2
      ∧ match fraud with
        | FAKE_DETAILS _ =>
            ReviewRow.fraud_type r = "DUPLICATE_DETAILS"
            ∧ ReviewRow.similarity r = (None, "100% (all details match)")
        | FAKE_FACE d =>
            ReviewRow.fraud_type r = "DUPLICATE_FACE"
            ∧ ReviewRow.similarity r
              = (Some (FakeFace.face_similarity_percent d),
                 "% (SAME PERSON)")
        | _ => False
        end.

(** A voter frame for the examples: the three cards of one person and
    two cards with nearly the same photo. *)
Definition review_frame : list VoterRow := triplet ++ [photo_0; photo_5].

(** The report of a run of the detector on a frame. *)
Definition report_of_run (face_distance : encoding → encoding → float)
    (average_hash : string → option ImageHash) (df : list VoterRow)
  : list FraudFinding :=
  match detect_all_frauds face_distance average_hash df with
  | Returned frauds => frauds
  | Raised _ => []
  end.

(** ** The extraction of the voter frame ([src/google_vision.py]) *)

Section Extractor.

(** [card_files] is [sorted(self.cards_dir.glob("page_*_card_*.jpg"))].
    [process_card], the method of the class, is a parameter here: it is
    made of calls of OpenCV, [face_recognition], the Vision client and
    regular expressions, and gives [None] for a file that is no image, a
    row otherwise, or raises what these raise. *)
Variable card_files : list string.
Variable process_card : string → outcome (option VoterRow).

(** [card_files[:limit]]. *)
Definition first_files (limit : Z) : list string :=
  take (Z.to_nat (slice_bound (Z.of_nat (length card_files)) limit))
       card_files.

(** The loop of [process_all_cards] over the files still to do. *)
Fixpoint process_cards (files : list string) (results : list VoterRow)
  : outcome (list VoterRow) :=
  match files with
  | [] => mret results
  | card_path :: rest =>
      result ← process_card card_path;
      match result with
      | Some row => process_cards rest (results ++ [row])
      | None => process_cards rest results
      end
  end.

(** [process_all_cards]. The summary after the loop selects the column
    ['name'] of the frame, which a frame made of no row does not have. *)
Definition process_all_cards (limit : option Z)
  : outcome (list VoterRow) :=
  let card_files :=
    match limit with
    | None => card_files
    | Some n => if decide (n = 0)%Z then card_files else first_files n
    end in
  results ← process_cards card_files [];
  match results with
  | [] => Raised "KeyError"
  | _ :: _ => mret results
  end.

End Extractor.

(** ** The embedded images of a document ([src/pdf_processor.py]) *)

Module ImageInfo.
Record t : Type := mk {
  page : nat;
  index : nat;
  path : string;
  xref : Z
}.
End ImageInfo.

(** [f"page_{page_num + 1}_img_{img_index + 1}.{image_ext}"]. *)
Definition image_filename (page_num img_index : nat) (image_ext : string)
  : string :=
  "page_" +:+ pretty (page_num + 1)%nat +:+ "_img_"
  +:+ pretty (img_index + 1)%nat +:+ "." +:+ image_ext.

Section PDFProcessor.

(** The collaborators: [get_images n] is the reference numbers of
    [self.doc[n].get_images(full=True)]; [extract_image xref] is the
    extension of [self.doc.extract_image(xref)]; both raise what PyMuPDF
    raises; [path_of name] is [str(self.output_dir / name)];
    [page_count] is [len(self.doc)]. *)
Variable get_images : nat → outcome (list Z).
Variable extract_image : Z → outcome string.
Variable path_of : string → string.
Variable page_count : nat.

(** The loop of [extract_images_from_page] over the images still to
    do. *)
Fixpoint extract_images (page_num : nat) (image_list : list (nat * Z))
    (images : list ImageInfo.t) : outcome (list ImageInfo.t) :=
  match image_list with
  | [] => mret images
  | (img_index, xref) :: rest =>
      image_ext ← extract_image xref;
      let image_filename := image_filename page_num img_index image_ext in
      extract_images page_num rest
        (images ++ [{|
           ImageInfo.page := (page_num + 1)%nat;
           ImageInfo.index := (img_index + 1)%nat;
           ImageInfo.path := path_of image_filename;
           ImageInfo.xref := xref
         |}])
  end.

(** [extract_images_from_page]. *)
Definition extract_images_from_page (page_num : nat)
  : outcome (list ImageInfo.t) :=
  image_list ← get_images page_num;
  extract_images page_num (zip (seq 0 (length image_list)) image_list) [].

(** The loop of [extract_all_voter_images] over the pages still to do;
    [all_images] is the dictionary. *)
Fixpoint extract_pages (pages : list nat)
    (all_images : gmap.gmap nat (list ImageInfo.t))
  : outcome (gmap.gmap nat (list ImageInfo.t)) :=
  match pages with
  | [] => mret all_images
  | page_num :: rest =>
      images ← extract_images_from_page page_num;
      match images with
      | [] => extract_pages rest all_images
      | _ :: _ =>
          extract_pages rest (<[(page_num + 1)%nat := images]> all_images)
      end
  end.

(** [extract_all_voter_images]. *)
Definition extract_all_voter_images (start_page : nat)
  : outcome (gmap.gmap nat (list ImageInfo.t)) :=
  extract_pages (seq start_page (page_count - start_page)) ∅.

End PDFProcessor.

(** ** Vocabulary of the extraction properties *)

(** A card reader for the examples: a file with a name of 17 characters
    gives a row, any other file is no image. *)
Definition sample_process_card (card_path : string)
  : outcome (option VoterRow) :=
  if decide (String.length card_path = 17)%nat
  then mret (Some (photo_row card_path "face.jpg"))
  else mret None.

(** A document for the examples: five pages, two images on the third and
    one on the fifth. *)
Definition sample_get_images (page_num : nat) : outcome (list Z) :=
  if decide (page_num = 2)%nat then mret [11; 12]%Z
  else if decide (page_num = 4)%nat then mret [15]%Z
  else if decide (page_num < 5)%nat then mret []
  else Raised "IndexError".

(** The card ids of the frame a call returned. *)
Definition returned_cards (run : outcome (list VoterRow))
  : option (list string) :=
  match run with
  | Returned rows => Some (card_id <$> rows)
  | Raised _ => None
  end.

(** ** The report file between the detector and the review

    The review reads the report from the file that [generate_report]
    writes, [output/reports/fraud_detection_report.csv]. The content of
    the file is the frame it was written from, [None] standing for no
    file. *)

(** [generate_report], as far as the report file goes: [report_file] is
    the file before the call, the result is the file after it. For an
    empty report the method returns before it writes. *)
Definition generate_report (frauds_df : list FraudFinding)
    (report_file : option (list FraudFinding))
  : option (list FraudFinding) :=
  match frauds_df with
  | [] => report_file
  | _ :: _ => Some frauds_df
  end.

(** [generate_fraud_review_report] from the report file: [pd.read_csv]
    raises when there is no file. *)
Definition review_from_file (report_file : option (list FraudFinding))
    (voters_df : list VoterRow)
  : option (list ReviewRow.t) * outcome unit :=
  match report_file with
  | None => (None, Raised "FileNotFoundError")
  | Some frauds_df => generate_fraud_review_report frauds_df voters_df
  end.

(** * Properties *)

(** ** The pairwise scan *)

Section ScanPairs.
Context {A B : Type} (body : A → A → option B).

(** What the scan emits: exactly the results of the body on the pairs of
    positions [i < j]. *)
Lemma elem_of_scan_pairs (xs : list A) (y : B) :
  y ∈ scan_pairs body xs ↔
  ∃ i j x1 x2, (i < j)%nat ∧ xs !! i = Some x1 ∧ xs !! j = Some x2
               ∧ body x1 x2 = Some y.
Proof.
  induction xs as [|x rest IH]; simpl.
  - split; [intros H; inversion H|].
    intros (i & j & x1 & x2 & _ & H & _). by rewrite lookup_nil in H.
  - rewrite elem_of_app, list_elem_of_omap, IH. split.
    + intros [(x2 & Hin & Hb)|(i & j & x1 & x2 & Hlt & Hi & Hj & Hb)].
      * apply list_elem_of_lookup in Hin as [j Hj].
        exists 0%nat, (S j), x, x2. repeat split; [lia|done..].
      * exists (S i), (S j), x1, x2. repeat split; [lia|done..].
    + intros (i & j & x1 & x2 & Hlt & Hi & Hj & Hb).
      destruct j as [|j]; [lia|]. simpl in Hj.
      destruct i as [|i]; simpl in Hi.
      * left. injection Hi as ->. exists x2. split; [|done].
        by eapply list_elem_of_lookup_2.
      * right. exists i, j, x1, x2. repeat split; [lia|done..].
Qed.

Lemma scan_pairs_short (xs : list A) :
  (length xs < 2)%nat → scan_pairs body xs = [].
Proof.
  destruct xs as [|x [|x' xs]]; simpl; [done..|lia].
Qed.

End ScanPairs.

(** ** Scenario 1 *)

Lemma optional_check_Some {V : Type} `{EqDecision V}
    (v1 v2 : option V) (label : string) (mf mf' : list string) :
  optional_check v1 v2 label mf = Some mf' ↔
  equal_if_both_present v1 v2
  ∧ mf' = mf ++ (if both_present v1 v2 then [label] else []).
Proof.
  unfold optional_check, equal_if_both_present.
  destruct v1 as [a|], v2 as [b|]; simpl; rewrite ?app_nil_r.
  - destruct (decide (a ≠ b)) as [Hne|Heq].
    + split; [done|]. intros [Hab _]. destruct Hne. by apply Hab.
    + apply dec_stable in Heq. subst b. split.
      * intros [= <-]. split; [|done]. by intros ? ? [= <-] [= <-].
      * by intros [_ ->].
  - split; [intros [= <-]; split; [|done]; by intros ? ? _ [=]|by intros [_ ->]].
  - split; [intros [= <-]; split; [|done]; by intros ? ? [=]|by intros [_ ->]].
  - split; [intros [= <-]; split; [|done]; by intros ? ? [=]|by intros [_ ->]].
Qed.

(** The body of the first scan, read off as a specification. *)
Lemma fake_details_pair_Some (row1 row2 : VoterRow) (f : FraudFinding) :
  fake_details_pair row1 row2 = Some f ↔
  details_criteria row1 row2
  ∧ ∃ n fh, name row1 = Some n ∧ father_husband_name row1 = Some fh
    ∧ f = FAKE_DETAILS {|
        FakeDetails.card_1 := card_id row1;
        FakeDetails.card_2 := card_id row2;
        FakeDetails.name := n;
        FakeDetails.father_husband := fh;
        FakeDetails.age_1 := age_or_na (age row1);
        FakeDetails.age_2 := age_or_na (age row2);
        FakeDetails.gender_1 := or_na (gender row1);
        FakeDetails.gender_2 := or_na (gender row2);
        FakeDetails.matching_fields :=
          join " + " (fields_present_on_both row1 row2);
        FakeDetails.confidence := "100%";
        FakeDetails.likelihood := "DEFINITE FRAUD"
      |}.
Proof.
  unfold fake_details_pair, details_criteria, fields_present_on_both,
    present_and_equal.
  destruct (name row1) as [n1|], (name row2) as [n2|];
    try (split; [done|]; intros [((v & [=] & [=]) & _) _]).
  destruct (father_husband_name row1) as [f1|],
           (father_husband_name row2) as [f2|];
    try (split; [done|]; intros [(_ & (v & [=] & [=]) & _) _]).
  simpl. case_bool_decide as Hn; simpl.
  2:{ split; [done|]. intros [((v & [= ->] & [= ->]) & _) _]. done. }
  subst n2. case_bool_decide as Hf; simpl.
  2:{ split; [done|]. intros [(_ & (v & [= ->] & [= ->]) & _) _]. done. }
  subst f2.
  destruct (optional_check (age row1) (age row2) "age" _) as [mf1|] eqn:Ha;
    simpl.
  2:{ split; [done|]. intros [(_ & _ & Hage & _) _].
      assert (is_Some (optional_check (age row1) (age row2) "age"
                         ["name"; "father/husband"])) as [? Hs].
      { eexists. apply optional_check_Some. split; [done|reflexivity]. }
      congruence. }
  apply optional_check_Some in Ha as [Hage ->].
  destruct (optional_check (gender row1) (gender row2) "gender" _)
    as [mf2|] eqn:Hg; simpl.
  2:{ split; [done|]. intros [(_ & _ & _ & Hgen) _].
      assert (is_Some (optional_check (gender row1) (gender row2) "gender"
        (["name"; "father/husband"] ++
         (if both_present (age row1) (age row2) then ["age"] else []))))
        as [? Hs].
      { eexists. apply optional_check_Some. split; [done|reflexivity]. }
      congruence. }
  apply optional_check_Some in Hg as [Hgen ->].
  rewrite <- app_assoc. simpl. split.
  - intros [= <-]. split; [by eauto 10|]. by exists n1, f1.
  - intros [_ (n & fh & [= <-] & [= <-] & ->)]. done.
Qed.

Lemma matched_present_and_equal {V : Type} `{EqDecision V}
    (v1 v2 : option V) :
  present_and_equal v1 v2 → matched v1 v2 = true.
Proof. intros (v & -> & ->). simpl. by apply bool_decide_eq_true. Qed.

Lemma matched_equal_if_both_present {V : Type} `{EqDecision V}
    (v1 v2 : option V) :
  equal_if_both_present v1 v2 → matched v1 v2 = both_present v1 v2.
Proof.
  intros Heq. destruct v1 as [a|], v2 as [b|]; simpl; try done.
  apply bool_decide_eq_true. by apply Heq.
Qed.

Lemma fields_matched_criteria (row1 row2 : VoterRow) :
  details_criteria row1 row2 →
  fields_matched row1 row2 = fields_present_on_both row1 row2.
Proof.
  intros (Hn & Hf & Ha & Hg).
  unfold fields_matched, fields_present_on_both.
  rewrite (matched_equal_if_both_present _ _ Ha),
    (matched_equal_if_both_present _ _ Hg),
    (matched_present_and_equal _ _ Hn), (matched_present_and_equal _ _ Hf).
  by destruct Hn as (? & -> & ->), Hf as (? & -> & ->).
Qed.

(** C1. For two rows of the frame, taken in scan order, the exact-detail
    matcher emits a finding if and only if name and father/husband name
    are present on both rows and equal, and each of age and gender is
    equal whenever it is present on both rows. The finding carries the
    two card ids, lists in [matching_fields] exactly the columns that
    were present on both rows and matched, and has confidence ["100%"].
    The findings of the whole scan are exactly the findings of the pairs
    of positions [i < j]. *)
Theorem fake_details_emitted_iff_criteria
    (df : list VoterRow) (row1 row2 : VoterRow) :
  (is_Some (fake_details_pair row1 row2) ↔ details_criteria row1 row2)
  ∧ (∀ f, fake_details_pair row1 row2 = Some f →
       ∃ d, f = FAKE_DETAILS d
            ∧ FakeDetails.card_1 d = card_id row1
            ∧ FakeDetails.card_2 d = card_id row2
            ∧ FakeDetails.matching_fields d
              = join " + " (fields_matched row1 row2)
            ∧ FakeDetails.confidence d = "100%")
  ∧ (∀ f, f ∈ detect_scenario_1_fake_details df ↔
       ∃ i j r1 r2, (i < j)%nat ∧ df !! i = Some r1 ∧ df !! j = Some r2
                    ∧ fake_details_pair r1 r2 = Some f).
Proof.
  split; [|split].
  - split.
    + intros [f Hf]. by apply fake_details_pair_Some in Hf as [? _].
    + intros Hc. pose proof Hc as ((n & Hn & _) & (fh & Hfh & _) & _).
      eexists. apply fake_details_pair_Some. split; [done|].
      exists n, fh. by repeat split.
  - intros f Hf. apply fake_details_pair_Some in Hf
      as (Hc & n & fh & _ & _ & ->).
    eexists. split; [reflexivity|]. simpl.
    by rewrite (fields_matched_criteria _ _ Hc).
  - intros f. apply elem_of_scan_pairs.
Qed.

(** The theorem at [row_a] and [row_c]: the finding of the pair and the
    columns it lists. *)
Lemma fake_details_emitted_iff_criteria_witness :
  ∃ d, fake_details_pair row_a row_c = Some (FAKE_DETAILS d)
       ∧ FakeDetails.matching_fields d = "name + father/husband + gender".
Proof.
  destruct (proj1 (proj2
    (fake_details_emitted_iff_criteria [row_a; row_c] row_a row_c))
    _ eq_refl) as (d & Hd & _ & _ & Hm & _).
  exists d. split; [by rewrite <- Hd|exact Hm].
Defined.

(** Name and father equal, both ages present and different: no finding. *)
Example fake_details_age_differs :
  detect_scenario_1_fake_details [row_a; row_b] = [].
Proof. reflexivity. Qed.

(** The same pair with the age missing on one side is reported. *)
Example fake_details_age_absent :
  FakeDetails.card_2 <$>
    omap (λ f, match f with FAKE_DETAILS d => Some d | _ => None end)
         (detect_scenario_1_fake_details [row_a; row_c])
  = ["page_1_card_3"].
Proof. reflexivity. Qed.

(** ** The scan, position by position *)

Lemma omap_fmap_compose {A B C : Type} (g : B → option C) (h : A → B)
    (s : list A) :
  omap g (h <$> s) = omap (λ a, g (h a)) s.
Proof.
  induction s as [|k s IHs]; [done|].
  rewrite fmap_cons. cbn [omap list_omap]. by rewrite IHs.
Qed.

Lemma omap_lookup_seq {A B : Type} (f : A → option B) (l : list A) :
  omap (λ j, l !! j ≫= f) (seq 0 (length l)) = omap f l.
Proof.
  induction l as [|x l IH]; [done|].
  cbn [length seq]. rewrite <- fmap_S_seq.
  cbn [omap list_omap]. rewrite omap_fmap_compose. simpl.
  by rewrite IH.
Qed.

Lemma range_pairs_S (n : nat) :
  range_pairs (S n)
  = ((λ j, (0%nat, S j)) <$> seq 0 n) ++ (prod_map S S <$> range_pairs n).
Proof.
  unfold range_pairs. cbn [seq]. rewrite bind_cons. f_equal.
  - replace (S n - 1)%nat with n by lia.
    by rewrite <- fmap_S_seq, <- list_fmap_compose.
  - rewrite <- fmap_S_seq, list_fmap_bind.
    generalize (seq 0 n). intros s.
    induction s as [|i s IH]; [done|].
    rewrite !bind_cons, fmap_app, IH. f_equal.
    simpl. rewrite <- (fmap_S_seq (S i)), <- !list_fmap_compose. done.
Qed.

Lemma elem_of_range_pairs (n i j : nat) :
  (i, j) ∈ range_pairs n ↔ (i < j < n)%nat.
Proof.
  unfold range_pairs. rewrite list_elem_of_bind. split.
  - intros (k & Hin & Hk). apply list_elem_of_fmap in Hin as (j' & [= -> ->] & Hj).
    apply elem_of_seq in Hj. lia.
  - intros [Hij Hjn]. exists i. split.
    + apply list_elem_of_fmap. exists j. split; [done|]. apply elem_of_seq. lia.
    + apply elem_of_seq. lia.
Qed.

Lemma NoDup_range_pairs (n : nat) : NoDup (range_pairs n).
Proof.
  unfold range_pairs. apply NoDup_bind.
  - intros i1 i2 p _ _ Hp1 Hp2.
    apply list_elem_of_fmap in Hp1 as (? & -> & _).
    by apply list_elem_of_fmap in Hp2 as (? & [= ->] & _).
  - intros i _. apply NoDup_fmap_2; [by intros ? ? [= ->]|apply NoDup_seq].
  - apply NoDup_seq.
Qed.

Section ScanRange.
Context {A B : Type} (body : A → A → option B).

(** The structural scan is the double loop over positions. *)
Lemma scan_pairs_range_pairs (xs : list A) :
  scan_pairs body xs = omap (body_at body xs) (range_pairs (length xs)).
Proof.
  induction xs as [|x rest IH]; [done|].
  cbn [scan_pairs length]. rewrite range_pairs_S, omap_app. f_equal.
  - rewrite omap_fmap_compose. apply eq_sym, (omap_lookup_seq (body x) rest).
  - rewrite IH, omap_fmap_compose. apply list_omap_ext.
    apply Forall2_same_length_lookup. split; [done|].
    intros k [i j] [i' j'] H1 H2. by simplify_eq.
Qed.
End ScanRange.

Lemma sublist_lookup_lt {A : Type} (l1 l2 : list A) (i j : nat) (a b : A) :
  l1 `sublist_of` l2 → (i < j)%nat → l1 !! i = Some a → l1 !! j = Some b →
  ∃ i' j', (i' < j')%nat ∧ l2 !! i' = Some a ∧ l2 !! j' = Some b.
Proof.
  intros Hsub. revert i j.
  induction Hsub as [|x l1 l2 Hsub IH|x l1 l2 Hsub IH]; intros i j Hlt Hi Hj.
  - by rewrite lookup_nil in Hi.
  - destruct j as [|j]; [lia|]. destruct i as [|i]; simpl in *.
    + injection Hi as ->. 
      assert (b ∈ l2) as [k Hk]%list_elem_of_lookup.
      { eapply elem_of_sublist; [|done]. by eapply list_elem_of_lookup_2. }
      exists 0%nat, (S k). repeat split; [lia|done..].
    + destruct (IH i j) as (i' & j' & ? & ? & ?); [lia|done..|].
      exists (S i'), (S j'). repeat split; [lia|done..].
  - destruct (IH i j) as (i' & j' & ? & ? & ?); [lia|done..|].
    exists (S i'), (S j'). repeat split; [lia|done..].
Qed.

Section ScanKeys.
Context {A B K : Type} (body : A → A → option B).
Context (ident : A → K) (key : B → option (K * K)).
Hypothesis body_key :
  ∀ x1 x2 y, body x1 x2 = Some y → key y = Some (ident x1, ident x2).

Lemma omap_body_keys (x : A) (rest : list A) :
  NoDup (ident <$> rest) → NoDup (key <$> omap (body x) rest).
Proof.
  induction rest as [|x2 rest IH]; [constructor|].
  rewrite fmap_cons, NoDup_cons. intros [Hnotin Hnd].
  cbn [omap list_omap]. destruct (body x x2) as [y|] eqn:Hy; [|by apply IH].
  rewrite fmap_cons, NoDup_cons. split; [|by apply IH].
  rewrite (body_key _ _ _ Hy).
  intros (y' & Hk & (x3 & Hx3 & Hy')%list_elem_of_omap)%list_elem_of_fmap.
  rewrite (body_key _ _ _ Hy') in Hk. injection Hk as Hk.
  apply Hnotin. rewrite Hk. by apply list_elem_of_fmap_2.
Qed.

Lemma scan_pairs_keys_NoDup (xs : list A) :
  NoDup (ident <$> xs) → NoDup (key <$> scan_pairs body xs).
Proof.
  induction xs as [|x rest IH]; [constructor|].
  rewrite fmap_cons, NoDup_cons. intros [Hnotin Hnd].
  cbn [scan_pairs]. rewrite fmap_app, NoDup_app. split_and!.
  - by apply omap_body_keys.
  - intros k (y & -> & (x2 & _ & Hy)%list_elem_of_omap)%list_elem_of_fmap.
    rewrite (body_key _ _ _ Hy).
    intros (y' & Hk & Hin)%list_elem_of_fmap.
    apply elem_of_scan_pairs in Hin as (i & j & x1 & x3 & _ & Hi & _ & Hy').
    rewrite (body_key _ _ _ Hy') in Hk. injection Hk as Hk _.
    apply Hnotin. rewrite Hk. apply list_elem_of_fmap_2.
    by eapply list_elem_of_lookup_2.
  - by apply IH.
Qed.

Lemma scan_pairs_key_positions (xs : list A) (y : B) :
  y ∈ scan_pairs body xs →
  ∃ i j x1 x2, (i < j)%nat ∧ xs !! i = Some x1 ∧ xs !! j = Some x2
               ∧ key y = Some (ident x1, ident x2).
Proof.
  intros (i & j & x1 & x2 & ? & ? & ? & Hy)%elem_of_scan_pairs.
  exists i, j, x1, x2. repeat split; [done..|]. by eapply body_key.
Qed.

End ScanKeys.

Lemma omap_sublist_fmap {A B C : Type} (f : A → option B) (g : B → C)
    (h : A → C) (l : list A) :
  (∀ x y, f x = Some y → g y = h x) → g <$> omap f l `sublist_of` h <$> l.
Proof.
  intros Hfg. induction l as [|x l IH]; [constructor|].
  cbn [omap list_omap]. rewrite (fmap_cons h).
  destruct (f x) as [y|] eqn:Hy.
  - rewrite fmap_cons, (Hfg _ _ Hy). by constructor.
  - by constructor.
Qed.

Section ScanCards.
Context {A : Type} (body : A → A → option FraudFinding) (ident : A → string).
Hypothesis body_cards :
  ∀ x1 x2 y, body x1 x2 = Some y → pair_cards y = Some (ident x1, ident x2).

(** A scan over rows taken from the frame in frame order, whose findings
    name the cards of the two rows, reports every pair of cards once. *)
Lemma scan_pairs_reported_once (df : list VoterRow) (xs : list A) :
  ident <$> xs `sublist_of` card_id <$> df →
  NoDup (card_id <$> df) →
  reported_once_in_scan_order df (scan_pairs body xs).
Proof.
  intros Hsub Hnd.
  assert (∀ f, f ∈ scan_pairs body xs →
            ∃ a b, pair_cards f = Some (a, b) ∧ earlier_in df a b) as Hpos.
  { intros f Hf.
    destruct (scan_pairs_key_positions body ident pair_cards body_cards xs f Hf)
      as (i & j & x1 & x2 & Hlt & Hi & Hj & Hk).
    exists (ident x1), (ident x2). split; [done|].
    destruct (sublist_lookup_lt _ _ i j (ident x1) (ident x2) Hsub Hlt)
      as (i' & j' & Hlt' & Hi' & Hj').
    { by rewrite list_lookup_fmap, Hi. }
    { by rewrite list_lookup_fmap, Hj. }
    exists i', j'. by rewrite <- !list_lookup_fmap. }
  split_and!; [|done|].
  - apply (scan_pairs_keys_NoDup body ident pair_cards body_cards).
    by eapply sublist_NoDup.
  - intros a b (f & Hf & Hin)%list_elem_of_fmap
                (f' & Hf' & Hin')%list_elem_of_fmap.
    destruct (Hpos f Hin) as (a1 & b1 & Hk & i & j & Hlt & Hi & Hj).
    destruct (Hpos f' Hin') as (a2 & b2 & Hk' & i' & j' & Hlt' & Hi' & Hj').
    rewrite <- Hf in Hk. rewrite <- Hf' in Hk'. simplify_eq.
    rewrite <- list_lookup_fmap in Hi, Hj, Hi', Hj'.
    pose proof (NoDup_lookup _ _ _ _ Hnd Hi Hj').
    pose proof (NoDup_lookup _ _ _ _ Hnd Hj Hi'). lia.
Qed.

End ScanCards.

(** ** The cards named by the three pairwise matchers *)

Lemma fake_details_pair_cards (row1 row2 : VoterRow) (f : FraudFinding) :
  fake_details_pair row1 row2 = Some f →
  pair_cards f = Some (card_id row1, card_id row2).
Proof. by intros (_ & n & fh & _ & _ & ->)%fake_details_pair_Some. Qed.

Lemma fake_face_pair_cards face_distance (x1 x2 : VoterRow * encoding)
    (f : FraudFinding) :
  fake_face_pair face_distance x1 x2 = Some f →
  pair_cards f = Some (card_id x1.1, card_id x2.1).
Proof.
  destruct x1 as [row1 enc1], x2 as [row2 enc2]. unfold fake_face_pair.
  destruct (_ <? _)%float; [done|].
  destruct (name row1), (name row2); try case_decide; by intros [= <-].
Qed.

Lemma duplicate_photo_pair_cards (x1 x2 : string * ImageHash * VoterRow)
    (f : FraudFinding) :
  duplicate_photo_pair x1 x2 = Some f →
  pair_cards f = Some (x1.1.1, x2.1.1).
Proof.
  destruct x1 as [[c1 h1] r1], x2 as [[c2 h2] r2].
  unfold duplicate_photo_pair. case_decide; [|done]. by intros [= <-].
Qed.

Lemma faces_df_sublist (df : list VoterRow) :
  (card_id ∘ fst) <$> faces_df df `sublist_of` card_id <$> df.
Proof.
  apply omap_sublist_fmap. intros row [row' enc] Hx.
  destruct (face_encoding row); by simplify_eq/=.
Qed.

Lemma compute_hashes_sublist average_hash (df : list VoterRow) :
  (λ x : string * ImageHash * VoterRow, x.1.1)
    <$> compute_hashes average_hash (cards_with_faces df)
  `sublist_of` card_id <$> df.
Proof.
  trans ((card_id ∘ fst) <$> cards_with_faces df).
  - apply omap_sublist_fmap. intros [row path] y Hy. simpl in Hy.
    destruct (average_hash path); by simplify_eq/=.
  - apply omap_sublist_fmap. intros row [row' path] Hx.
    destruct (face_path row); by simplify_eq/=.
Qed.

(** The two guards on short inputs do not change what the scans return. *)
Lemma detect_scenario_2_fake_face_scan face_distance (df : list VoterRow) :
  detect_scenario_2_fake_face face_distance df
  = scan_pairs (fake_face_pair face_distance) (faces_df df).
Proof.
  unfold detect_scenario_2_fake_face. case_decide; [|done].
  by rewrite scan_pairs_short.
Qed.

Lemma detect_exact_duplicate_photos_scan average_hash (df : list VoterRow) :
  detect_exact_duplicate_photos average_hash df
  = scan_pairs duplicate_photo_pair
      (compute_hashes average_hash (cards_with_faces df)).
Proof.
  unfold detect_exact_duplicate_photos. case_decide as Hlen; [|done].
  rewrite scan_pairs_short; [done|].
  eapply Nat.le_lt_trans; [|exact Hlen].
  rewrite <- (length_fmap (λ x : string * ImageHash * VoterRow, x.2)).
  rewrite <- (length_fmap fst (cards_with_faces df)).
  apply sublist_length, omap_sublist_fmap.
  intros [row path] y Hy. simpl in Hy.
  destruct (average_hash path); by simplify_eq/=.
Qed.

(** C9. Each of the three pairwise matchers is the double loop over the
    positions [i < j] of the list it scans, so every pair of positions is
    visited once and never in the reverse order. When the card ids of the
    frame are unique, no two findings of a matcher name the same two
    cards, in either order, and every finding names first the card that
    comes earlier in the frame. *)
Theorem pairwise_matchers_report_once
    (face_distance : encoding → encoding → float)
    (average_hash : string → option ImageHash) (df : list VoterRow) :
  (∀ n, NoDup (range_pairs n)
        ∧ ∀ i j, (i, j) ∈ range_pairs n ↔ (i < j < n)%nat)
  ∧ detect_scenario_1_fake_details df
    = omap (body_at fake_details_pair df) (range_pairs (length df))
  ∧ detect_scenario_2_fake_face face_distance df
    = omap (body_at (fake_face_pair face_distance) (faces_df df))
           (range_pairs (length (faces_df df)))
  ∧ detect_exact_duplicate_photos average_hash df
    = (let hashes := compute_hashes average_hash (cards_with_faces df) in
       omap (body_at duplicate_photo_pair hashes)
            (range_pairs (length hashes)))
  ∧ (NoDup (card_id <$> df) →
     reported_once_in_scan_order df (detect_scenario_1_fake_details df)
     ∧ reported_once_in_scan_order df
         (detect_scenario_2_fake_face face_distance df)
     ∧ reported_once_in_scan_order df
         (detect_exact_duplicate_photos average_hash df)).
Proof.
  split_and!.
  - intros n. split; [apply NoDup_range_pairs|apply elem_of_range_pairs].
  - apply scan_pairs_range_pairs.
  - rewrite detect_scenario_2_fake_face_scan. apply scan_pairs_range_pairs.
  - rewrite detect_exact_duplicate_photos_scan. apply scan_pairs_range_pairs.
  - intros Hnd. split_and!.
    + apply (scan_pairs_reported_once _ card_id fake_details_pair_cards);
        [|done]. reflexivity.
    + rewrite detect_scenario_2_fake_face_scan.
      apply (scan_pairs_reported_once _ (card_id ∘ fst)
               (fake_face_pair_cards face_distance)); [|done].
      apply faces_df_sublist.
    + rewrite detect_exact_duplicate_photos_scan.
      apply (scan_pairs_reported_once _ (λ x, x.1.1)
               duplicate_photo_pair_cards); [|done].
      apply compute_hashes_sublist.
Qed.

(** The theorem at a frame of two cards with different ids. *)
Lemma pairwise_matchers_report_once_witness :
  reported_once_in_scan_order [row_a; row_c]
    (detect_scenario_1_fake_details [row_a; row_c]).
Proof.
  refine (proj1 (proj2 (proj2 (proj2 (proj2
    (pairwise_matchers_report_once first_number_distance path_length_hash
       [row_a; row_c])))) _)).
  apply (bool_decide_unpack _). vm_compute. exact I.
Defined.

(** ** Rounding *)

(** The two roundings on sample values: ties of the scaled value go to
    the even integer; Python's [round] sees the exact binary value (2.675
    is below the tie), numpy's sees the product [x * 100] as a float
    (which for 2.675 is the tie 267.5). *)
Example rounding_samples :
  rint 2.5 = 2%float ∧ rint 3.5 = 4%float ∧ rint (-2.5) = (-2)%float
  ∧ np_round 85.123 1 = 85.1%float
  ∧ np_round 2.675 2 = 2.68%float
  ∧ py_round 2.675 2 = 2.67%float
  ∧ py_round 98.4375 2 = 98.44%float.
Proof. repeat split; reflexivity. Qed.

(** ** Scenario 2 *)

(** Comparisons of binary64 numbers, from their specification. *)
Lemma SFcompare_antisym (x y : spec_float) :
  SFcompare y x = CompOpp <$> SFcompare x y.
Proof.
  destruct x as [sx|sx| |sx mx ex], y as [sy|sy| |sy my ey]; simpl;
    try done; try (by destruct sx); try (by destruct sy);
    try (by destruct sx, sy).
  destruct sx, sy; simpl; try done; f_equal;
    rewrite (Z.compare_antisym ex ey);
    destruct (ex ?= ey)%Z; simpl; try done;
    rewrite (Pos.compare_cont_antisym _ _ Eq); simpl;
    by rewrite ?CompOpp_involutive.
Qed.




(** Two floats that compare as different numbers are different. *)
Lemma float_neq_of_eqb (x y : float) : (x =? y)%float = false →
  (y =? y)%float = true → x ≠ y.
Proof. intros Hxy Hyy ->. congruence. Qed.

Lemma fake_face_pair_is_Some face_distance (x1 x2 : VoterRow * encoding) :
  is_Some (fake_face_pair face_distance x1 x2) ↔
  (similarity_percent_of face_distance x1.2 x2.2 <? 80)%float = false.
Proof.
  destruct x1 as [row1 enc1], x2 as [row2 enc2].
  unfold fake_face_pair, similarity_percent_of. simpl.
  destruct (_ <? _)%float.
  - split; [by intros [? [=]]|done].
  - split; [done|]. intros _.
    destruct (name row1), (name row2); try case_decide; by eexists.
Qed.

Lemma fake_face_pair_finding face_distance (x1 x2 : VoterRow * encoding)
    (f : FraudFinding) :
  fake_face_pair face_distance x1 x2 = Some f →
  ∃ d, f = FAKE_FACE d
       ∧ FakeFace.card_1 d = card_id x1.1
       ∧ FakeFace.card_2 d = card_id x2.1
       ∧ FakeFace.face_similarity_percent d
         = np_round (similarity_percent_of face_distance x1.2 x2.2) 2
       ∧ face_scoring_rule (λ x, np_round x 1) x1.1 x2.1
           (similarity_percent_of face_distance x1.2 x2.2) d.
Proof.
  destruct x1 as [row1 enc1], x2 as [row2 enc2].
  unfold fake_face_pair, similarity_percent_of, face_scoring_rule. simpl.
  destruct (_ <? _)%float; [done|].
  destruct (name row1) as [n1|], (name row2) as [n2|];
    try case_decide; intros [= <-]; eexists;
    (split; [reflexivity|]); simpl; split_and!; try done;
    try (intros ? ? [= <-] [= <-] ?); try (intros ? [= <-] [= <-]);
    try (intros [[=]|[=]]); done.
Qed.






(** Similarity exactly 80 is reported, similarity 79.99 is not. *)
Example fake_face_at_80 :
  similarity_percent_of first_number_distance face_anita.2
    (face_sunita 0.2).2 = 80%float
  ∧ length (detect_scenario_2_fake_face first_number_distance
              [face_anita.1; (face_sunita 0.2).1]) = 1%nat.
Proof. split; reflexivity. Qed.

Example fake_face_below_80 :
  (similarity_percent_of first_number_distance face_anita.2
     (face_sunita 0.2001).2 <? 79.991)%float = true
  ∧ detect_scenario_2_fake_face first_number_distance
      [face_anita.1; (face_sunita 0.2001).1] = [].
Proof. split; reflexivity. Qed.


(** C3 (amended). For every pair the face matcher accepts, the stored
    [confidence_score] is the similarity plus 5, rounded to one decimal,
    with the CRITICAL classification when both names are present and
    differ; the similarity minus 5, rounded to one decimal, with the
    LIKELY classification when both names are present and equal; and the
    similarity, rounded to one decimal, with the LIKELY classification
    when a name is missing. At similarity 85 this gives 90.0 and 80.0. *)
Theorem fake_face_scoring
    (face_distance : encoding → encoding → float)
    (x1 x2 : VoterRow * encoding) (f : FraudFinding) :
  fake_face_pair face_distance x1 x2 = Some f →
  (∃ d, f = FAKE_FACE d
        ∧ face_scoring_rule (λ x, np_round x 1) x1.1 x2.1
            (similarity_percent_of face_distance x1.2 x2.2) d)
  ∧ np_round (85 + 5) 1 = 90%float
  ∧ np_round (85 - 5) 1 = 80%float.
Proof.
  intros (d & -> & _ & _ & _ & Hrule)%fake_face_pair_finding.
  split_and!; [by exists d|reflexivity..].
Qed.

(** The theorem at similarity 85 with different names. *)
Lemma fake_face_scoring_witness :
  ∃ d, fake_face_pair first_number_distance face_anita (face_sunita 0.15)
       = Some (FAKE_FACE d)
       ∧ FakeFace.confidence_score d = 90%float
       ∧ FakeFace.likelihood d = CRITICAL_SAME_FACE.
Proof.
  destruct (proj1 (fake_face_scoring first_number_distance
                     face_anita (face_sunita 0.15) _ eq_refl))
    as (d & Hd & Hdiff & _).
  exists d. split; [by rewrite <- Hd|].
  by apply (Hdiff "ANITA DEVI" "SUNITA DEVI").
Defined.

(** Similarity 85: different names give 90.0 and CRITICAL, equal names
    give 80.0 and LIKELY, a missing name gives 85.0 and LIKELY. *)
Example fake_face_scoring_at_85 :
  (λ x, match fake_face_pair first_number_distance face_anita x with
        | Some (FAKE_FACE d) =>
            Some (FakeFace.confidence_score d, FakeFace.likelihood d)
        | _ => None
        end)
    <$> [face_sunita 0.15; face_anita_again 0.15; face_unnamed 0.15]
  = [Some (90%float, CRITICAL_SAME_FACE);
     Some (80%float, LIKELY_SAME_PERSON);
     Some (85%float, LIKELY_SAME_PERSON)].
Proof. reflexivity. Qed.

(** The rule without the rounding fails: at distance 0.14877 the
    similarity is 85.123, the names differ, and the stored score is 90.1,
    not 90.123. *)
Lemma fake_face_scoring_unrounded_counterexample :
  ∃ d, fake_face_pair first_number_distance face_anita (face_sunita 0.14877)
       = Some (FAKE_FACE d)
       ∧ ¬ face_scoring_rule (λ x, x) face_anita.1 (face_sunita 0.14877).1
             (similarity_percent_of first_number_distance
                face_anita.2 (face_sunita 0.14877).2) d.
Proof.
  eexists. split; [reflexivity|].
  intros [Hdiff _].
  destruct (Hdiff "ANITA DEVI" "SUNITA DEVI") as [Hscore _]; [done..|].
  revert Hscore. by apply float_neq_of_eqb.
Qed.

(** C10 (amended). The stored score has no upper bound at 100: for every
    accepted pair whose names are both present and differ it is the
    similarity plus 5, rounded to one decimal. At similarity 96 it is
    101.0; at a similarity just above 95, such as 95.01, the rounding
    brings it to exactly 100.0. *)
Theorem fake_face_score_not_clamped
    (face_distance : encoding → encoding → float)
    (x1 x2 : VoterRow * encoding) (d : FakeFace.t) (n1 n2 : string) :
  fake_face_pair face_distance x1 x2 = Some (FAKE_FACE d) →
  name x1.1 = Some n1 → name x2.1 = Some n2 → n1 ≠ n2 →
  FakeFace.confidence_score d
  = np_round (similarity_percent_of face_distance x1.2 x2.2 + 5)%float 1
  ∧ np_round (96 + 5) 1 = 101%float
  ∧ np_round (95.01 + 5) 1 = 100%float.
Proof.
  intros (d' & [= <-] & _ & _ & _ & Hdiff & _)%fake_face_pair_finding
    Hn1 Hn2 Hne.
  split_and!; [|reflexivity..]. by apply (Hdiff n1 n2).
Qed.

(** The theorem at distance 0.04, similarity 96: the score is 101. *)
Lemma fake_face_score_not_clamped_witness :
  ∃ d, fake_face_pair first_number_distance face_anita (face_sunita 0.04)
       = Some (FAKE_FACE d)
       ∧ (100 <? FakeFace.confidence_score d)%float = true.
Proof.
  destruct (fake_face_pair first_number_distance face_anita
              (face_sunita 0.04)) as [[d0|d|d0|d0]|] eqn:E;
    try (by vm_compute in E).
  exists d. split; [done|].
  rewrite (proj1 (fake_face_score_not_clamped first_number_distance
                    face_anita (face_sunita 0.04) d
                    "ANITA DEVI" "SUNITA DEVI" E eq_refl eq_refl
                    ltac:(done))).
  reflexivity.
Defined.

(** The score need not exceed 100 when the similarity exceeds 95: at
    distance 0.0499 the similarity is above 95, the names differ, and the
    stored score is 100.0, which is neither above 100 nor the similarity
    plus 5. *)
Lemma fake_face_score_above_95_counterexample :
  ∃ d, fake_face_pair first_number_distance face_anita (face_sunita 0.0499)
       = Some (FAKE_FACE d)
       ∧ (95 <? similarity_percent_of first_number_distance
                  face_anita.2 (face_sunita 0.0499).2)%float = true
       ∧ (100 <? FakeFace.confidence_score d)%float = false
       ∧ FakeFace.confidence_score d
         ≠ (similarity_percent_of first_number_distance
              face_anita.2 (face_sunita 0.0499).2 + 5)%float.
Proof.
  eexists. split_and!; [reflexivity..|].
  by apply float_neq_of_eqb.
Qed.

(** ** Scenario 2B *)

Lemma duplicate_photo_pair_Some (x1 x2 : string * ImageHash * VoterRow)
    (f : FraudFinding) :
  duplicate_photo_pair x1 x2 = Some f ↔
  (hash_sub x1.1.2 x2.1.2 ≤ 10)%nat
  ∧ f = DUPLICATE_PHOTO {|
      DuplicatePhoto.card_1 := x1.1.1;
      DuplicatePhoto.card_2 := x2.1.1;
      DuplicatePhoto.name_1 := or_na (name x1.2);
      DuplicatePhoto.name_2 := or_na (name x2.2);
      DuplicatePhoto.father_1 := or_na (father_husband_name x1.2);
      DuplicatePhoto.father_2 := or_na (father_husband_name x2.2);
      DuplicatePhoto.photo_similarity :=
        py_round (photo_similarity_percent (hash_sub x1.1.2 x2.1.2)) 2;
      DuplicatePhoto.hash_difference := hash_sub x1.1.2 x2.1.2;
      DuplicatePhoto.likelihood :=
        if decide (hash_sub x1.1.2 x2.1.2 ≤ 5)%nat
        then EXACT_SAME_PHOTO else VERY_SIMILAR_PHOTO
    |}.
Proof.
  destruct x1 as [[c1 h1] r1], x2 as [[c2 h2] r2].
  unfold duplicate_photo_pair. simpl. case_decide.
  - split; [by intros [= <-]|by intros [_ ->]].
  - split; [done|]. by intros [? _].
Qed.

Lemma elem_of_compute_hashes average_hash (df : list VoterRow)
    (x : string * ImageHash * VoterRow) :
  x ∈ compute_hashes average_hash (cards_with_faces df) ↔
  x.2 ∈ df ∧ x.1.1 = card_id x.2
  ∧ ∃ path, face_path x.2 = Some path ∧ average_hash path = Some x.1.2.
Proof.
  unfold compute_hashes, cards_with_faces.
  rewrite list_elem_of_omap. destruct x as [[c h] r]. simpl. split.
  - intros ([row path] & (row' & Hin & Hp)%list_elem_of_omap & Hh).
    simpl in Hh. destruct (face_path row') eqn:Hfp; [|done].
    destruct (average_hash path) eqn:Hah; simplify_eq/=. eauto.
  - intros (Hin & -> & path & Hfp & Hah). exists (r, path). split.
    + apply list_elem_of_omap. exists r. by rewrite Hfp.
    + simpl. by rewrite Hah.
Qed.

(** C6. For two hashed photos the photo matcher classifies by the
    Hamming distance of the hashes: at most 5 gives a finding classified
    EXACT SAME PHOTO, more than 5 and at most 10 gives a finding
    classified VERY SIMILAR PHOTO, more than 10 gives no finding. The
    photos it compares are those of the rows with a photo path that could
    be hashed, and its findings are exactly those of the pairs of
    positions [i < j] of that list. *)
Theorem duplicate_photo_step_function
    (average_hash : string → option ImageHash) (df : list VoterRow)
    (x1 x2 : string * ImageHash * VoterRow) :
  ((hash_sub x1.1.2 x2.1.2 ≤ 5)%nat →
     ∃ d, duplicate_photo_pair x1 x2 = Some (DUPLICATE_PHOTO d)
          ∧ DuplicatePhoto.hash_difference d = hash_sub x1.1.2 x2.1.2
          ∧ DuplicatePhoto.likelihood d = EXACT_SAME_PHOTO)
  ∧ ((5 < hash_sub x1.1.2 x2.1.2 ≤ 10)%nat →
     ∃ d, duplicate_photo_pair x1 x2 = Some (DUPLICATE_PHOTO d)
          ∧ DuplicatePhoto.hash_difference d = hash_sub x1.1.2 x2.1.2
          ∧ DuplicatePhoto.likelihood d = VERY_SIMILAR_PHOTO)
  ∧ ((10 < hash_sub x1.1.2 x2.1.2)%nat → duplicate_photo_pair x1 x2 = None)
  ∧ (∀ x, x ∈ compute_hashes average_hash (cards_with_faces df) ↔
       x.2 ∈ df ∧ x.1.1 = card_id x.2
       ∧ ∃ path, face_path x.2 = Some path
                 ∧ average_hash path = Some x.1.2)
  ∧ (∀ f, f ∈ detect_exact_duplicate_photos average_hash df ↔
       ∃ i j y1 y2, (i < j)%nat
         ∧ compute_hashes average_hash (cards_with_faces df) !! i = Some y1
         ∧ compute_hashes average_hash (cards_with_faces df) !! j = Some y2
         ∧ duplicate_photo_pair y1 y2 = Some f).
Proof.
  split_and!.
  - intros Hle. eexists. split.
    + apply duplicate_photo_pair_Some. split; [lia|reflexivity].
    + simpl. split; [done|]. by rewrite decide_True.
  - intros [Hlt Hle]. eexists. split.
    + apply duplicate_photo_pair_Some. split; [lia|reflexivity].
    + simpl. split; [done|]. rewrite decide_False; [done|lia].
  - intros Hlt. destruct (duplicate_photo_pair x1 x2) as [f|] eqn:Hf; [|done].
    apply duplicate_photo_pair_Some in Hf as [? _]. lia.
  - apply elem_of_compute_hashes.
  - intros f. rewrite detect_exact_duplicate_photos_scan.
    apply elem_of_scan_pairs.
Qed.

(** The theorem at two photos whose hashes differ in 5 bits. *)
Lemma duplicate_photo_step_function_witness :
  ∃ d, duplicate_photo_pair
         (card_id photo_0, leading_ones 5, photo_0)
         (card_id photo_5, leading_ones 10, photo_5)
       = Some (DUPLICATE_PHOTO d)
       ∧ DuplicatePhoto.likelihood d = EXACT_SAME_PHOTO.
Proof.
  destruct (proj1 (duplicate_photo_step_function path_length_hash
                     [photo_0; photo_5]
                     (card_id photo_0, leading_ones 5, photo_0)
                     (card_id photo_5, leading_ones 10, photo_5)))
    as (d & Hd & _ & Hl).
  - vm_compute. lia.
  - by exists d.
Defined.

(** Distance 5 is EXACT, distance 6 is VERY SIMILAR, distance 11 is not
    reported. *)
Example duplicate_photo_at_5_6_11 :
  (λ other,
     (λ f, match f with
           | DUPLICATE_PHOTO d =>
               Some (DuplicatePhoto.hash_difference d,
                     DuplicatePhoto.likelihood d)
           | _ => None
           end)
       <$> detect_exact_duplicate_photos path_length_hash [photo_0; other])
    <$> [photo_5; photo_6; photo_11]
  = [[Some (5%nat, EXACT_SAME_PHOTO)];
     [Some (6%nat, VERY_SIMILAR_PHOTO)];
     []].
Proof. vm_compute. reflexivity. Qed.

(** C5 (the code against the claim). The stored photo similarity is
    [(1 - hash_diff / 64) * 100], rounded to two decimals, for every
    finding, while the hash of a photo has 16 x 16 = 256 bits. For two
    photos whose hashes differ in 8 bits the matcher stores 87.5, where
    the percentage over the bits of the hash is 96.875. A distance of 0
    gives 100 under either divisor. *)
Theorem photo_similarity_divisor
    (x1 x2 : string * ImageHash * VoterRow) (d : DuplicatePhoto.t) :
  (duplicate_photo_pair x1 x2 = Some (DUPLICATE_PHOTO d) →
   DuplicatePhoto.photo_similarity d
   = py_round ((1 - float_of_Z (Z.of_nat (hash_sub x1.1.2 x2.1.2))
                    / float_of_Z 64) * 100)%float 2)
  ∧ photo_divisor = 64%Z
  ∧ hash_bit_length = 256%nat
  ∧ (∀ h : ImageHash, length (bits h) = 256%nat)
  ∧ (DuplicatePhoto.photo_similarity
       <$> omap (λ f, match f with DUPLICATE_PHOTO d => Some d | _ => None end)
             (detect_exact_duplicate_photos path_length_hash
                [photo_0; photo_8])
     = [87.5%float])
  ∧ percent_of_hash_bits 8 = 96.875%float
  ∧ photo_similarity_percent 0 = 100%float
  ∧ percent_of_hash_bits 0 = 100%float.
Proof.
  split_and!; try reflexivity.
  - intros Hd. by apply duplicate_photo_pair_Some in Hd as [_ [= ->]].
  - intros h. apply bits_length.
Qed.

(** The theorem at two photos whose hashes differ in 8 bits. *)
Lemma photo_similarity_divisor_witness :
  ∃ d, duplicate_photo_pair
         (card_id photo_0, leading_ones 5, photo_0)
         (card_id photo_8, leading_ones 13, photo_8)
       = Some (DUPLICATE_PHOTO d)
       ∧ DuplicatePhoto.photo_similarity d = 87.5%float.
Proof.
  destruct (duplicate_photo_pair
              (card_id photo_0, leading_ones 5, photo_0)
              (card_id photo_8, leading_ones 13, photo_8))
    as [[d0|d0|d|d0]|] eqn:E; try (by vm_compute in E).
  exists d. split; [done|].
  rewrite (proj1 (photo_similarity_divisor _ _ d) E). vm_compute. reflexivity.
Defined.

(** ** Scenario 3 *)

Lemma filter_eq_NoDup {A : Type} `{EqDecision A} (l : list A) (h : A) :
  NoDup l → filter (λ k, k = h) l = if decide (h ∈ l) then [h] else [].
Proof.
  induction 1 as [|x l Hx Hnd IH]; [done|].
  rewrite filter_cons, IH. destruct (decide (x = h)) as [->|Hne].
  - rewrite (decide_False (P := h ∈ l)) by done.
    by rewrite (decide_True (P := h ∈ h :: l)) by left.
  - destruct (decide (h ∈ l)) as [Hin|Hnin].
    + by rewrite (decide_True (P := h ∈ x :: l)) by by right.
    + rewrite (decide_False (P := h ∈ x :: l)); [done|].
      intros [->|?]%elem_of_cons; done.
Qed.

Lemma filter_fmap_comm {A B : Type} (g : A → B) (Q : B → Prop)
    `{∀ y, Decision (Q y)} (l : list A) :
  filter Q (g <$> l) = g <$> filter (λ x, Q (g x)) l.
Proof.
  induction l as [|x l IH]; [done|].
  rewrite fmap_cons, !filter_cons, IH. by case_decide.
Qed.

Lemma house_keys (df : list VoterRow) :
  (snd <$> omap (λ row, h ← house_number row; Some (row, h)) df)
  = omap house_number df.
Proof.
  induction df as [|row df IH]; [done|].
  cbn [omap list_omap]. destruct (house_number row); cbn [mbind option_bind].
  - by rewrite fmap_cons, IH.
  - done.
Qed.

Lemma house_voters (df : list VoterRow) (h : string) :
  fst <$> filter (λ x : VoterRow * string, x.2 = h)
            (omap (λ row, h ← house_number row; Some (row, h)) df)
  = filter (λ row, house_number row = Some h) df.
Proof.
  induction df as [|row df IH]; [done|].
  cbn [omap list_omap]. rewrite (filter_cons _ row).
  destruct (house_number row) as [h'|]; cbn [mbind option_bind].
  - rewrite (filter_cons _ (row, h')). cbn [snd].
    destruct (decide (h' = h)), (decide (Some h' = Some h));
      try congruence.
    by rewrite fmap_cons, IH.
  - by destruct (decide (None = Some h)).
Qed.

Lemma house_count (df : list VoterRow) (h : string) :
  length (filter (λ k', k' = h) (omap house_number df)) = group_size df h.
Proof.
  unfold group_size. induction df as [|row df IH]; [done|].
  cbn [omap list_omap]. rewrite (filter_cons _ row).
  destruct (house_number row) as [h'|].
  - rewrite (filter_cons _ h').
    destruct (decide (h' = h)), (decide (Some h' = Some h));
      try congruence.
    simpl. by rewrite IH.
  - by destruct (decide (None = Some h)).
Qed.

Lemma house_present (df : list VoterRow) (h : string) :
  h ∈ omap house_number df ↔ (0 < group_size df h)%nat.
Proof.
  rewrite <- house_count. split.
  - intros Hin. destruct (filter _ _) as [|] eqn:Hf; simpl; [|lia].
    by apply (filter_nil_not_elem_of _ _ h) in Hf.
  - intros Hlen. destruct (filter _ _) as [|k l] eqn:Hf; simpl in Hlen; [lia|].
    assert (k ∈ filter (λ k', k' = h) (omap house_number df)) as Hk
      by (rewrite Hf; left).
    by apply list_elem_of_filter in Hk as [-> ?].
Qed.

(** The address finding of a house with [count] voters. *)
Lemma detect_address_anomalies_for_house (df : list VoterRow)
    (threshold : nat) (h : string) :
  findings_for_house h (detect_address_anomalies df threshold)
  = if decide (0 < group_size df h ∧ threshold ≤ group_size df h)%nat
    then
      let voters := filter (λ row, house_number row = Some h) df in
      [ADDRESS_ANOMALY {|
         AddressAnomaly.house_number := h;
         AddressAnomaly.voter_count := group_size df h;
         AddressAnomaly.unique_names := nunique (name <$> voters);
         AddressAnomaly.unique_fathers :=
           nunique (father_husband_name <$> voters);
         AddressAnomaly.risk_level := risk_level_of (group_size df h);
         AddressAnomaly.cards :=
           join ", " (take 10 (card_id <$> voters)) +:+ "...";
         AddressAnomaly.likelihood :=
           pretty (group_size df h)
           +:+ " voters at one address - Likely fake voter operation"
       |}]
    else [].
Proof.
  unfold detect_address_anomalies, findings_for_house.
  set (dfh := omap (λ row, h ← house_number row; Some (row, h)) df).
  destruct (decide (length dfh = 0)%nat) as [Hempty|_].
  { rewrite decide_False; [done|]. intros [Hpos _].
    apply house_present in Hpos. rewrite <- house_keys in Hpos.
    fold dfh in Hpos. apply length_zero_iff_nil in Hempty.
    rewrite Hempty in Hpos. by apply elem_of_nil in Hpos. }
  rewrite filter_fmap_comm. simpl.
  unfold groupby_size. rewrite filter_fmap_comm, filter_fmap_comm. simpl.
  rewrite list_filter_filter.
  rewrite (list_filter_iff _
             (λ k, (threshold ≤ group_size df k)%nat ∧ k = h)).
  2:{ intros k. unfold dfh. rewrite house_keys, house_count.
      split; intros [? ?]; split; congruence. }
  rewrite <- list_filter_filter, filter_eq_NoDup.
  2:{ rewrite merge_sort_Permutation. apply NoDup_remove_dups. }
  assert (h ∈ merge_sort str_le (remove_dups (snd <$> dfh))
          ↔ (0 < group_size df h)%nat) as Hin.
  { rewrite merge_sort_Permutation, elem_of_remove_dups. unfold dfh.
    rewrite house_keys. apply house_present. }
  destruct (decide (h ∈ _)) as [Hh|Hh].
  - rewrite (filter_singleton _ h []). case_decide as Ht.
    + rewrite decide_True by (split; [by apply Hin|done]).
      simpl. unfold dfh. by rewrite house_keys, house_count, house_voters.
    + rewrite decide_False; [done|]. by intros [_ ?].
  - rewrite filter_nil. rewrite decide_False; [done|].
    intros [? _]. by apply Hh, Hin.
Qed.

Lemma detect_address_anomalies_kind (df : list VoterRow) (threshold : nat)
    (f : FraudFinding) :
  f ∈ detect_address_anomalies df threshold → ∃ d, f = ADDRESS_ANOMALY d.
Proof.
  unfold detect_address_anomalies. case_decide; [by intros ?%elem_of_nil|].
  intros (hc & -> & _)%list_elem_of_fmap. by eexists.
Qed.

(** Every finding of the address detector is about a group that reaches
    the threshold, and counts the rows of that group. *)
Lemma detect_address_anomalies_elem (df : list VoterRow) (threshold : nat)
    (f : FraudFinding) :
  f ∈ detect_address_anomalies df threshold →
  ∃ d, f = ADDRESS_ANOMALY d
       ∧ (threshold ≤ AddressAnomaly.voter_count d)%nat
       ∧ AddressAnomaly.voter_count d
         = group_size df (AddressAnomaly.house_number d).
Proof.
  intros Hf.
  destruct (detect_address_anomalies_kind _ _ _ Hf) as [d ->].
  exists d. split; [done|].
  assert (ADDRESS_ANOMALY d
          ∈ findings_for_house (AddressAnomaly.house_number d)
              (detect_address_anomalies df threshold)) as Hin.
  { by apply list_elem_of_filter. }
  rewrite detect_address_anomalies_for_house in Hin.
  case_decide as Hn; [|by apply elem_of_nil in Hin].
  apply list_elem_of_singleton in Hin. injection Hin as ->.
  simpl. split; [lia|done].
Qed.

(** C7. With the threshold of 30, the address detector emits, for every
    house number [h], exactly one finding when at least 30 rows carry
    [h], and none when 29 or fewer do (rows without a house number are in
    no group). The finding counts the rows of the group, and its risk
    level is CRITICAL from 50 rows on, HIGH from 40 to 49 and MEDIUM from
    30 to 39. The detector emits nothing but such findings. *)
Theorem address_anomaly_tiers (df : list VoterRow) (h : string) :
  (∀ f, f ∈ detect_address_anomalies df 30 →
     ∃ d, f = ADDRESS_ANOMALY d
          ∧ (30 ≤ AddressAnomaly.voter_count d)%nat
          ∧ AddressAnomaly.voter_count d
            = group_size df (AddressAnomaly.house_number d))
  ∧ ((30 ≤ group_size df h)%nat →
     ∃ d, findings_for_house h (detect_address_anomalies df 30)
          = [ADDRESS_ANOMALY d]
          ∧ AddressAnomaly.house_number d = h
          ∧ AddressAnomaly.voter_count d = group_size df h
          ∧ ((50 ≤ group_size df h)%nat →
             AddressAnomaly.risk_level d = "CRITICAL")
          ∧ ((40 ≤ group_size df h < 50)%nat →
             AddressAnomaly.risk_level d = "HIGH")
          ∧ ((30 ≤ group_size df h < 40)%nat →
             AddressAnomaly.risk_level d = "MEDIUM"))
  ∧ ((group_size df h ≤ 29)%nat →
     findings_for_house h (detect_address_anomalies df 30) = []).
Proof.
  split_and!.
  - intros f Hf. by apply detect_address_anomalies_elem.
  - intros Hn. rewrite detect_address_anomalies_for_house.
    rewrite decide_True by lia. eexists. split; [reflexivity|]. simpl.
    unfold risk_level_of. split_and!; [done..| | |]; intros ?;
      repeat case_decide; done || lia.
  - intros Hn. rewrite detect_address_anomalies_for_house.
    rewrite decide_False; [done|]. lia.
Qed.

(** The theorem at a house of 30 voters. *)
Lemma address_anomaly_tiers_witness :
  ∃ d, findings_for_house "12"
         (detect_address_anomalies (crowded_house "12" 30) 30)
       = [ADDRESS_ANOMALY d]
       ∧ AddressAnomaly.risk_level d = "MEDIUM".
Proof.
  destruct (proj1 (proj2
    (address_anomaly_tiers (crowded_house "12" 30) "12")))
    as (d & Hd & _ & _ & _ & _ & Hm).
  - vm_compute. lia.
  - exists d. split; [done|]. apply Hm. vm_compute. lia.
Defined.

(** Groups of 29, 30, 40 and 50 voters: nothing, MEDIUM, HIGH, CRITICAL. *)
Example address_anomaly_at_29_30_40_50 :
  (λ n,
     (λ f, match f with
           | ADDRESS_ANOMALY d =>
               Some (AddressAnomaly.voter_count d,
                     AddressAnomaly.risk_level d)
           | _ => None
           end)
       <$> detect_address_anomalies (crowded_house "12" n) 30)
    <$> [29; 30; 40; 50]%nat
  = [[]; [Some (30%nat, "MEDIUM")]; [Some (40%nat, "HIGH")];
     [Some (50%nat, "CRITICAL")]].
Proof. vm_compute. reflexivity. Qed.

(** Rows without a house number form no group, however many they are. *)
Example address_anomaly_absent_house :
  detect_address_anomalies (replicate 60 row_without_house) 30 = [].
Proof. vm_compute. reflexivity. Qed.

(** ** The whole run *)

Lemma float_leb_not_ltb (x y : float) :
  (y <=? x)%float = true → (x <? y)%float = false.
Proof.
  rewrite FloatAxioms.ltb_spec, FloatAxioms.leb_spec. unfold SFltb, SFleb.
  rewrite (SFcompare_antisym (Prim2SF x) (Prim2SF y)).
  by destruct (SFcompare (Prim2SF x) (Prim2SF y)) as [[]|].
Qed.

(** Filtering rows keeps their order. *)
Lemma omap_lookup_lt {A B : Type} (f : A → option B) (l : list A)
    (i j : nat) (a b : A) (a' b' : B) :
  (i < j)%nat → l !! i = Some a → l !! j = Some b →
  f a = Some a' → f b = Some b' →
  ∃ i' j', (i' < j')%nat ∧ omap f l !! i' = Some a'
           ∧ omap f l !! j' = Some b'.
Proof.
  intros Hlt Hi Hj Ha Hb. revert i j Hlt Hi Hj.
  induction l as [|x l IH]; intros i j Hlt Hi Hj.
  { by rewrite lookup_nil in Hi. }
  destruct j as [|j]; [lia|]. cbn [omap list_omap]. simpl in Hj.
  destruct i as [|i]; simpl in Hi.
  - injection Hi as ->. rewrite Ha.
    assert (b' ∈ omap f l) as [k Hk]%list_elem_of_lookup.
    { apply list_elem_of_omap. exists b. split; [|done].
      by eapply list_elem_of_lookup_2. }
    exists 0%nat, (S k). repeat split; [lia|done..].
  - destruct (IH i j) as (i' & j' & ? & ? & ?); [lia|done..|].
    destruct (f x).
    + exists (S i'), (S j'). repeat split; [lia|done..].
    + by exists i', j'.
Qed.

Lemma detect_scenario_1_kind (df : list VoterRow) :
  Forall is_fake_details (detect_scenario_1_fake_details df).
Proof.
  apply Forall_forall. intros f Hf.
  apply elem_of_scan_pairs in Hf as (_ & _ & r1 & r2 & _ & _ & _ & Hf).
  apply fake_details_pair_Some in Hf as (_ & ? & ? & _ & _ & ->).
  by eexists.
Qed.

Lemma detect_scenario_2_kind face_distance (df : list VoterRow) :
  Forall is_fake_face (detect_scenario_2_fake_face face_distance df).
Proof.
  apply Forall_forall. intros f Hf.
  rewrite detect_scenario_2_fake_face_scan in Hf.
  apply elem_of_scan_pairs in Hf as (_ & _ & x1 & x2 & _ & _ & _ & Hf).
  apply fake_face_pair_finding in Hf as (d & -> & _). by eexists.
Qed.

Lemma detect_exact_duplicate_photos_kind average_hash (df : list VoterRow) :
  Forall is_duplicate_photo (detect_exact_duplicate_photos average_hash df).
Proof.
  apply Forall_forall. intros f Hf.
  rewrite detect_exact_duplicate_photos_scan in Hf.
  apply elem_of_scan_pairs in Hf as (_ & _ & x1 & x2 & _ & _ & _ & Hf).
  apply duplicate_photo_pair_Some in Hf as [_ ->]. by eexists.
Qed.

Lemma detect_all_frauds_Returned face_distance average_hash
    (df : list VoterRow) :
  detect_all_frauds face_distance average_hash df
  = Returned (detect_scenario_1_fake_details df
              ++ detect_scenario_2_fake_face face_distance df
              ++ detect_exact_duplicate_photos average_hash df
              ++ detect_address_anomalies df 30).
Proof. unfold detect_all_frauds. by destruct (_ ++ _). Qed.

(** C8. The run returns the findings of the four matchers one after the
    other: fake details, fake faces, duplicate photos, address anomalies,
    each block being what its matcher returned and holding findings of
    its own kind only. Nothing is merged: two rows that meet both the
    exact-detail and the face criteria have a fake-details finding in the
    first block and a fake-face finding in the second, both naming the
    same two cards. *)
Theorem detect_all_frauds_concatenates
    (face_distance : encoding → encoding → float)
    (average_hash : string → option ImageHash) (df : list VoterRow) :
  detect_all_frauds face_distance average_hash df
  = Returned (detect_scenario_1_fake_details df
              ++ detect_scenario_2_fake_face face_distance df
              ++ detect_exact_duplicate_photos average_hash df
              ++ detect_address_anomalies df 30)
  ∧ Forall is_fake_details (detect_scenario_1_fake_details df)
  ∧ Forall is_fake_face (detect_scenario_2_fake_face face_distance df)
  ∧ Forall is_duplicate_photo
      (detect_exact_duplicate_photos average_hash df)
  ∧ Forall is_address_anomaly (detect_address_anomalies df 30)
  ∧ (∀ i j row1 row2 enc1 enc2,
       (i < j)%nat → df !! i = Some row1 → df !! j = Some row2 →
       details_criteria row1 row2 →
       face_encoding row1 = Some enc1 → face_encoding row2 = Some enc2 →
       (80 <=? similarity_percent_of face_distance enc1 enc2)%float = true →
       ∃ d1 d2,
         FAKE_DETAILS d1 ∈ detect_scenario_1_fake_details df
         ∧ FAKE_FACE d2 ∈ detect_scenario_2_fake_face face_distance df
         ∧ pair_cards (FAKE_DETAILS d1) = Some (card_id row1, card_id row2)
         ∧ pair_cards (FAKE_FACE d2) = Some (card_id row1, card_id row2)).
Proof.
  split_and!.
  - apply detect_all_frauds_Returned.
  - apply detect_scenario_1_kind.
  - apply detect_scenario_2_kind.
  - apply detect_exact_duplicate_photos_kind.
  - apply Forall_forall. intros f Hf.
    by apply detect_address_anomalies_kind in Hf.
  - intros i j row1 row2 enc1 enc2 Hlt Hi Hj Hc He1 He2 Hsim.
    assert (is_Some (fake_details_pair row1 row2)) as [f1 Hf1].
    { pose proof Hc as ((n & Hn & _) & (fh & Hfh & _) & _).
      eexists. apply fake_details_pair_Some. split; [done|].
      exists n, fh. by repeat split. }
    assert (is_Some (fake_face_pair face_distance (row1, enc1) (row2, enc2)))
      as [f2 Hf2].
    { apply fake_face_pair_is_Some. by apply float_leb_not_ltb. }
    pose proof (fake_details_pair_cards _ _ _ Hf1) as Hc1.
    pose proof (fake_face_pair_cards _ _ _ _ Hf2) as Hc2.
    pose proof Hf1 as (_ & n & fh & _ & _ & Hd1)%fake_details_pair_Some.
    pose proof Hf2 as (d2 & Hd2 & _)%fake_face_pair_finding.
    rewrite Hd1 in Hc1, Hf1. rewrite Hd2 in Hc2, Hf2.
    eexists _, d2. split_and!; [| |exact Hc1|exact Hc2].
    + apply elem_of_scan_pairs. by exists i, j, row1, row2.
    + rewrite detect_scenario_2_fake_face_scan. apply elem_of_scan_pairs.
      destruct (omap_lookup_lt
                  (λ row, enc ← face_encoding row; Some (row, enc))
                  df i j row1 row2 (row1, enc1) (row2, enc2))
        as (i' & j' & ? & ? & ?); [done..|by rewrite He1|by rewrite He2|].
      by exists i', j', (row1, enc1), (row2, enc2).
Qed.

(** The theorem at the two twin cards: one finding of each kind for the
    same two cards. *)
Lemma detect_all_frauds_concatenates_witness :
  ∃ d1 d2,
    FAKE_DETAILS d1 ∈ detect_scenario_1_fake_details [twin_1; twin_2]
    ∧ FAKE_FACE d2
      ∈ detect_scenario_2_fake_face first_number_distance [twin_1; twin_2]
    ∧ pair_cards (FAKE_DETAILS d1) = Some ("page_5_card_1", "page_5_card_2")
    ∧ pair_cards (FAKE_FACE d2) = Some ("page_5_card_1", "page_5_card_2").
Proof.
  refine (proj2 (proj2 (proj2 (proj2 (proj2
    (detect_all_frauds_concatenates first_number_distance path_length_hash
       [twin_1; twin_2])))))
    0%nat 1%nat twin_1 twin_2 [0.25%float] [0.375%float]
    _ eq_refl eq_refl _ eq_refl eq_refl eq_refl).
  - lia.
  - repeat split; try (by eexists); by intros ? ? [= <-] [= <-].
Defined.

(** The run on the twin cards: the two findings, in the order of the
    matchers. *)
Example detect_all_frauds_twins :
  match detect_all_frauds first_number_distance path_length_hash
          [twin_1; twin_2] with
  | Returned findings =>
      (λ f, match f with
            | FAKE_DETAILS _ => ("FAKE_DETAILS", pair_cards f)
            | FAKE_FACE _ => ("FAKE_FACE", pair_cards f)
            | DUPLICATE_PHOTO _ => ("DUPLICATE_PHOTO", pair_cards f)
            | ADDRESS_ANOMALY _ => ("ADDRESS_ANOMALY", pair_cards f)
            end) <$> findings
  | Raised _ => []
  end
  = [("FAKE_DETAILS", Some ("page_5_card_1", "page_5_card_2"));
     ("FAKE_FACE", Some ("page_5_card_1", "page_5_card_2"))].
Proof. vm_compute. reflexivity. Qed.

Lemma length_faces_df (df : list VoterRow) :
  (length (faces_df df) ≤ length df)%nat.
Proof.
  rewrite <- (length_fmap (card_id ∘ fst)), <- (length_fmap card_id df).
  apply sublist_length, faces_df_sublist.
Qed.

Lemma length_compute_hashes average_hash (df : list VoterRow) :
  (length (compute_hashes average_hash (cards_with_faces df))
   ≤ length df)%nat.
Proof.
  rewrite <- (length_fmap (λ x : string * ImageHash * VoterRow, x.1.1)),
    <- (length_fmap card_id df).
  apply sublist_length, compute_hashes_sublist.
Qed.

Lemma detect_address_anomalies_short (df : list VoterRow) :
  (length df < 30)%nat → detect_address_anomalies df 30 = [].
Proof.
  intros Hlen. destruct (detect_address_anomalies df 30) as [|f l] eqn:Hd;
    [done|].
  assert (f ∈ detect_address_anomalies df 30) as Hf by (rewrite Hd; left).
  apply detect_address_anomalies_elem in Hf as (d & _ & Hge & Hcount).
  pose proof (length_filter
    (λ row, house_number row = Some (AddressAnomaly.house_number d)) df).
  unfold group_size in Hcount. lia.
Qed.

(** C2 (amended). A run does not reject a frame with fewer than two
    rows: it raises nothing and returns the empty list of findings, none
    of the four matchers finding anything to compare. *)
Theorem detect_all_frauds_short_frame
    (face_distance : encoding → encoding → float)
    (average_hash : string → option ImageHash) (df : list VoterRow) :
  (length df < 2)%nat →
  detect_all_frauds face_distance average_hash df = Returned []
  ∧ detect_scenario_1_fake_details df = []
  ∧ detect_scenario_2_fake_face face_distance df = []
  ∧ detect_exact_duplicate_photos average_hash df = []
  ∧ detect_address_anomalies df 30 = [].
Proof.
  intros Hlen.
  assert (detect_scenario_1_fake_details df = []) as H1
    by by apply scan_pairs_short.
  assert (detect_scenario_2_fake_face face_distance df = []) as H2.
  { rewrite detect_scenario_2_fake_face_scan. apply scan_pairs_short.
    pose proof (length_faces_df df). lia. }
  assert (detect_exact_duplicate_photos average_hash df = []) as H3.
  { rewrite detect_exact_duplicate_photos_scan. apply scan_pairs_short.
    pose proof (length_compute_hashes average_hash df). lia. }
  assert (detect_address_anomalies df 30 = []) as H4
    by (apply detect_address_anomalies_short; lia).
  split_and!; try done.
  by rewrite detect_all_frauds_Returned, H1, H2, H3, H4.
Qed.

(** The theorem at a frame of one card. *)
Lemma detect_all_frauds_short_frame_witness :
  detect_all_frauds first_number_distance path_length_hash [twin_1]
  = Returned [].
Proof.
  apply (detect_all_frauds_short_frame first_number_distance
           path_length_hash [twin_1]).
  simpl. lia.
Defined.

(** No run is rejected: the empty frame, a frame of one card, and a
    frame in which one card id occurs twice all return; the card that
    occurs twice is even reported as a fake-details pair with itself. *)
Lemma detect_all_frauds_rejects_counterexample :
  ((length (@nil VoterRow) < 2)%nat
   ∧ detect_all_frauds first_number_distance path_length_hash []
     = Returned [])
  ∧ ((length [twin_1] < 2)%nat
     ∧ detect_all_frauds first_number_distance path_length_hash [twin_1]
       = Returned [])
  ∧ (¬ NoDup (card_id <$> [twin_1; twin_1])
     ∧ ∃ findings,
         detect_all_frauds first_number_distance path_length_hash
           [twin_1; twin_1] = Returned findings
         ∧ pair_cards <$> findings
           = [Some ("page_5_card_1", "page_5_card_1");
              Some ("page_5_card_1", "page_5_card_1")]).
Proof.
  split_and!; try (simpl; lia); try reflexivity.
  - intros Hnd. apply NoDup_cons in Hnd as [Hnotin _].
    apply Hnotin. left.
  - eexists. split; vm_compute; reflexivity.
Qed.

(** * Further properties of the detector *)

(** ** Order of the rows *)

Lemma details_criteria_sym (row1 row2 : VoterRow) :
  details_criteria row1 row2 → details_criteria row2 row1.
Proof.
  intros ((n & Hn1 & Hn2) & (fh & Hf1 & Hf2) & Ha & Hg). split_and!.
  - by exists n.
  - by exists fh.
  - intros a b H2 H1. symmetry. by apply Ha.
  - intros a b H2 H1. symmetry. by apply Hg.
Qed.

Lemma fake_details_pair_is_Some (row1 row2 : VoterRow) :
  is_Some (fake_details_pair row1 row2) ↔ details_criteria row1 row2.
Proof.
  split.
  - intros [f Hf]. by apply fake_details_pair_Some in Hf as [? _].
  - intros Hc. pose proof Hc as ((n & Hn & _) & (fh & Hfh & _) & _).
    eexists. apply fake_details_pair_Some. split; [done|].
    exists n, fh. by repeat split.
Qed.

(** What the scan emits, by the place of the two rows in the list. *)
Lemma elem_of_scan_pairs_split {A B : Type} (body : A → A → option B)
    (xs : list A) (y : B) :
  y ∈ scan_pairs body xs ↔
  ∃ l1 x1 l2 x2 l3, xs = l1 ++ x1 :: l2 ++ x2 :: l3 ∧ body x1 x2 = Some y.
Proof.
  induction xs as [|x rest IH]; simpl.
  - split; [by intros ?%elem_of_nil|].
    intros (l1 & x1 & l2 & x2 & l3 & Heq & _). by destruct l1.
  - rewrite elem_of_app, list_elem_of_omap, IH. split.
    + intros [(x2 & Hin & Hb)|(l1 & x1 & l2 & x2 & l3 & -> & Hb)].
      * apply list_elem_of_split in Hin as (l2 & l3 & ->).
        by exists [], x, l2, x2, l3.
      * by exists (x :: l1), x1, l2, x2, l3.
    + intros (l1 & x1 & l2 & x2 & l3 & Heq & Hb).
      destruct l1 as [|x' l1]; simplify_eq/=.
      * left. exists x2. split; [|done].
        rewrite elem_of_app. right. left.
      * right. by exists l1, x1, l2, x2, l3.
Qed.

(** X1. The exact-detail decision does not depend on which of the two
    rows comes first: a pair is reported in one order if and only if it
    is reported in the other, with the same columns listed. Scanning the
    frame from the other end therefore reports the same pairs of cards,
    each with its two cards exchanged. *)
Theorem fake_details_symmetric (df : list VoterRow) (row1 row2 : VoterRow) :
  (is_Some (fake_details_pair row1 row2)
   ↔ is_Some (fake_details_pair row2 row1))
  ∧ fields_matched row1 row2 = fields_matched row2 row1
  ∧ (∀ p, p ∈ pair_cards <$> detect_scenario_1_fake_details (reverse df)
          ↔ swap_cards p ∈ pair_cards <$> detect_scenario_1_fake_details df).
Proof.
  split_and!.
  - rewrite !fake_details_pair_is_Some.
    split; apply details_criteria_sym.
  - unfold fields_matched, matched.
    destruct (name row1), (name row2), (father_husband_name row1),
      (father_husband_name row2), (age row1), (age row2), (gender row1),
      (gender row2); simpl; repeat case_bool_decide; simplify_eq; done.
  - assert (∀ xs p,
      p ∈ pair_cards <$> detect_scenario_1_fake_details (reverse xs) →
      swap_cards p ∈ pair_cards <$> detect_scenario_1_fake_details xs)
      as Hone.
    { intros xs p (f & -> & Hf)%list_elem_of_fmap.
      apply elem_of_scan_pairs_split in Hf
        as (l1 & x1 & l2 & x2 & l3 & Heq & Hb).
      assert (is_Some (fake_details_pair x2 x1)) as [f' Hb'].
      { apply fake_details_pair_is_Some, details_criteria_sym,
          fake_details_pair_is_Some. by eexists. }
      apply list_elem_of_fmap. exists f'. split.
      - by rewrite (fake_details_pair_cards _ _ _ Hb),
          (fake_details_pair_cards _ _ _ Hb').
      - apply elem_of_scan_pairs_split.
        exists (reverse l3), x2, (reverse l2), x1, (reverse l1).
        split; [|done]. apply (inj reverse).
        rewrite Heq, !reverse_app, !reverse_cons, !reverse_app,
          !reverse_cons, !reverse_involutive, <- !app_assoc. done. }
    intros p. split; [apply Hone|].
    intros Hp. rewrite <- (reverse_involutive df) in Hp.
    apply Hone in Hp. by destruct p as [[a b]|].
Qed.
(** ** Frames and sub-frames *)

Lemma omap_sublist_of {A B : Type} (f : A → option B) (l1 l2 : list A) :
  l1 `sublist_of` l2 → omap f l1 `sublist_of` omap f l2.
Proof.
  induction 1 as [|x l1 l2 _ IH|x l1 l2 _ IH]; [done|..];
    cbn [omap list_omap]; destruct (f x); by try constructor.
Qed.

Lemma scan_pairs_sublist {A B : Type} (body : A → A → option B)
    (l1 l2 : list A) :
  l1 `sublist_of` l2 → scan_pairs body l1 `sublist_of` scan_pairs body l2.
Proof.
  induction 1 as [|x l1 l2 Hsub IH|x l1 l2 Hsub IH]; [done|..]; simpl.
  - apply sublist_app; [by apply omap_sublist_of|done].
  - by apply sublist_inserts_l.
Qed.

Lemma length_range_pairs (n : nat) :
  (2 * length (range_pairs n) = n * (n - 1))%nat.
Proof.
  induction n as [|n IH]; [done|].
  rewrite range_pairs_S, length_app, !length_fmap, length_seq. nia.
Qed.

Lemma length_omap_le {A B : Type} (f : A → option B) (l : list A) :
  (length (omap f l) ≤ length l)%nat.
Proof.
  induction l as [|x l IH]; [done|].
  cbn [omap list_omap]. destruct (f x); simpl; lia.
Qed.

Lemma length_scan_pairs {A B : Type} (body : A → A → option B)
    (xs : list A) :
  (2 * length (scan_pairs body xs) ≤ length xs * (length xs - 1))%nat.
Proof.
  rewrite scan_pairs_range_pairs, <- length_range_pairs.
  pose proof (length_omap_le (body_at body xs) (range_pairs (length xs))).
  lia.
Qed.

(** X2. Removing rows from the frame can only remove findings of the
    three pairwise matchers: what they report on a frame with some rows
    left out is, in the same order, part of what they report on the whole
    frame. *)
Theorem pairwise_findings_of_sub_frame
    (face_distance : encoding → encoding → float)
    (average_hash : string → option ImageHash) (df1 df2 : list VoterRow) :
  df1 `sublist_of` df2 →
  detect_scenario_1_fake_details df1
    `sublist_of` detect_scenario_1_fake_details df2
  ∧ detect_scenario_2_fake_face face_distance df1
      `sublist_of` detect_scenario_2_fake_face face_distance df2
  ∧ detect_exact_duplicate_photos average_hash df1
      `sublist_of` detect_exact_duplicate_photos average_hash df2.
Proof.
  intros Hsub. split_and!.
  - by apply scan_pairs_sublist.
  - rewrite !detect_scenario_2_fake_face_scan.
    by apply scan_pairs_sublist, omap_sublist_of.
  - rewrite !detect_exact_duplicate_photos_scan.
    by apply scan_pairs_sublist, omap_sublist_of, omap_sublist_of.
Qed.

(** The theorem at the twin cards with a third card between them. *)
Lemma pairwise_findings_of_sub_frame_witness :
  detect_scenario_1_fake_details [twin_1; twin_2]
    `sublist_of` detect_scenario_1_fake_details [twin_1; row_a; twin_2].
Proof.
  apply (pairwise_findings_of_sub_frame first_number_distance
           path_length_hash [twin_1; twin_2] [twin_1; row_a; twin_2]).
  apply sublist_skip, sublist_cons, sublist_skip, sublist_nil.
Defined.

(** X3. A pairwise matcher reports at most one finding per pair of rows
    it scans: on a frame of [n] rows each of the three reports at most
    [n * (n - 1) / 2] findings. *)
Theorem pairwise_findings_count
    (face_distance : encoding → encoding → float)
    (average_hash : string → option ImageHash) (df : list VoterRow) :
  (2 * length (detect_scenario_1_fake_details df)
   ≤ length df * (length df - 1))%nat
  ∧ (2 * length (detect_scenario_2_fake_face face_distance df)
     ≤ length df * (length df - 1))%nat
  ∧ (2 * length (detect_exact_duplicate_photos average_hash df)
     ≤ length df * (length df - 1))%nat.
Proof.
  split_and!.
  - apply length_scan_pairs.
  - rewrite detect_scenario_2_fake_face_scan.
    pose proof (length_scan_pairs (fake_face_pair face_distance)
                  (faces_df df)).
    pose proof (length_faces_df df). nia.
  - rewrite detect_exact_duplicate_photos_scan.
    pose proof (length_scan_pairs duplicate_photo_pair
                  (compute_hashes average_hash (cards_with_faces df))).
    pose proof (length_compute_hashes average_hash df). nia.
Qed.
(** ** Photo hashes *)

Lemma hash_sub_sym (h1 h2 : ImageHash) : hash_sub h1 h2 = hash_sub h2 h1.
Proof.
  unfold hash_sub. generalize (bits h1) (bits h2). intros l1.
  induction l1 as [|b1 l1 IH]; intros [|b2 l2]; try done. simpl.
  rewrite !filter_cons. simpl.
  destruct (decide (b1 ≠ b2)), (decide (b2 ≠ b1)); simpl;
    try congruence; by rewrite IH.
Qed.

Lemma hash_sub_le (h1 h2 : ImageHash) : (hash_sub h1 h2 ≤ hash_bit_length)%nat.
Proof.
  unfold hash_sub.
  etrans; [apply length_filter|]. rewrite length_zip_with, !bits_length. lia.
Qed.

Lemma hash_sub_zero (h1 h2 : ImageHash) :
  hash_sub h1 h2 = 0%nat ↔ bits h1 = bits h2.
Proof.
  unfold hash_sub.
  assert (length (bits h1) = length (bits h2)) as Hlen
    by by rewrite !bits_length.
  revert Hlen. generalize (bits h1) (bits h2). intros l1.
  induction l1 as [|b1 l1 IH]; intros [|b2 l2] Hlen; try done.
  simpl. rewrite filter_cons. simpl. destruct (decide (b1 ≠ b2)) as [Hne|Heq].
  - split; [done|]. by intros [= ? ?].
  - apply dec_stable in Heq. subst b2. rewrite IH by (simpl in Hlen; lia).
    split; [by intros ->|by intros [= ->]].
Qed.

(** X4. The distance of two photo hashes does not depend on their order,
    is at most the 256 bits of a hash, and is 0 exactly when the two
    hashes are the same bits. So the photo matcher decides a pair the
    same way in either order, and two photos with the same hash are
    always reported, as the EXACT SAME PHOTO with similarity 100. *)
Theorem duplicate_photo_distance
    (x1 x2 : string * ImageHash * VoterRow) :
  hash_sub x1.1.2 x2.1.2 = hash_sub x2.1.2 x1.1.2
  ∧ (hash_sub x1.1.2 x2.1.2 ≤ 256)%nat
  ∧ (hash_sub x1.1.2 x2.1.2 = 0%nat ↔ bits x1.1.2 = bits x2.1.2)
  ∧ (is_Some (duplicate_photo_pair x1 x2)
     ↔ is_Some (duplicate_photo_pair x2 x1))
  ∧ (bits x1.1.2 = bits x2.1.2 →
     ∃ d, duplicate_photo_pair x1 x2 = Some (DUPLICATE_PHOTO d)
          ∧ DuplicatePhoto.hash_difference d = 0%nat
          ∧ DuplicatePhoto.photo_similarity d = 100%float
          ∧ DuplicatePhoto.likelihood d = EXACT_SAME_PHOTO).
Proof.
  split_and!.
  - apply hash_sub_sym.
  - apply hash_sub_le.
  - apply hash_sub_zero.
  - assert (∀ y1 y2, is_Some (duplicate_photo_pair y1 y2) ↔
                     (hash_sub y1.1.2 y2.1.2 ≤ 10)%nat) as Hdec.
    { intros y1 y2. split.
      - by intros [f [? _]%duplicate_photo_pair_Some].
      - intros Hle. eexists. by apply duplicate_photo_pair_Some. }
    by rewrite !Hdec, hash_sub_sym.
  - intros Hz%hash_sub_zero. eexists. split.
    + apply duplicate_photo_pair_Some. split; [lia|reflexivity].
    + simpl. rewrite Hz. by split_and!.
Qed.

(** The theorem at two cards with the same photo. *)
Lemma duplicate_photo_distance_witness :
  ∃ d, duplicate_photo_pair
         (card_id photo_0, leading_ones 5, photo_0)
         (card_id photo_5, leading_ones 5, photo_5)
       = Some (DUPLICATE_PHOTO d)
       ∧ DuplicatePhoto.photo_similarity d = 100%float.
Proof.
  destruct (proj2 (proj2 (proj2 (proj2 (duplicate_photo_distance
              (card_id photo_0, leading_ones 5, photo_0)
              (card_id photo_5, leading_ones 5, photo_5))))) eq_refl)
    as (d & Hd & _ & Hs & _).
  by exists d.
Defined.

Lemma photo_similarity_table (k : nat) :
  (k ≤ 10)%nat →
  Some (py_round (photo_similarity_percent k) 2)
  = [100; 98.44; 96.88; 95.31; 93.75; 92.19; 90.62; 89.06; 87.5; 85.94;
     84.38]%float !! k.
Proof.
  intros Hk. do 11 (destruct k as [|k]; [reflexivity|]). lia.
Qed.

(** X5. Every finding of the photo matcher has a hash difference of at
    most 10 and a stored similarity between 84.38 and 100; the similarity
    is 100 exactly for a difference of 0, and of two findings the one
    with the larger hash difference has the strictly smaller
    similarity. *)
Theorem duplicate_photo_similarity_range
    (average_hash : string → option ImageHash) (df : list VoterRow)
    (d1 d2 : DuplicatePhoto.t) :
  DUPLICATE_PHOTO d1 ∈ detect_exact_duplicate_photos average_hash df →
  DUPLICATE_PHOTO d2 ∈ detect_exact_duplicate_photos average_hash df →
  (DuplicatePhoto.hash_difference d1 ≤ 10)%nat
  ∧ (84.38 <=? DuplicatePhoto.photo_similarity d1)%float = true
  ∧ (DuplicatePhoto.photo_similarity d1 <=? 100)%float = true
  ∧ ((DuplicatePhoto.photo_similarity d1 =? 100)%float = true
     ↔ DuplicatePhoto.hash_difference d1 = 0%nat)
  ∧ ((DuplicatePhoto.hash_difference d1
      < DuplicatePhoto.hash_difference d2)%nat →
     (DuplicatePhoto.photo_similarity d2
      <? DuplicatePhoto.photo_similarity d1)%float = true).
Proof.
  assert (∀ d, DUPLICATE_PHOTO d
               ∈ detect_exact_duplicate_photos average_hash df →
            (DuplicatePhoto.hash_difference d ≤ 10)%nat
            ∧ DuplicatePhoto.photo_similarity d
              = py_round (photo_similarity_percent
                            (DuplicatePhoto.hash_difference d)) 2)
    as Hfind.
  { intros d Hd. rewrite detect_exact_duplicate_photos_scan in Hd.
    apply elem_of_scan_pairs in Hd as (_ & _ & y1 & y2 & _ & _ & _ & Hd).
    by apply duplicate_photo_pair_Some in Hd as [? [= ->]]. }
  intros [Hk1 ->]%Hfind [Hk2 ->]%Hfind.
  generalize dependent (DuplicatePhoto.hash_difference d2).
  generalize dependent (DuplicatePhoto.hash_difference d1).
  intros k1 Hk1 k2 Hk2.
  split; [done|].
  do 11 (destruct k1 as [|k1];
         [split_and!; try reflexivity; try (split; (done || lia));
          intros Hlt;
          do 11 (destruct k2 as [|k2]; [(lia || reflexivity)|]); lia|]).
  lia.
Qed.

(** The theorem at two photos whose hashes are 5 bits apart. *)
Lemma duplicate_photo_similarity_range_witness :
  ∃ d, DUPLICATE_PHOTO d
       ∈ detect_exact_duplicate_photos path_length_hash [photo_0; photo_5]
       ∧ (84.38 <=? DuplicatePhoto.photo_similarity d)%float = true.
Proof.
  pose proof (duplicate_photo_similarity_range path_length_hash
                [photo_0; photo_5]) as Hrange.
  destruct (detect_exact_duplicate_photos path_length_hash
              [photo_0; photo_5]) as [|[d0|d0|d|d0] l] eqn:E;
    try (by vm_compute in E).
  assert (DUPLICATE_PHOTO d ∈ DUPLICATE_PHOTO d :: l) as Hin by left.
  exists d. split; [done|]. exact (proj1 (proj2 (Hrange d d Hin Hin))).
Defined.
(** ** Address findings *)

Lemma length_remove_dups_le {A : Type} `{EqDecision A} (l : list A) :
  (length (remove_dups l) ≤ length l)%nat.
Proof.
  induction l as [|x l IH]; [done|]. simpl. case_decide; simpl; lia.
Qed.

Lemma nunique_le (column : list (option string)) :
  (nunique column ≤ length column)%nat.
Proof.
  unfold nunique. etrans; [apply length_remove_dups_le|].
  apply length_omap_le.
Qed.

(** X6. In every address finding the counts of distinct names and of
    distinct father/husband names are at most the number of voters, the
    number of voters reaches the threshold and is at most the number of
    rows of the frame, and no two findings are about the same house. *)
Theorem address_anomaly_counts (df : list VoterRow) (threshold : nat)
    (d : AddressAnomaly.t) :
  ADDRESS_ANOMALY d ∈ detect_address_anomalies df threshold →
  (AddressAnomaly.unique_names d ≤ AddressAnomaly.voter_count d)%nat
  ∧ (AddressAnomaly.unique_fathers d ≤ AddressAnomaly.voter_count d)%nat
  ∧ (threshold ≤ AddressAnomaly.voter_count d ≤ length df)%nat
  ∧ (0 < AddressAnomaly.voter_count d)%nat
  ∧ findings_for_house (AddressAnomaly.house_number d)
      (detect_address_anomalies df threshold) = [ADDRESS_ANOMALY d].
Proof.
  intros Hd.
  assert (ADDRESS_ANOMALY d
          ∈ findings_for_house (AddressAnomaly.house_number d)
              (detect_address_anomalies df threshold)) as Hin.
  { by apply list_elem_of_filter. }
  pose proof Hin as Hin'.
  rewrite detect_address_anomalies_for_house in Hin'.
  case_decide as Hn; [|by apply elem_of_nil in Hin'].
  apply list_elem_of_singleton in Hin'. injection Hin' as Hdeq.
  pose proof (f_equal AddressAnomaly.unique_names Hdeq) as Hun.
  pose proof (f_equal AddressAnomaly.unique_fathers Hdeq) as Huf.
  pose proof (f_equal AddressAnomaly.voter_count Hdeq) as Hvc.
  simpl in Hun, Huf, Hvc.
  pose proof (length_filter
    (λ row, house_number row = Some (AddressAnomaly.house_number d)) df)
    as Hle.
  fold (group_size df (AddressAnomaly.house_number d)) in Hle.
  split_and!; try lia.
  - rewrite Hun, Hvc. etrans; [apply nunique_le|]. by rewrite length_fmap.
  - rewrite Huf, Hvc. etrans; [apply nunique_le|]. by rewrite length_fmap.
  - rewrite detect_address_anomalies_for_house, decide_True by done.
    cbv zeta. by rewrite <- Hdeq.
Qed.

(** The theorem at a house of 30 voters. *)
Lemma address_anomaly_counts_witness :
  ∃ d, ADDRESS_ANOMALY d
       ∈ detect_address_anomalies (crowded_house "12" 30) 30
       ∧ (AddressAnomaly.unique_names d
          ≤ AddressAnomaly.voter_count d)%nat.
Proof.
  pose proof (address_anomaly_counts (crowded_house "12" 30) 30) as Hcounts.
  destruct (detect_address_anomalies (crowded_house "12" 30) 30)
    as [|[d0|d0|d0|d] l] eqn:E; try (by vm_compute in E).
  assert (ADDRESS_ANOMALY d ∈ ADDRESS_ANOMALY d :: l) as Hin by left.
  exists d. split; [done|]. exact (proj1 (Hcounts d Hin)).
Defined.

(** ** The report, split by type *)

Lemma filter_all {A : Type} (P : A → Prop) `{∀ x, Decision (P x)}
    (l : list A) :
  Forall P l → filter P l = l.
Proof.
  induction 1 as [|x l Hx _ IH]; [done|].
  by rewrite filter_cons_True, IH.
Qed.

Lemma filter_none {A : Type} (P : A → Prop) `{∀ x, Decision (P x)}
    (l : list A) :
  Forall (λ x, ¬ P x) l → filter P l = [].
Proof.
  induction 1 as [|x l Hx _ IH]; [done|].
  by rewrite filter_cons_False.
Qed.

Lemma of_fraud_type_kind (t : string) (kind : FraudFinding → Prop)
    (t' : string) (l : list FraudFinding) :
  (∀ f, kind f → fraud_type f = t') → Forall kind l →
  of_fraud_type t l = if decide (t' = t) then l else [].
Proof.
  intros Hkind Hl. unfold of_fraud_type. case_decide as Ht.
  - apply filter_all. eapply Forall_impl; [done|].
    intros f Hf. simpl. by rewrite (Hkind f Hf).
  - apply filter_none. eapply Forall_impl; [done|].
    intros f Hf. simpl. by rewrite (Hkind f Hf).
Qed.

(** X7. Splitting the returned report by ['fraud_type'], as the report
    printer and the final statistics do, gives back what each matcher
    returned, in its order; so the four counts of the summary add up to
    the number of rows of the report. *)
Theorem report_split_by_fraud_type
    (face_distance : encoding → encoding → float)
    (average_hash : string → option ImageHash) (df : list VoterRow)
    (frauds : list FraudFinding) :
  detect_all_frauds face_distance average_hash df = Returned frauds →
  of_fraud_type "FAKE_DETAILS" frauds = detect_scenario_1_fake_details df
  ∧ of_fraud_type "FAKE_FACE" frauds
    = detect_scenario_2_fake_face face_distance df
  ∧ of_fraud_type "DUPLICATE_PHOTO" frauds
    = detect_exact_duplicate_photos average_hash df
  ∧ of_fraud_type "ADDRESS_ANOMALY" frauds
    = detect_address_anomalies df 30
  ∧ length frauds
    = (length (of_fraud_type "FAKE_DETAILS" frauds)
       + length (of_fraud_type "FAKE_FACE" frauds)
       + length (of_fraud_type "DUPLICATE_PHOTO" frauds)
       + length (of_fraud_type "ADDRESS_ANOMALY" frauds))%nat.
Proof.
  rewrite detect_all_frauds_Returned. intros [= <-].
  assert (∀ t, of_fraud_type t
      (detect_scenario_1_fake_details df
       ++ detect_scenario_2_fake_face face_distance df
       ++ detect_exact_duplicate_photos average_hash df
       ++ detect_address_anomalies df 30)
    = (if decide ("FAKE_DETAILS" = t)
       then detect_scenario_1_fake_details df else [])
      ++ (if decide ("FAKE_FACE" = t)
          then detect_scenario_2_fake_face face_distance df else [])
      ++ (if decide ("DUPLICATE_PHOTO" = t)
          then detect_exact_duplicate_photos average_hash df else [])
      ++ (if decide ("ADDRESS_ANOMALY" = t)
          then detect_address_anomalies df 30 else [])) as Hsplit.
  { intros t. unfold of_fraud_type at 1. rewrite !filter_app.
    fold (of_fraud_type t (detect_scenario_1_fake_details df)).
    fold (of_fraud_type t (detect_scenario_2_fake_face face_distance df)).
    fold (of_fraud_type t (detect_exact_duplicate_photos average_hash df)).
    fold (of_fraud_type t (detect_address_anomalies df 30)).
    rewrite (of_fraud_type_kind t is_fake_details "FAKE_DETAILS");
      [|by intros ? [? ->]|apply detect_scenario_1_kind].
    rewrite (of_fraud_type_kind t is_fake_face "FAKE_FACE");
      [|by intros ? [? ->]|apply detect_scenario_2_kind].
    rewrite (of_fraud_type_kind t is_duplicate_photo "DUPLICATE_PHOTO");
      [|by intros ? [? ->]|apply detect_exact_duplicate_photos_kind].
    rewrite (of_fraud_type_kind t is_address_anomaly "ADDRESS_ANOMALY");
      [done|by intros ? [? ->]|].
    apply Forall_forall. intros f Hf.
    by apply detect_address_anomalies_kind in Hf. }
  rewrite !Hsplit. simpl. rewrite !app_nil_r, !length_app.
  split_and!; try done. lia.
Qed.

(** The theorem at the twin cards. *)
Lemma report_split_by_fraud_type_witness :
  ∃ frauds,
    detect_all_frauds first_number_distance path_length_hash
      [twin_1; twin_2] = Returned frauds
    ∧ of_fraud_type "FAKE_FACE" frauds
      = detect_scenario_2_fake_face first_number_distance [twin_1; twin_2].
Proof.
  eexists. split; [apply detect_all_frauds_Returned|].
  exact (proj1 (proj2 (report_split_by_fraud_type first_number_distance
                         path_length_hash [twin_1; twin_2] _
                         (detect_all_frauds_Returned _ _ _)))).
Defined.

(** * Properties of the card segmentation *)

(** ** Line positions *)

#[global] Instance well_after_trans : Transitive well_after.
Proof. unfold well_after. intros p q r. lia. Qed.

Lemma seq_snoc (start len : nat) :
  seq start (S len) = seq start len ++ [(start + len)%nat].
Proof. by rewrite <- seq_S. Qed.

Section LinePositions.
Context (projection : list Z) (threshold : float).

Lemma line_step_invariant (k : nat) (lines : list nat) :
  lines_invariant projection threshold k lines →
  lines_invariant projection threshold (S k)
    (line_step projection threshold lines k).
Proof.
  intros (Hsorted & Hall & Hcover).
  assert (Forall (λ p, (p < S k)%nat
                       ∧ above_threshold projection threshold p = true)
                 lines) as Hall'.
  { eapply Forall_impl; [done|]. intros p [? ?]. split; [lia|done]. }
  assert (∀ i, (i < k)%nat → above_threshold projection threshold i = true →
            ∀ extra, ∃ p, p ∈ lines ++ extra ∧ (p ≤ i ≤ p + 20)%nat)
    as Hcover'.
  { intros i Hi Ha extra. destruct (Hcover i Hi Ha) as (p & Hp & ?).
    exists p. split; [|done]. apply elem_of_app. by left. }
  unfold line_step.
  destruct (above_threshold projection threshold k) eqn:Hk.
  2:{ split_and!; [done..|]. intros i Hi Ha.
      assert (i ≠ k) by congruence.
      destruct (Hcover i) as (p & ? & ?); [lia|done|]. by exists p. }
  assert (lines_invariant projection threshold (S k) (lines ++ [k])
          ∨ ∃ previous, last lines = Some previous
              ∧ ¬ (20 < Z.of_nat k - Z.of_nat previous)%Z) as Hcases.
  { destruct (last lines) as [previous|] eqn:Hlast.
    - destruct (decide (20 < Z.of_nat k - Z.of_nat previous)%Z) as [Hgap|Hgap];
        [left|right; by exists previous].
      apply last_Some in Hlast as [lines' ->].
      split_and!.
      + apply Sorted_snoc; [done|]. constructor. unfold well_after. lia.
      + apply Forall_app. split; [done|]. by repeat constructor.
      + intros i Hi Ha. destruct (decide (i = k)) as [->|Hne].
        * exists k. split; [|lia]. apply elem_of_app. right. left.
        * apply Hcover'; [lia|done].
    - left. apply last_None in Hlast as ->. split_and!.
      + repeat constructor.
      + by repeat constructor.
      + intros i Hi Ha. destruct (decide (i = k)) as [->|Hne].
        * exists k. split; [left|lia].
        * destruct (Hcover i) as (p & Hp & _); [lia|done|].
          by apply elem_of_nil in Hp. }
  destruct (last lines) as [previous|] eqn:Hlast.
  - destruct (decide (20 < Z.of_nat k - Z.of_nat previous)%Z) as [Hgap|Hgap].
    + by destruct Hcases as [?|(? & [= <-] & ?)].
    + split_and!; [done..|]. intros i Hi Ha.
      destruct (decide (i = k)) as [->|Hne].
      * exists previous. apply last_Some in Hlast as [lines' ->].
        split; [apply elem_of_app; right; left|].
        apply Forall_app in Hall as [_ [[? _] _]%Forall_cons]. lia.
      * destruct (Hcover i) as (p & ? & ?); [lia|done|]. by exists p.
  - by destruct Hcases as [?|(? & [=] & _)].
Qed.

Lemma foldl_line_step_invariant (n : nat) :
  lines_invariant projection threshold n
    (foldl (line_step projection threshold) [] (seq 0 n)).
Proof.
  induction n as [|n IH].
  - split_and!; [constructor..|]. intros i Hi. lia.
  - rewrite seq_snoc, foldl_app. simpl. by apply line_step_invariant.
Qed.

End LinePositions.

Lemma length_projection_of (line_image : GrayImage) (direction : string) :
  length (projection_of line_image direction)
  = if decide (direction = "vertical") then img_width line_image
    else img_height line_image.
Proof.
  unfold projection_of. case_decide; by rewrite length_fmap, length_seq.
Qed.

Lemma find_line_positions_Returned (line_image : GrayImage)
    (direction : string) (lines : list nat) :
  find_line_positions line_image direction = Returned lines →
  lines_invariant (projection_of line_image direction)
    (float_of_Z (projection_max (projection_of line_image direction))
     * 0.3)%float
    (length (projection_of line_image direction)) lines.
Proof.
  unfold find_line_positions.
  destruct (projection_of line_image direction) as [|v projection] eqn:Hp;
    [done|].
  intros [= <-]. apply foldl_line_step_invariant.
Qed.

(** X8. The line positions [find_line_positions] returns are more than
    20 pixels apart from one another, in increasing order; each is a
    position of the projection whose sum is above the threshold of 30% of
    the largest sum; and every position above the threshold is at most 20
    pixels after a returned one. *)
Theorem find_line_positions_spaced (line_image : GrayImage)
    (direction : string) (lines : list nat) :
  find_line_positions line_image direction = Returned lines →
  StronglySorted well_after lines
  ∧ Forall (λ p,
      (p < length (projection_of line_image direction))%nat
      ∧ above_threshold (projection_of line_image direction)
          (float_of_Z (projection_max (projection_of line_image direction))
           * 0.3)%float p = true) lines
  ∧ (∀ i, (i < length (projection_of line_image direction))%nat →
       above_threshold (projection_of line_image direction)
         (float_of_Z (projection_max (projection_of line_image direction))
          * 0.3)%float i = true →
       ∃ p, p ∈ lines ∧ (p ≤ i ≤ p + 20)%nat).
Proof.
  intros (Hsorted & Hall & Hcover)%find_line_positions_Returned.
  split_and!; [|done..]. apply Sorted_StronglySorted; [apply _|done].
Qed.

(** The theorem at an image with a line three pixels thick at column 10
    and a thin line at column 50. *)
Lemma find_line_positions_spaced_witness :
  find_line_positions (striped 3 100 [10; 11; 12; 50]%nat) "vertical"
  = Returned [10; 50]%nat
  ∧ StronglySorted well_after [10; 50]%nat.
Proof.
  assert (find_line_positions (striped 3 100 [10; 11; 12; 50]%nat)
            "vertical" = Returned [10; 50]%nat) as Hrun
    by (vm_compute; reflexivity).
  split; [done|].
  exact (proj1 (find_line_positions_spaced _ _ _ Hrun)).
Defined.

(** A line more than 21 pixels thick is reported more than once: with
    the columns 10 to 40 lit, columns 10 and 31 are returned. *)
Example find_line_positions_thick_line :
  find_line_positions (striped 3 100 (seq 10 31)) "vertical"
  = Returned [10; 31]%nat.
Proof. vm_compute. reflexivity. Qed.

Lemma pixel_sum_zero (pixels : list Byte.byte) :
  Forall (λ p, p = Byte.x00) pixels → pixel_sum pixels = 0%Z.
Proof. induction 1 as [|p l -> _ IH]; simpl; [done|]. by rewrite IH. Qed.

Lemma projection_max_zero (projection : list Z) :
  Forall (λ v, v = 0%Z) projection → projection_max projection = 0%Z.
Proof. induction 1 as [|p l -> _ IH]; simpl; [done|]. by rewrite IH. Qed.

Lemma foldl_line_step_none (projection : list Z) (threshold : float)
    (indices : list nat) :
  Forall (λ i, above_threshold projection threshold i = false) indices →
  foldl (line_step projection threshold) [] indices = [].
Proof.
  induction 1 as [|i l Hi _ IH]; simpl; [done|].
  unfold line_step at 2. by rewrite Hi.
Qed.

(** X9. [find_line_positions] raises exactly when the image has no
    column (for vertical lines) or no row (for any other direction), the
    case in which the largest sum of an empty projection is asked for. On
    an image without a single lit pixel it finds no line: no sum is above
    a threshold of 0. *)
Theorem find_line_positions_edge_cases (line_image : GrayImage)
    (direction : string) :
  (find_line_positions line_image direction = Raised "ValueError" ↔
   (if decide (direction = "vertical") then img_width line_image
    else img_height line_image) = 0%nat)
  ∧ ((∀ y x, img_pixel line_image y x = Byte.x00) →
     (if decide (direction = "vertical") then img_width line_image
      else img_height line_image) ≠ 0%nat →
     find_line_positions line_image direction = Returned []).
Proof.
  rewrite <- length_projection_of. unfold find_line_positions. split.
  - destruct (projection_of line_image direction); simpl; split;
      try done; lia.
  - intros Hblack Hlen.
    assert (Forall (λ v, v = 0%Z) (projection_of line_image direction))
      as Hzero.
    { unfold projection_of. case_decide; apply Forall_fmap, Forall_forall;
        intros i _; simpl; apply pixel_sum_zero, Forall_fmap, Forall_forall;
        intros j _; apply Hblack. }
    destruct (projection_of line_image direction) as [|v projection];
      [done|].
    f_equal. rewrite (projection_max_zero _ Hzero).
    apply foldl_line_step_none, Forall_forall. intros i Hi%elem_of_seq.
    unfold above_threshold.
    assert ((v :: projection) !!! i = 0%Z) as ->; [|reflexivity].
    apply list_lookup_total_correct.
    destruct (lookup_lt_is_Some_2 (v :: projection) i) as [z Hz]; [lia|].
    rewrite Hz. f_equal. eapply Forall_lookup_1 in Hzero; done.
Qed.

(** The theorem at a black image of 40 rows and 60 columns. *)
Lemma find_line_positions_edge_cases_witness :
  find_line_positions (striped 40 60 []) "horizontal" = Returned [].
Proof.
  apply (proj2 (find_line_positions_edge_cases (striped 40 60 [])
                  "horizontal")); [done|]. simpl. lia.
Defined.
(** ** Cells of the grid *)

Lemma elem_of_extract_cards_from_grid (shape : nat * nat)
    (v_lines h_lines : list Z) (b : box) :
  b ∈ extract_cards_from_grid shape v_lines h_lines ↔
  ∃ i j, (i + 1 < length v_lines)%nat ∧ (j + 1 < length h_lines)%nat
    ∧ b = grid_cell v_lines h_lines i j
    ∧ (100 < b.1.2)%Z ∧ (100 < b.2)%Z
    ∧ (float_of_Z b.1.2 <? float_of_Z (Z.of_nat shape.2) * 0.9)%float = true
    ∧ (float_of_Z b.2 <? float_of_Z (Z.of_nat shape.1) * 0.9)%float = true.
Proof.
  unfold extract_cards_from_grid. rewrite list_elem_of_bind. split.
  - intros (i & (j & Hb & Hj%elem_of_seq)%list_elem_of_bind & Hi%elem_of_seq).
    exists i, j. split; [lia|]. split; [lia|].
    destruct (_ && _) eqn:Hc; [|by apply elem_of_nil in Hb].
    apply list_elem_of_singleton in Hb as ->.
    apply andb_prop in Hc as [[[?%bool_decide_eq_true ?%bool_decide_eq_true]
      %andb_prop ?]%andb_prop ?]. by split_and!.
  - intros (i & j & Hi & Hj & -> & Hw & Hh & Hfw & Hfh). exists i. split.
    + apply list_elem_of_bind. exists j. split; [|apply elem_of_seq; lia].
      unfold grid_cell in *. simpl in *. rewrite Hfw, Hfh.
      rewrite !bool_decide_eq_true_2 by done. simpl. left.
    + apply elem_of_seq. lia.
Qed.

Lemma length_bind_le {A B : Type} (f : A → list B) (l : list A) (n : nat) :
  (∀ x, length (f x) ≤ n)%nat → (length (l ≫= f) ≤ length l * n)%nat.
Proof.
  intros Hf. induction l as [|x l IH]; [done|].
  rewrite bind_cons, length_app. specialize (Hf x). simpl. lia.
Qed.

(** X10. [extract_cards_from_grid] returns cells of the grid only: each
    box lies between two neighbouring vertical lines and two neighbouring
    horizontal lines and is more than 100 wide and more than 100 high.
    With fewer than two lines in either direction there is no cell and no
    box, and there are never more boxes than cells. *)
Theorem extract_cards_from_grid_cells (shape : nat * nat)
    (v_lines h_lines : list Z) :
  (∀ b, b ∈ extract_cards_from_grid shape v_lines h_lines →
     ∃ i j, (i + 1 < length v_lines)%nat ∧ (j + 1 < length h_lines)%nat
       ∧ b = grid_cell v_lines h_lines i j
       ∧ (100 < b.1.2)%Z ∧ (100 < b.2)%Z)
  ∧ ((length v_lines < 2 ∨ length h_lines < 2)%nat →
     extract_cards_from_grid shape v_lines h_lines = [])
  ∧ (length (extract_cards_from_grid shape v_lines h_lines)
     ≤ (length v_lines - 1) * (length h_lines - 1))%nat.
Proof.
  split_and!.
  - intros b (i & j & ? & ? & ? & ? & ? & _)%elem_of_extract_cards_from_grid.
    by exists i, j.
  - intros Hfew.
    destruct (extract_cards_from_grid shape v_lines h_lines) as [|b l] eqn:He;
      [done|].
    assert (b ∈ extract_cards_from_grid shape v_lines h_lines) as Hb
      by (rewrite He; left).
    apply elem_of_extract_cards_from_grid in Hb as (i & j & ? & ? & _). lia.
  - unfold extract_cards_from_grid.
    etrans; [apply (length_bind_le _ _ (length h_lines - 1))|].
    + intros i. etrans; [apply (length_bind_le _ _ 1)|].
      * intros j. destruct (_ && _); simpl; lia.
      * rewrite length_seq. lia.
    + by rewrite length_seq.
Qed.

(** The theorem at a grid of three vertical and two horizontal lines. *)
Lemma extract_cards_from_grid_cells_witness :
  extract_cards_from_grid (1000, 1000)%nat [10; 20; 300]%Z [5; 400]%Z
  = [(20, 5, 280, 395)%Z]
  ∧ extract_cards_from_grid (1000, 1000)%nat [10]%Z [5; 400]%Z = [].
Proof.
  split; [vm_compute; reflexivity|].
  apply (proj1 (proj2 (extract_cards_from_grid_cells (1000, 1000)%nat
                         [10]%Z [5; 400]%Z))).
  left. simpl. lia.
Defined.
Lemma pairwise_nil {A : Type} (R : A → A → Prop) : pairwise R [].
Proof. intros p q a b _ Hp. by rewrite lookup_nil in Hp. Qed.

Lemma pairwise_singleton {A : Type} (R : A → A → Prop) (x : A) :
  pairwise R [x].
Proof.
  intros p q a b Hlt _ Hq. apply lookup_lt_Some in Hq. simpl in Hq. lia.
Qed.

Lemma pairwise_app {A : Type} (R : A → A → Prop) (l1 l2 : list A) :
  pairwise R l1 → pairwise R l2 →
  (∀ a b, a ∈ l1 → b ∈ l2 → R a b) → pairwise R (l1 ++ l2).
Proof.
  intros H1 H2 H12 p q a b Hlt Hp Hq.
  apply lookup_app_Some in Hp as [Hp|[Hp1 Hp]];
    apply lookup_app_Some in Hq as [Hq|[Hq1 Hq]].
  - by eapply H1.
  - eapply H12; by eapply list_elem_of_lookup_2.
  - apply lookup_lt_Some in Hq. lia.
  - eapply (H2 (p - length l1)%nat (q - length l1)%nat); [lia|done..].
Qed.

Lemma pairwise_bind_seq {B : Type} (R : B → B → Prop) (f : nat → list B)
    (n : nat) :
  (∀ i, (i < n)%nat → pairwise R (f i)) →
  (∀ i i' a b, (i < i' < n)%nat → a ∈ f i → b ∈ f i' → R a b) →
  pairwise R (seq 0 n ≫= f).
Proof.
  induction n as [|n IH]; intros Hin Hcross; [apply pairwise_nil|].
  rewrite seq_snoc, bind_app. simpl. rewrite app_nil_r.
  apply pairwise_app.
  - apply IH; [intros i ?; apply Hin; lia|].
    intros i i' a b ?. apply Hcross. lia.
  - apply Hin. lia.
  - intros a b (i & Ha & Hi%elem_of_seq)%list_elem_of_bind Hb.
    apply (Hcross i n); [lia|done..].
Qed.

Lemma sorted_lookup_total_le (l : list Z) (a b : nat) :
  StronglySorted Z.lt l → (a ≤ b < length l)%nat → (l !!! a ≤ l !!! b)%Z.
Proof.
  intros Hs. revert a b. induction Hs as [|x l _ IH Hx]; intros a b Hab.
  { simpl in Hab. lia. }
  destruct b as [|b].
  - assert (a = 0%nat) as -> by lia. done.
  - destruct a as [|a].
    + change ((x :: l) !!! 0%nat) with x.
      change ((x :: l) !!! S b) with (l !!! b).
      assert (Z.lt x (l !!! b)); [|lia].
      eapply Forall_lookup_1; [done|].
      apply list_lookup_lookup_total_lt. simpl in Hab. lia.
    + apply (IH a b). simpl in Hab. lia.
Qed.

Lemma extract_cards_from_grid_pairwise (shape : nat * nat)
    (v_lines h_lines : list Z) :
  StronglySorted Z.lt v_lines → StronglySorted Z.lt h_lines →
  pairwise boxes_disjoint (extract_cards_from_grid shape v_lines h_lines).
Proof.
  intros Hv Hh. unfold extract_cards_from_grid.
  assert (∀ i j b,
    b ∈ (if bool_decide (100 < v_lines !!! (i + 1)%nat - v_lines !!! i)%Z
            && bool_decide (100 < h_lines !!! (j + 1)%nat - h_lines !!! j)%Z
            && (float_of_Z (v_lines !!! (i + 1)%nat - v_lines !!! i)
                <? float_of_Z (Z.of_nat shape.2) * 0.9)%float
            && (float_of_Z (h_lines !!! (j + 1)%nat - h_lines !!! j)
                <? float_of_Z (Z.of_nat shape.1) * 0.9)%float
         then [grid_cell v_lines h_lines i j] else []) →
    b = grid_cell v_lines h_lines i j) as Hcell.
  { intros i j b. destruct (_ && _); [|by intros ?%elem_of_nil].
    by intros ->%list_elem_of_singleton. }
  apply pairwise_bind_seq.
  - intros i Hi. apply pairwise_bind_seq.
    + intros j _. destruct (_ && _);
        [apply pairwise_singleton|apply pairwise_nil].
    + intros j j' a b Hj ->%Hcell ->%Hcell. unfold grid_cell. simpl.
      pose proof (sorted_lookup_total_le h_lines (j + 1) j' Hh). lia.
  - intros i i' a b Hi
      (j & ->%Hcell & _)%list_elem_of_bind
      (j' & ->%Hcell & _)%list_elem_of_bind.
    unfold grid_cell. simpl.
    pose proof (sorted_lookup_total_le v_lines (i + 1) i' Hv). lia.
Qed.

(** X11. When the vertical and the horizontal line positions are each in
    strictly increasing order, the boxes [extract_cards_from_grid]
    returns do not overlap: any two of them are apart horizontally or
    vertically. *)
Theorem extract_cards_from_grid_disjoint (shape : nat * nat)
    (v_lines h_lines : list Z) :
  StronglySorted Z.lt v_lines → StronglySorted Z.lt h_lines →
  pairwise boxes_disjoint (extract_cards_from_grid shape v_lines h_lines).
Proof. apply extract_cards_from_grid_pairwise. Qed.

(** The theorem at a grid of three vertical and three horizontal lines. *)
Lemma extract_cards_from_grid_disjoint_witness :
  pairwise boxes_disjoint
    (extract_cards_from_grid (1000, 1000)%nat [0; 150; 300]%Z
                             [0; 200; 400]%Z).
Proof.
  apply extract_cards_from_grid_disjoint;
    repeat (constructor; [|by repeat constructor]); constructor.
Defined.
(** ** Cropping *)

Lemma crop_card_fits (path_of : string → string) (shape : nat * nat)
    (page_num idx : nat) (b : box) :
  box_fits shape b →
  crop_card path_of shape page_num idx b = Some {|
    CardInfo.page := (page_num + 1)%nat;
    CardInfo.card_index := (idx + 1)%nat;
    CardInfo.path := path_of (card_filename page_num idx);
    CardInfo.bbox := b;
    CardInfo.dimensions := (b.1.2, b.2)
  |}.
Proof.
  destruct b as [[[x y] w] h]. unfold box_fits, crop_card.
  intros (? & ? & ? & ? & ? & ?). simpl.
  unfold slice_length, slice_bound.
  repeat match goal with
         | |- context [(?a <? ?b)%Z] => destruct (Z.ltb_spec a b)
         end;
    rewrite ?bool_decide_eq_false_2 by lia; simpl; try done; lia.
Qed.

Lemma crop_card_Some (path_of : string → string) (shape : nat * nat)
    (page_num idx : nat) (b : box) (c : CardInfo.t) :
  crop_card path_of shape page_num idx b = Some c →
  c = {| CardInfo.page := (page_num + 1)%nat;
         CardInfo.card_index := (idx + 1)%nat;
         CardInfo.path := path_of (card_filename page_num idx);
         CardInfo.bbox := b;
         CardInfo.dimensions := (b.1.2, b.2) |}.
Proof.
  destruct b as [[[x y] w] h]. unfold crop_card. simpl.
  destruct (_ || _); [done|]. by intros [= <-].
Qed.

Lemma StronglySorted_sublist {A : Type} (R : relation A) (l1 l2 : list A) :
  l1 `sublist_of` l2 → StronglySorted R l2 → StronglySorted R l1.
Proof.
  induction 1 as [|x l1 l2 Hsub IH|x l1 l2 Hsub IH]; [done|..];
    intros [Hs Hx]%StronglySorted_inv.
  - constructor; [by apply IH|].
    apply Forall_forall. intros y Hy. eapply Forall_forall; [done|].
    by eapply elem_of_sublist.
  - by apply IH.
Qed.

Lemma StronglySorted_seq (start len : nat) :
  StronglySorted lt (seq start len).
Proof.
  revert start. induction len as [|len IH]; intros start; simpl;
    constructor; [apply IH|].
  apply Forall_forall. intros i Hi%elem_of_seq. lia.
Qed.

Lemma omap_all {A B : Type} (f : A → option B) (g : A → B) (l : list A) :
  Forall (λ x, f x = Some (g x)) l → omap f l = g <$> l.
Proof.
  induction 1 as [|x l Hx _ IH]; [done|].
  cbn [omap list_omap]. by rewrite Hx, IH.
Qed.

Lemma fmap_zip_seq_fst {A B : Type} (f : nat → B) (start : nat)
    (l : list A) :
  (λ ib : nat * A, f ib.1) <$> zip (seq start (length l)) l
  = f <$> seq start (length l).
Proof.
  revert start. induction l as [|x l IH]; intros start; simpl; [done|].
  f_equal. apply IH.
Qed.

Lemma crop_cards_fit (path_of : string → string) (shape : nat * nat)
    (card_boxes : list box) (page_num : nat) :
  Forall (box_fits shape) card_boxes →
  CardInfo.bbox <$> crop_cards_from_image path_of shape card_boxes page_num
  = card_boxes
  ∧ CardInfo.card_index
      <$> crop_cards_from_image path_of shape card_boxes page_num
    = seq 1 (length card_boxes).
Proof.
  intros Hfit. unfold crop_cards_from_image.
  rewrite (omap_all _ (λ ib : nat * box, {|
    CardInfo.page := (page_num + 1)%nat;
    CardInfo.card_index := (ib.1 + 1)%nat;
    CardInfo.path := path_of (card_filename page_num ib.1);
    CardInfo.bbox := ib.2;
    CardInfo.dimensions := (ib.2.1.2, ib.2.2) |})).
  - rewrite <- !list_fmap_compose. split.
    + apply snd_zip. by rewrite length_seq.
    + rewrite <- fmap_S_seq, <- (fmap_zip_seq_fst S 0 card_boxes).
      apply list_fmap_ext. intros i [idx b] _. simpl. lia.
  - apply Forall_forall. intros [idx b] Hin. simpl.
    apply crop_card_fits. eapply Forall_forall; [done|].
    apply elem_of_zip_r in Hin. done.
Qed.

(** X12. Every card [crop_cards_from_image] returns carries the box it
    was cropped from, the page number plus one, and as index the position
    of that box in the list, counted from 1; so the indices of the cards
    of a page increase strictly and no two cards share one. When every
    box lies within the image and is at least 60 by 60, no box is
    dropped: the cards are the boxes, numbered 1, 2, 3 and so on. *)
Theorem crop_cards_from_image_indexed (path_of : string → string)
    (shape : nat * nat) (card_boxes : list box) (page_num : nat) :
  (∀ c, c ∈ crop_cards_from_image path_of shape card_boxes page_num →
     ∃ idx, card_boxes !! idx = Some (CardInfo.bbox c)
       ∧ CardInfo.card_index c = (idx + 1)%nat
       ∧ CardInfo.page c = (page_num + 1)%nat
       ∧ CardInfo.path c = path_of (card_filename page_num idx))
  ∧ StronglySorted lt
      (CardInfo.card_index
         <$> crop_cards_from_image path_of shape card_boxes page_num)
  ∧ (Forall (box_fits shape) card_boxes →
     CardInfo.bbox
       <$> crop_cards_from_image path_of shape card_boxes page_num
     = card_boxes
     ∧ CardInfo.card_index
         <$> crop_cards_from_image path_of shape card_boxes page_num
       = seq 1 (length card_boxes)).
Proof.
  split_and!.
  - intros c ([idx b] & Hin & Hc)%list_elem_of_omap. simpl in Hc.
    apply crop_card_Some in Hc as ->. simpl. exists idx.
    apply list_elem_of_lookup in Hin as [k Hk].
    apply lookup_zip_with_Some in Hk as (i & b' & [= <- <-] & Hi & Hb).
    apply lookup_seq in Hi as [-> _]. by split_and!.
  - eapply StronglySorted_sublist; [|apply (StronglySorted_seq 1
                                              (length card_boxes))].
    rewrite <- fmap_S_seq, <- (fmap_zip_seq_fst S 0 card_boxes).
    apply omap_sublist_fmap. intros [idx b] c Hc. simpl in Hc.
    apply crop_card_Some in Hc as ->. simpl. lia.
  - apply crop_cards_fit.
Qed.

(** The theorem at two boxes inside a page of 400 by 400 pixels. *)
Lemma crop_cards_from_image_indexed_witness :
  CardInfo.card_index
    <$> crop_cards_from_image (λ name, "cards/" +:+ name) (400, 400)%nat
          [(0, 0, 150, 200)%Z; (150, 0, 150, 200)%Z] 2
  = [1; 2]%nat.
Proof.
  refine (proj2 (proj2 (proj2 (crop_cards_from_image_indexed
            (λ name, "cards/" +:+ name) (400, 400)%nat
            [(0, 0, 150, 200)%Z; (150, 0, 150, 200)%Z] 2)) _)).
  repeat constructor; simpl; lia.
Defined.
(** ** File names *)

Lemma free_of_app_inj (c : ascii) (d d' s s' : string) :
  free_of c d → free_of c d' →
  d +:+ String c s = d' +:+ String c s' → d = d' ∧ s = s'.
Proof.
  revert d'. induction d as [|a d IH]; intros [|a' d']; simpl.
  - by intros _ _ [= ->].
  - intros _ [Hne _] [= <- _]. done.
  - intros [Hne _] _ [= -> _]. done.
  - intros [_ Hd] [_ Hd'] [= -> Heq].
    destruct (IH d' Hd Hd' Heq) as [-> ->]. done.
Qed.

Lemma pretty_N_go_free_of (c : ascii) (x : N) (s : string) :
  (∀ y, pretty_N_char y ≠ c) → free_of c s → free_of c (pretty_N_go x s).
Proof.
  intros Hc. revert s.
  induction (N.lt_wf_0 x) as [x _ IH]; intros s Hs.
  assert (x = 0 ∨ 0 < x)%N as [->|Hpos] by lia.
  - by rewrite pretty_N_go_0.
  - rewrite pretty_N_go_step by done. apply IH.
    + by apply N.div_lt.
    + simpl. by split.
Qed.

Lemma pretty_nat_free_of (c : ascii) (n : nat) :
  (∀ y, pretty_N_char y ≠ c) → free_of c (pretty n).
Proof.
  intros Hc. unfold pretty, pretty_nat, pretty, pretty_N.
  case_decide.
  - simpl. split; [|done]. apply (Hc 0%N).
  - by apply pretty_N_go_free_of.
Qed.

Lemma pretty_N_char_not (c : ascii) :
  c ∉ ["0"; "1"; "2"; "3"; "4"; "5"; "6"; "7"; "8"; "9"]%char →
  ∀ y, pretty_N_char y ≠ c.
Proof.
  intros Hc y <-. apply Hc. unfold pretty_N_char.
  repeat case_match; repeat (first [left | right]).
Qed.

(** X13. The file name of a card determines its page and its position on
    the page: two cards get the same name only if they are the same card
    of the same page. So the card ids of one document, which are these
    names without the extension, are all different. *)
Theorem card_filename_inj (page_num idx page_num' idx' : nat) :
  card_filename page_num idx = card_filename page_num' idx' →
  page_num = page_num' ∧ idx = idx'.
Proof.
  unfold card_filename. intros Heq. simpl in Heq.
  injection Heq as Heq.
  apply (free_of_app_inj "_"%char) in Heq as [Hpage Heq];
    [|apply pretty_nat_free_of, pretty_N_char_not..].
  2,3: rewrite !not_elem_of_cons; split_and!; try done; apply not_elem_of_nil.
  injection Heq as Heq.
  change ".jpg" with (String "."%char "jpg") in Heq.
  apply (free_of_app_inj "."%char) in Heq as [Hidx _];
    [|apply pretty_nat_free_of, pretty_N_char_not..].
  2,3: rewrite !not_elem_of_cons; split_and!; try done; apply not_elem_of_nil.
  apply (inj pretty) in Hpage. apply (inj pretty) in Hidx. lia.
Qed.

(** The theorem at page 11, card 1 and page 1, card 11. *)
Lemma card_filename_inj_witness :
  card_filename 10 0 ≠ card_filename 0 10.
Proof.
  intros Heq. apply card_filename_inj in Heq as [Heq _]. lia.
Defined.

Example card_filename_sample :
  card_filename 2 0 = "page_3_card_1.jpg".
Proof. reflexivity. Qed.
(** ** A page *)

(** The boxes of the grid of the lines found in two images of the shape
    of the page. *)
Lemma grid_of_found_lines (height width : nat)
    (vertical horizontal : nat → nat → Byte.byte)
    (v_lines h_lines : list nat) (b : box) :
  find_line_positions (mkGray height width vertical) "vertical"
  = Returned v_lines →
  find_line_positions (mkGray height width horizontal) "horizontal"
  = Returned h_lines →
  b ∈ extract_cards_from_grid (height, width) (Z.of_nat <$> v_lines)
        (Z.of_nat <$> h_lines) →
  card_sized_within (height, width) b.
Proof.
  intros (_ & Hv & _)%find_line_positions_Returned
         (_ & Hh & _)%find_line_positions_Returned
         (i & j & Hi & Hj & -> & Hw & Hhh & _)%elem_of_extract_cards_from_grid.
  rewrite length_fmap in Hi, Hj.
  rewrite length_projection_of in Hv, Hh. simpl in Hv, Hh.
  unfold grid_cell, card_sized_within in *. simpl in *.
  rewrite !(list_lookup_total_fmap Z.of_nat) in Hw, Hhh by lia.
  rewrite !(list_lookup_total_fmap Z.of_nat) by lia.
  pose proof (Forall_lookup_total_1 _ _ (i + 1) Hv ltac:(lia)) as [Hv1 _].
  pose proof (Forall_lookup_total_1 _ _ (j + 1) Hh ltac:(lia)) as [Hh1 _].
  simpl in Hv1, Hh1. lia.
Qed.

Lemma found_lines_increasing (line_image : GrayImage) (direction : string)
    (lines : list nat) :
  find_line_positions line_image direction = Returned lines →
  StronglySorted Z.lt (Z.of_nat <$> lines).
Proof.
  intros (Hsorted & _)%find_line_positions_Returned.
  apply (StronglySorted_fmap _ well_after).
  - unfold well_after. intros p q. lia.
  - apply Sorted_StronglySorted; [apply _|done].
Qed.

(** X14. Whenever [process_page] returns, the cards of the page are the
    cells of the detected grid that are more than 100 by 100 pixels: none
    is lost in the cropping, they are numbered 1, 2, 3 and so on without
    a gap, each lies within the page image, and no two of them overlap. *)
Theorem process_page_cards (render_page : nat → outcome PageScan)
    (path_of : string → string) (page_num : nat)
    (cards : list CardInfo.t) :
  process_page render_page path_of page_num = Returned cards →
  ∃ scan, render_page page_num = Returned scan
    ∧ CardInfo.card_index <$> cards = seq 1 (length cards)
    ∧ pairwise boxes_disjoint (CardInfo.bbox <$> cards)
    ∧ Forall (λ c,
        CardInfo.page c = (page_num + 1)%nat
        ∧ card_sized_within (scan_height scan, scan_width scan)
            (CardInfo.bbox c)) cards.
Proof.
  unfold process_page.
  destruct (render_page page_num) as [scan|] eqn:Hscan; [|done].
  cbn [mbind outcome_bind].
  destruct (find_line_positions _ "vertical") as [v_lines|] eqn:Hv; [|done].
  cbn [mbind outcome_bind].
  destruct (find_line_positions _ "horizontal") as [h_lines|] eqn:Hh;
    [|done].
  cbn [mbind outcome_bind]. intros Hcards. exists scan. split; [done|].
  revert Hcards. case_decide as Hfew.
  { intros [= <-]. split_and!; [done|apply pairwise_nil|constructor]. }
  intros [= <-].
  set (shape := (scan_height scan, scan_width scan)).
  set (boxes := extract_cards_from_grid shape (Z.of_nat <$> v_lines)
                  (Z.of_nat <$> h_lines)).
  assert (Forall (card_sized_within shape) boxes) as Hwithin.
  { apply Forall_forall. intros b Hb.
    by eapply (grid_of_found_lines _ _ _ _ v_lines h_lines). }
  assert (Forall (box_fits shape) boxes) as Hfit.
  { eapply Forall_impl; [done|]. intros [[[x y] w] h].
    unfold card_sized_within, box_fits. lia. }
  destruct (crop_cards_fit path_of shape boxes page_num Hfit)
    as [Hboxes Hindex].
  split_and!.
  - rewrite Hindex. f_equal.
    by rewrite <- (length_fmap CardInfo.card_index), Hindex, length_seq.
  - rewrite Hboxes. apply extract_cards_from_grid_pairwise;
      by eapply found_lines_increasing.
  - apply Forall_forall. intros c Hc. split.
    + apply list_elem_of_omap in Hc as ([idx b] & _ & Hc). simpl in Hc.
      by apply crop_card_Some in Hc as ->.
    + eapply Forall_forall; [exact Hwithin|].
      rewrite <- Hboxes. by apply list_elem_of_fmap_2.
Qed.

(** The theorem at the third page of the sample document: two cards. *)
Lemma process_page_cards_witness :
  ∃ cards,
    process_page sample_render (λ name, "cards/" +:+ name) 2
    = Returned cards
    ∧ CardInfo.bbox <$> cards = [(0, 0, 110, 110)%Z; (110, 0, 110, 110)%Z]
    ∧ CardInfo.card_index <$> cards = [1; 2]%nat.
Proof.
  assert (∃ cards,
    process_page sample_render (λ name, "cards/" +:+ name) 2
    = Returned cards
    ∧ CardInfo.bbox <$> cards = [(0, 0, 110, 110)%Z; (110, 0, 110, 110)%Z])
    as (cards & Hrun & Hboxes).
  { eexists. split; vm_compute; reflexivity. }
  exists cards. split_and!; [done..|].
  destruct (process_page_cards _ _ _ _ Hrun) as (_ & _ & -> & _).
  by rewrite <- (length_fmap CardInfo.bbox), Hboxes.
Defined.
(** ** A document *)

Lemma process_pages_Returned (render_page : nat → outcome PageScan)
    (path_of : string → string) (pages : list nat)
    (all_cards result : list CardInfo.t) :
  process_pages render_page path_of pages all_cards = Returned result ↔
  ∃ per_page,
    Forall2 (λ page_num cards,
               process_page render_page path_of page_num = Returned cards)
            pages per_page
    ∧ result = all_cards ++ concat per_page.
Proof.
  revert all_cards. induction pages as [|page_num pages IH];
    intros all_cards; simpl.
  - split.
    + intros [= <-]. exists []. split; [constructor|]. by rewrite app_nil_r.
    + intros (per_page & ->%Forall2_nil_inv_l & ->). simpl.
      by rewrite app_nil_r.
  - destruct (process_page render_page path_of page_num) as [cards|exc]
      eqn:Hpage; cbn [mbind outcome_bind].
    + rewrite IH. split.
      * intros (per_page & Hall & ->). exists (cards :: per_page).
        split; [by constructor|]. simpl. by rewrite app_assoc.
      * intros (per_page & Hall & ->).
        apply Forall2_cons_inv_l in Hall as (cards' & rest & Hc & Hall & ->).
        exists rest. split; [done|]. simpl. rewrite app_assoc. congruence.
    + split; [done|]. intros (per_page & Hall & _).
      apply Forall2_cons_inv_l in Hall as (? & ? & Hc & _). congruence.
Qed.

Lemma process_pages_Raised (render_page : nat → outcome PageScan)
    (path_of : string → string) (start n : nat)
    (all_cards : list CardInfo.t) (exc : string) :
  process_pages render_page path_of (seq start n) all_cards = Raised exc ↔
  ∃ page_num, (start ≤ page_num < start + n)%nat
    ∧ process_page render_page path_of page_num = Raised exc
    ∧ ∀ p, (start ≤ p < page_num)%nat →
        ∃ cards, process_page render_page path_of p = Returned cards.
Proof.
  revert start all_cards. induction n as [|n IH]; intros start all_cards.
  { simpl. split; [done|]. intros (p & ? & _). lia. }
  cbn [seq process_pages].
  destruct (process_page render_page path_of start) as [cards|exc']
    eqn:Hpage; cbn [mbind outcome_bind].
  - rewrite IH. split.
    + intros (page_num & Hrange & Hraise & Hbefore).
      exists page_num. split; [lia|split; [done|]].
      intros p Hp. destruct (decide (p = start)) as [->|Hne].
      * by exists cards.
      * apply Hbefore. lia.
    + intros (page_num & Hrange & Hraise & Hbefore).
      assert (page_num ≠ start) by (intros ->; congruence).
      exists page_num. split; [lia|split; [done|]].
      intros p Hp. apply Hbefore. lia.
  - split.
    + intros [= ->]. exists start. split; [lia|split; [done|]].
      intros p Hp. lia.
    + intros (page_num & Hrange & Hraise & Hbefore).
      destruct (decide (page_num = start)) as [->|Hne]; [congruence|].
      destruct (Hbefore start) as [cards Hcards]; [lia|congruence].
Qed.

(** X15. [process_all_pages] processes the pages from [start_page] on, in
    order, up to the end page (the page count when none is given) and, when
    a sample size other than 0 is given, at most that many pages. Its
    result is that of the loop over these pages: the cards of the pages
    one after the other, or the exception of the first page that raises;
    the division of the summary never raises, because it is only done
    when some page gave a card. *)
Theorem process_all_pages_pages (render_page : nat → outcome PageScan)
    (path_of : string → string) (page_count start_page : nat)
    (end_page sample_size : option nat) :
  ∃ n,
    process_all_pages render_page path_of page_count start_page end_page
      sample_size
    = process_pages render_page path_of (seq start_page n) []
    ∧ (n ≤ default page_count end_page - start_page)%nat
    ∧ (sample_size = None ∨ sample_size = Some 0%nat →
       n = (default page_count end_page - start_page)%nat)
    ∧ (∀ k, sample_size = Some k → k ≠ 0%nat →
         n = k `min` (default page_count end_page - start_page))%nat
    ∧ (∀ result,
         process_pages render_page path_of (seq start_page n) []
         = Returned result ↔
         ∃ per_page,
           Forall2 (λ page_num cards,
                      process_page render_page path_of page_num
                      = Returned cards)
                   (seq start_page n) per_page
           ∧ result = concat per_page)
    ∧ (∀ exc,
         process_pages render_page path_of (seq start_page n) []
         = Raised exc ↔
         ∃ page_num, (start_page ≤ page_num < start_page + n)%nat
           ∧ process_page render_page path_of page_num = Raised exc
           ∧ ∀ p, (start_page ≤ p < page_num)%nat →
               ∃ cards,
                 process_page render_page path_of p = Returned cards).
Proof.
  unfold process_all_pages.
  set (last := match sample_size with
               | Some 0%nat | None => default page_count end_page
               | Some (S _ as k) =>
                   (start_page + k)%nat `min` default page_count end_page
               end).
  exists (last - start_page)%nat. split_and!.
  - destruct (process_pages _ _ _ _) as [[|c result]|exc] eqn:Hrun;
      cbn [mbind outcome_bind]; [done| |done].
    case_decide as Hzero; [|done].
    replace (last - start_page)%nat with 0%nat in Hrun by lia.
    by simpl in Hrun.
  - unfold last. destruct sample_size as [[|k]|]; lia.
  - unfold last. by intros [->| ->].
  - unfold last. intros k -> Hk. destruct k as [|k]; [done|]. lia.
  - intros result. apply process_pages_Returned.
  - intros exc. apply process_pages_Raised.
Qed.

(** The sample document of five pages from its third page on, two pages
    at most: four cards, two of page 3 and two of page 4. *)
Example process_all_pages_sample :
  match process_all_pages sample_render (λ name, "cards/" +:+ name) 5 2
          None (Some 2%nat) with
  | Returned cards => Some (CardInfo.path <$> cards)
  | Raised _ => None
  end
  = Some ["cards/page_3_card_1.jpg"; "cards/page_3_card_2.jpg";
          "cards/page_4_card_1.jpg"; "cards/page_4_card_2.jpg"].
Proof. vm_compute. reflexivity. Qed.

(** An end page beyond the document makes the rendering raise. *)
Example process_all_pages_beyond_end :
  process_all_pages sample_render (λ name, "cards/" +:+ name) 5 4
    (Some 7%nat) None
  = Raised "IndexError".
Proof. vm_compute. reflexivity. Qed.

(** * Properties of the final statistics and of the review report *)

Lemma scan_pairs_nonempty_length {A B : Type} (body : A → A → option B)
    (xs : list A) :
  scan_pairs body xs ≠ [] → (2 ≤ length xs)%nat.
Proof.
  intros Hne. pose proof (length_scan_pairs body xs) as Hlen.
  destruct (scan_pairs body xs); [done|].
  simpl in Hlen. destruct xs as [|? [|? ?]]; simpl in *; lia.
Qed.

Lemma detect_all_frauds_nonempty_length face_distance average_hash
    (df : list VoterRow) (frauds : list FraudFinding) :
  detect_all_frauds face_distance average_hash df = Returned frauds →
  frauds ≠ [] → (2 ≤ length df)%nat.
Proof.
  rewrite detect_all_frauds_Returned. intros [= <-] Hne.
  destruct (decide (2 ≤ length df)%nat) as [|Hshort]; [done|].
  exfalso. apply Hne.
  assert (detect_scenario_1_fake_details df = []) as ->.
  { destruct (decide (detect_scenario_1_fake_details df = []))
      as [|H1]; [done|].
    apply scan_pairs_nonempty_length in H1. lia. }
  assert (detect_scenario_2_fake_face face_distance df = []) as ->.
  { destruct (decide (detect_scenario_2_fake_face face_distance df = []))
      as [|H2]; [done|].
    rewrite detect_scenario_2_fake_face_scan in H2.
    apply scan_pairs_nonempty_length in H2.
    pose proof (length_faces_df df). lia. }
  assert (detect_exact_duplicate_photos average_hash df = []) as ->.
  { destruct (decide (detect_exact_duplicate_photos average_hash df = []))
      as [|H3]; [done|].
    rewrite detect_exact_duplicate_photos_scan in H3.
    apply scan_pairs_nonempty_length in H3.
    pose proof (length_compute_hashes average_hash df). lia. }
  rewrite detect_address_anomalies_short by lia. done.
Qed.

Lemma of_fraud_type_findings face_distance average_hash
    (df : list VoterRow) (t : string) :
  of_fraud_type t
    (detect_scenario_1_fake_details df
     ++ detect_scenario_2_fake_face face_distance df
     ++ detect_exact_duplicate_photos average_hash df
     ++ detect_address_anomalies df 30)
  = (if decide ("FAKE_DETAILS" = t)
     then detect_scenario_1_fake_details df else [])
    ++ (if decide ("FAKE_FACE" = t)
        then detect_scenario_2_fake_face face_distance df else [])
    ++ (if decide ("DUPLICATE_PHOTO" = t)
        then detect_exact_duplicate_photos average_hash df else [])
    ++ (if decide ("ADDRESS_ANOMALY" = t)
        then detect_address_anomalies df 30 else []).
Proof.
  unfold of_fraud_type at 1. rewrite !filter_app.
  fold (of_fraud_type t (detect_scenario_1_fake_details df)).
  fold (of_fraud_type t (detect_scenario_2_fake_face face_distance df)).
  fold (of_fraud_type t (detect_exact_duplicate_photos average_hash df)).
  fold (of_fraud_type t (detect_address_anomalies df 30)).
  rewrite (of_fraud_type_kind t is_fake_details "FAKE_DETAILS");
    [|by intros ? [? ->]|apply detect_scenario_1_kind].
  rewrite (of_fraud_type_kind t is_fake_face "FAKE_FACE");
    [|by intros ? [? ->]|apply detect_scenario_2_kind].
  rewrite (of_fraud_type_kind t is_duplicate_photo "DUPLICATE_PHOTO");
    [|by intros ? [? ->]|apply detect_exact_duplicate_photos_kind].
  rewrite (of_fraud_type_kind t is_address_anomaly "ADDRESS_ANOMALY");
    [done|by intros ? [? ->]|].
  apply Forall_forall. intros f Hf.
  by apply detect_address_anomalies_kind in Hf.
Qed.

(** X16. The final statistics of [main] never divide by 0: a report with
    a row comes from a frame of at least two voters. For the report the
    detector returned on a frame, the statistics are nothing exactly when
    the report is empty; otherwise the two counts are the numbers of
    findings of the first and of the second scenario, which together are
    at most the number of rows of the report. *)
Theorem final_statistics_defined
    (face_distance : encoding → encoding → float)
    (average_hash : string → option ImageHash) (df : list VoterRow)
    (frauds : list FraudFinding) :
  detect_all_frauds face_distance average_hash df = Returned frauds →
  (frauds ≠ [] → (2 ≤ length df)%nat)
  ∧ ∃ statistics,
      final_statistics (length df) frauds = Returned statistics
      ∧ (statistics = None ↔ frauds = [])
      ∧ ∀ scenario_1 scenario_2 fraud_rate,
          statistics = Some (scenario_1, scenario_2, fraud_rate) →
          scenario_1 = length (detect_scenario_1_fake_details df)
          ∧ scenario_2
            = length (detect_scenario_2_fake_face face_distance df)
          ∧ (scenario_1 + scenario_2 ≤ length frauds)%nat
          ∧ fraud_rate
            = (float_of_Z (Z.of_nat (length frauds))
               / float_of_Z (Z.of_nat (length df)) * 100)%float.
Proof.
  intros Hrun.
  pose proof (detect_all_frauds_nonempty_length _ _ _ _ Hrun) as Hlen.
  split; [done|].
  unfold final_statistics. case_decide as Hrows.
  - assert (frauds ≠ []) as Hne by (intros ->; simpl in Hrows; lia).
    specialize (Hlen Hne). rewrite decide_False by lia.
    eexists. split; [done|]. split; [done|].
    intros s1 s2 rate [= <- <- <-].
    pose proof Hrun as Hcat. rewrite detect_all_frauds_Returned in Hcat.
    injection Hcat as Hcat. rewrite <- Hcat.
    rewrite !of_fraud_type_findings. simpl. rewrite !app_nil_r.
    split_and!; [done..| |done].
    rewrite !length_app. lia.
  - assert (frauds = []) as -> by (destruct frauds; [done|simpl in *; lia]).
    exists None. by split_and!.
Qed.

(** The theorem at the three cards of one person: three findings of the
    first scenario and three of the second on three voters, a fraud rate
    of 200 percent. *)
Lemma final_statistics_defined_witness :
  ∃ frauds,
    detect_all_frauds first_number_distance path_length_hash triplet
    = Returned frauds
    ∧ final_statistics (length triplet) frauds
      = Returned (Some (3, 3, 200%float))%nat.
Proof.
  destruct (final_statistics_defined first_number_distance
              path_length_hash triplet _
              (detect_all_frauds_Returned _ _ _))
    as (_ & statistics & Hstat & _ & _).
  eexists. split; [apply detect_all_frauds_Returned|].
  rewrite Hstat. vm_compute in Hstat. by injection Hstat as <-.
Defined.

(** ** The review report *)

Lemma first_voter_spec (voters_df : list VoterRow) (card : option string) :
  match first_voter voters_df card with
  | Returned voter =>
      ∃ c, card = Some c ∧ first_with_card voters_df c voter
  | Raised exc =>
      exc = "IndexError"
      ∧ ∀ c, card = Some c → c ∉ card_id <$> voters_df
  end.
Proof.
  unfold first_voter. induction voters_df as [|voter voters_df IH].
  { simpl. split; [done|]. intros c _. apply not_elem_of_nil. }
  rewrite filter_cons. case_decide as Hcard.
  - exists (card_id voter). split; [done|]. exists 0%nat.
    split_and!; [done..|]. intros j ? Hj. lia.
  - destruct (filter _ voters_df) as [|voter' rest].
    + destruct IH as [_ IH]. split; [done|]. intros c ->.
      rewrite fmap_cons, not_elem_of_cons. split; [congruence|by apply IH].
    + destruct IH as (c & -> & i & Hi & Hc & Hfirst).
      exists c. split; [done|]. exists (S i). split_and!; [done..|].
      intros [|j] voter'' Hj; simpl.
      * intros [= <-]. congruence.
      * apply Hfirst. lia.
Qed.

Lemma first_with_card_elem (voters_df : list VoterRow) (c : string)
    (voter : VoterRow) :
  first_with_card voters_df c voter → c ∈ card_id <$> voters_df.
Proof.
  intros (i & Hi & <- & _). apply list_elem_of_fmap_2.
  by eapply list_elem_of_lookup_2.
Qed.

Lemma reviewed_pair (f : FraudFinding) : reviewed f → is_Some (pair_cards f).
Proof. by destruct f; intros [?|?]. Qed.

Lemma review_entry_spec (frauds_df : list FraudFinding)
    (voters_df : list VoterRow) (idx : nat) (fraud : FraudFinding) :
  fraud ∈ frauds_df →
  match review_entry frauds_df voters_df idx fraud with
  | Returned entry =>
      cards_known voters_df fraud
      ∧ ((reviewed fraud
          ∧ ∃ r, entry = [r] ∧ review_of voters_df idx fraud r)
         ∨ (¬ reviewed fraud ∧ entry = []))
  | Raised exc =>
      ¬ cards_known voters_df fraud
      ∧ (exc = "KeyError" ↔ ¬ has_card_columns frauds_df)
      ∧ (exc = "IndexError" ↔ has_card_columns frauds_df)
  end.
Proof.
  intros Hin. unfold review_entry, card_cell.
  case_decide as Hcols; cbn [mbind outcome_bind mret outcome_ret].
  2: { split_and!; [|done|done].
       intros (c1 & c2 & Hpair & _). apply Hcols.
       apply Exists_exists. exists fraud. by rewrite Hpair. }
  pose proof (first_voter_spec voters_df (fst <$> pair_cards fraud)) as H1.
  pose proof (first_voter_spec voters_df (snd <$> pair_cards fraud)) as H2.
  destruct (first_voter voters_df (fst <$> pair_cards fraud))
    as [voter_1|exc1]; cbn [mbind outcome_bind].
  2: { destruct H1 as [-> H1]. split_and!; [|done|done].
       intros (c1 & c2 & Hpair & Hc1 & _). rewrite Hpair in H1.
       by apply (H1 c1). }
  destruct (first_voter voters_df (snd <$> pair_cards fraud))
    as [voter_2|exc2]; cbn [mbind outcome_bind].
  2: { destruct H2 as [-> H2]. split_and!; [|done|done].
       intros (c1 & c2 & Hpair & _ & Hc2). rewrite Hpair in H2.
       by apply (H2 c2). }
  destruct H1 as (c1 & Hc1 & Hv1), H2 as (c2 & Hc2 & Hv2).
  destruct (pair_cards fraud) as [[c1' c2']|] eqn:Hpair; [|done].
  simpl in Hc1, Hc2. simplify_eq.
  assert (cards_known voters_df fraud) as Hknown.
  { exists c1, c2. split_and!; [done|by eapply first_with_card_elem..]. }
  destruct fraud as [d|d|d|d]; simpl in Hpair; simplify_eq;
    (split; [done|]).
  - left. split; [by left|]. eexists. split; [done|].
    split; [done|]. eexists _, _, voter_1, voter_2. by split_and!.
  - left. split; [by right|]. eexists. split; [done|].
    split; [done|]. eexists _, _, voter_1, voter_2. by split_and!.
  - right. split; [|done]. by intros [?|?].
Qed.

Lemma review_loop_spec (frauds_df : list FraudFinding)
    (voters_df : list VoterRow) (start : nat) (rows : list FraudFinding)
    (review_data : list ReviewRow.t) :
  (∀ f, f ∈ rows → f ∈ frauds_df) →
  match review_loop frauds_df voters_df
          (zip (seq start (length rows)) rows) review_data with
  | Returned result =>
      Forall (cards_known voters_df) rows
      ∧ ∃ new, result = review_data ++ new
          ∧ length new = length (filter reviewed rows)
          ∧ StronglySorted lt (ReviewRow.fraud_number <$> new)
          ∧ Forall (λ r, ∃ i fraud,
              rows !! i = Some fraud ∧ reviewed fraud
              ∧ review_of voters_df (start + i) fraud r) new
  | Raised exc =>
      ¬ Forall (cards_known voters_df) rows
      ∧ (exc = "KeyError" ↔ ¬ has_card_columns frauds_df)
      ∧ (exc = "IndexError" ↔ has_card_columns frauds_df)
  end.
Proof.
  revert start review_data.
  induction rows as [|fraud rows IH]; intros start review_data Hsub.
  { simpl. split; [done|]. exists []. rewrite app_nil_r.
    split_and!; [done..|constructor|done]. }
  cbn [length seq zip zip_with review_loop].
  pose proof (review_entry_spec frauds_df voters_df start fraud
                (Hsub _ (list_elem_of_here _ _))) as Hentry.
  destruct (review_entry frauds_df voters_df start fraud)
    as [entry|exc]; cbn [mbind outcome_bind].
  2: { destruct Hentry as (Hunknown & ? & ?). split_and!; [|done..].
       by intros [? _]%Forall_cons. }
  destruct Hentry as [Hknown Hentry].
  specialize (IH (S start) (review_data ++ entry)
                (λ f Hf, Hsub f (list_elem_of_further _ _ _ Hf))).
  destruct (review_loop _ _ _ _) as [result|exc].
  2: { destruct IH as (Hunknown & ? & ?). split_and!; [|done..].
       by intros [_ ?]%Forall_cons. }
  destruct IH as (Hall & new & -> & Hlen & Hsorted & Hrows).
  split; [by constructor|].
  exists (entry ++ new). split; [by rewrite app_assoc|].
  assert (Forall (λ r, ∃ i fraud', (fraud :: rows) !! i = Some fraud'
            ∧ reviewed fraud'
            ∧ review_of voters_df (start + i) fraud' r) new) as Hrows'.
  { eapply Forall_impl; [exact Hrows|]. intros r (i & f & Hi & Hf & Hr).
    exists (S i), f. split_and!; [done..|].
    by replace (start + S i)%nat with (S start + i)%nat by lia. }
  rewrite filter_cons.
  destruct Hentry as [(Hrev & r & -> & Hr)|[Hrev ->]].
  - rewrite decide_True by done. simpl. split_and!.
    + by rewrite Hlen.
    + constructor; [done|]. rewrite Forall_fmap.
      eapply Forall_impl; [exact Hrows|].
      intros r' (i & f & _ & _ & Hr' & _). simpl.
      destruct Hr as [-> _]. lia.
    + constructor; [|done]. exists 0%nat, fraud. split_and!; [done..|].
      by rewrite Nat.add_0_r.
  - rewrite decide_False by done. simpl. by split_and!.
Qed.

Lemma length_filter_reviewed (frauds_df : list FraudFinding) :
  length (filter reviewed frauds_df)
  = (length (of_fraud_type "FAKE_DETAILS" frauds_df)
     + length (of_fraud_type "FAKE_FACE" frauds_df))%nat.
Proof.
  unfold of_fraud_type.
  induction frauds_df as [|f frauds_df IH]; [done|].
  rewrite !filter_cons.
  destruct f; repeat case_decide; simpl; try lia; exfalso;
    repeat match goal with
           | H : reviewed _ |- _ => destruct H
           | H : ¬ reviewed _ |- _ => apply H; ((by left) || (by right))
           end; done.
Qed.

Lemma filter_reviewed_nil (frauds_df : list FraudFinding) :
  filter reviewed frauds_df = [] ↔ ¬ Exists reviewed frauds_df.
Proof.
  rewrite Exists_exists. split.
  - intros Hnil (f & Hf & Hrev).
    assert (f ∈ filter reviewed frauds_df) as Hin
      by by apply list_elem_of_filter.
    rewrite Hnil in Hin. by apply elem_of_nil in Hin.
  - intros Hnone. apply filter_none. apply Forall_forall.
    intros f Hf Hrev. apply Hnone. by exists f.
Qed.

(** The three ways a call can go. *)
Lemma generate_fraud_review_report_cases (frauds_df : list FraudFinding)
    (voters_df : list VoterRow) :
  (frauds_df = []
   ∧ generate_fraud_review_report frauds_df voters_df = (None, Returned ()))
  ∨ (frauds_df ≠ [] ∧ ¬ Forall (cards_known voters_df) frauds_df
     ∧ generate_fraud_review_report frauds_df voters_df
       = (None, Raised (if decide (has_card_columns frauds_df)
                        then "IndexError" else "KeyError")))
  ∨ (frauds_df ≠ [] ∧ Forall (cards_known voters_df) frauds_df
     ∧ ∃ review,
         generate_fraud_review_report frauds_df voters_df
         = (Some review,
            match review with
            | [] => Raised "KeyError"
            | _ :: _ => Returned ()
            end)
         ∧ length review = length (filter reviewed frauds_df)
         ∧ StronglySorted lt (ReviewRow.fraud_number <$> review)
         ∧ Forall (λ r, ∃ idx fraud,
             frauds_df !! idx = Some fraud ∧ reviewed fraud
             ∧ review_of voters_df idx fraud r) review).
Proof.
  unfold generate_fraud_review_report. case_decide as Hlen.
  { left. by destruct frauds_df. }
  assert (frauds_df ≠ []) as Hne by by intros ->.
  right.
  pose proof (review_loop_spec frauds_df voters_df 0 frauds_df []
                (λ f Hf, Hf)) as Hloop.
  destruct (review_loop _ _ _ _) as [review|exc].
  - right. destruct Hloop as (Hknown & new & Hnew & Hrest).
    simpl in Hnew. subst new. split_and!; [done..|]. by exists review.
  - left. destruct Hloop as (Hunknown & Hkey & Hindex).
    split_and!; [done..|]. case_decide as Hcols.
    + by rewrite (proj2 Hindex Hcols).
    + by rewrite (proj2 Hkey Hcols).
Qed.

(** X17. The review frame that [generate_fraud_review_report] writes has
    one row for each row of the report of type FAKE_DETAILS or FAKE_FACE
    and none for the others, in the order of the report; a review row is
    numbered by the position of its row in the report, counted from 1,
    so the numbers increase strictly and leave gaps where a row was
    skipped; and it shows, for each of the two cards, the details of the
    first row of the voter frame with that card id. *)
Theorem review_report_rows (frauds_df : list FraudFinding)
    (voters_df : list VoterRow) (review : list ReviewRow.t)
    (ended : outcome unit) :
  generate_fraud_review_report frauds_df voters_df = (Some review, ended) →
  StronglySorted lt (ReviewRow.fraud_number <$> review)
  ∧ length review
    = (length (of_fraud_type "FAKE_DETAILS" frauds_df)
       + length (of_fraud_type "FAKE_FACE" frauds_df))%nat
  ∧ Forall (λ r, ∃ idx fraud,
      frauds_df !! idx = Some fraud ∧ reviewed fraud
      ∧ review_of voters_df idx fraud r) review.
Proof.
  intros Hrun.
  destruct (generate_fraud_review_report_cases frauds_df voters_df)
    as [[_ Hcase]|[(_ & _ & Hcase)|(_ & _ & review' & Hcase & Hrows)]];
    rewrite Hcase in Hrun; try done.
  injection Hrun as -> _. rewrite <- length_filter_reviewed.
  by destruct Hrows as (? & ? & ?).
Qed.

(** The theorem at the report of the detector on the example frame: of
    its seven rows the first six are reviewed, the row of the two photos
    is not. *)
Lemma review_report_rows_witness :
  length (report_of_run first_number_distance path_length_hash
            review_frame) = 7%nat
  ∧ ∃ review,
      generate_fraud_review_report
        (report_of_run first_number_distance path_length_hash review_frame)
        review_frame
      = (Some review, Returned ())
      ∧ length review = 6%nat.
Proof.
  split; [reflexivity|].
  destruct (generate_fraud_review_report
              (report_of_run first_number_distance path_length_hash
                 review_frame) review_frame)
    as [[review|] ended] eqn:Hreview; [|by vm_compute in Hreview].
  exists review.
  destruct (review_report_rows _ _ _ _ Hreview) as (_ & Hlen & _).
  split; [|by rewrite Hlen].
  vm_compute in Hreview. by injection Hreview as _ <-.
Defined.

(** X18. A call ends without an exception exactly when the report is
    empty, or every row of it is about two cards of the voter frame and
    some row is of type FAKE_DETAILS or FAKE_FACE. Otherwise it raises a
    KeyError or an IndexError: before anything is written when some row
    is not about two cards of the voter frame, as every row of an address
    anomaly is; after writing a review without rows when no row is of a
    reviewed type, as in a report of duplicate photos only. *)
Theorem review_report_ends (frauds_df : list FraudFinding)
    (voters_df : list VoterRow) :
  ((generate_fraud_review_report frauds_df voters_df).2 = Returned () ↔
   frauds_df = []
   ∨ (Forall (cards_known voters_df) frauds_df
      ∧ Exists reviewed frauds_df))
  ∧ ((generate_fraud_review_report frauds_df voters_df).1 = None ↔
     frauds_df = [] ∨ ¬ Forall (cards_known voters_df) frauds_df)
  ∧ (∀ exc,
       (generate_fraud_review_report frauds_df voters_df).2 = Raised exc →
       exc = "KeyError" ∨ exc = "IndexError")
  ∧ (∀ d, ADDRESS_ANOMALY d ∈ frauds_df →
       generate_fraud_review_report frauds_df voters_df
       = (None, Raised (if decide (has_card_columns frauds_df)
                        then "IndexError" else "KeyError")))
  ∧ (frauds_df ≠ [] → Forall (cards_known voters_df) frauds_df →
     ¬ Exists reviewed frauds_df →
     generate_fraud_review_report frauds_df voters_df
     = (Some [], Raised "KeyError")).
Proof.
  destruct (generate_fraud_review_report_cases frauds_df voters_df)
    as [[-> Hcase]|[(Hne & Hunknown & Hcase)
                   |(Hne & Hknown & review & Hcase & Hlen & _)]];
    rewrite Hcase; simpl.
  - split_and!; try done.
    + split; [by left|done].
    + split; [by left|done].
    + intros d Hd. by apply elem_of_nil in Hd.
  - split_and!.
    + split; [done|]. intros [?|[? _]]; done.
    + split; [by right|done].
    + intros exc [= <-]. case_decide; [by right|by left].
    + done.
    + done.
  - assert (review = [] ↔ ¬ Exists reviewed frauds_df) as Hnil.
    { rewrite <- filter_reviewed_nil. split.
      - intros ->. by destruct (filter reviewed frauds_df).
      - intros Hf. rewrite Hf in Hlen. by destruct review. }
    split_and!.
    + destruct review as [|r review].
      * split; [done|]. intros [?|[_ Hex]]; [done|].
        exfalso. by apply (proj1 Hnil).
      * split; [|done]. intros _. right. split; [done|].
        destruct (decide (Exists reviewed frauds_df)) as [|Hno]; [done|].
        by apply Hnil in Hno.
    + split; [done|]. intros [?|?]; done.
    + intros exc. destruct review; [|done]. intros [= <-]. by left.
    + intros d Hd. exfalso.
      eapply Forall_forall in Hknown as (c1 & c2 & Hpair & _); [|exact Hd].
      done.
    + intros _ _ Hno. apply Hnil in Hno. by subst review.
Qed.

(** A report of duplicate photos only: an empty review is written, then
    the summary raises. *)
Example review_of_duplicate_photos :
  generate_fraud_review_report
    (detect_exact_duplicate_photos path_length_hash review_frame)
    review_frame
  = (Some [], Raised "KeyError").
Proof. vm_compute. reflexivity. Qed.

(** A report of an address anomaly only: the first row raises. *)
Example review_of_address_anomaly :
  generate_fraud_review_report
    (detect_address_anomalies (crowded_house "12" 30) 30)
    (crowded_house "12" 30)
  = (None, Raised "KeyError").
Proof. vm_compute. reflexivity. Qed.

(** ** The review of the detector's own report *)

Lemma scan_pairs_cards_known {A : Type} (body : A → A → option FraudFinding)
    (card_of : A → string) (xs : list A) (df : list VoterRow) :
  (∀ x1 x2 f, body x1 x2 = Some f →
     pair_cards f = Some (card_of x1, card_of x2)) →
  card_of <$> xs `sublist_of` card_id <$> df →
  Forall (cards_known df) (scan_pairs body xs).
Proof.
  intros Hbody Hsub. apply Forall_forall. intros f Hf.
  apply elem_of_scan_pairs in Hf as (i & j & x1 & x2 & _ & Hi & Hj & Hf).
  exists (card_of x1), (card_of x2). split_and!.
  - by apply Hbody.
  - eapply elem_of_sublist; [|exact Hsub].
    apply list_elem_of_fmap_2. by eapply list_elem_of_lookup_2.
  - eapply elem_of_sublist; [|exact Hsub].
    apply list_elem_of_fmap_2. by eapply list_elem_of_lookup_2.
Qed.

Lemma pairwise_findings_cards_known face_distance average_hash
    (df : list VoterRow) :
  Forall (cards_known df)
    (detect_scenario_1_fake_details df
     ++ detect_scenario_2_fake_face face_distance df
     ++ detect_exact_duplicate_photos average_hash df).
Proof.
  rewrite !Forall_app. split_and!.
  - apply (scan_pairs_cards_known _ card_id); [|done].
    apply fake_details_pair_cards.
  - rewrite detect_scenario_2_fake_face_scan.
    apply (scan_pairs_cards_known _ (card_id ∘ fst)).
    + intros x1 x2 f. apply fake_face_pair_cards.
    + apply faces_df_sublist.
  - rewrite detect_exact_duplicate_photos_scan.
    apply (scan_pairs_cards_known _
             (λ x : string * ImageHash * VoterRow, x.1.1)).
    + apply duplicate_photo_pair_cards.
    + apply compute_hashes_sublist.
Qed.

(** X19. The review after a run of the detector, with the frame of the
    run as the voter frame. Every row of the report about a pair names
    two cards of the frame, so no lookup of a voter fails for it. When
    the report has a row, [generate_report] writes it to the report file,
    and the review of that file ends without an exception exactly when
    no address has 30 voters and the first or the second scenario found
    something; with an address anomaly in the report it raises and
    writes nothing. When the report is empty, no file is written: the
    review reads the file of an earlier run, or raises when there is
    none. *)
Theorem review_of_detected_report
    (face_distance : encoding → encoding → float)
    (average_hash : string → option ImageHash) (df : list VoterRow)
    (frauds : list FraudFinding)
    (report_file : option (list FraudFinding)) :
  detect_all_frauds face_distance average_hash df = Returned frauds →
  Forall (λ f, is_address_anomaly f ∨ cards_known df f) frauds
  ∧ (frauds ≠ [] →
     generate_report frauds report_file = Some frauds
     ∧ ((review_from_file (generate_report frauds report_file) df).2
        = Returned () ↔
        detect_address_anomalies df 30 = []
        ∧ (detect_scenario_1_fake_details df ≠ []
           ∨ detect_scenario_2_fake_face face_distance df ≠ [])))
  ∧ (detect_address_anomalies df 30 ≠ [] →
     (review_from_file (generate_report frauds report_file) df).1 = None
     ∧ ∃ exc,
         (review_from_file (generate_report frauds report_file) df).2
         = Raised exc)
  ∧ (frauds = [] →
     generate_report frauds report_file = report_file
     ∧ review_from_file (generate_report frauds report_file) df
       = review_from_file report_file df
     ∧ (report_file = None →
        review_from_file (generate_report frauds report_file) df
        = (None, Raised "FileNotFoundError"))).
Proof.
  rewrite detect_all_frauds_Returned. intros [= <-].
  pose proof (pairwise_findings_cards_known face_distance average_hash df)
    as Hknown.
  set (pairs := detect_scenario_1_fake_details df
                ++ detect_scenario_2_fake_face face_distance df
                ++ detect_exact_duplicate_photos average_hash df) in *.
  set (frauds := detect_scenario_1_fake_details df
                 ++ detect_scenario_2_fake_face face_distance df
                 ++ detect_exact_duplicate_photos average_hash df
                 ++ detect_address_anomalies df 30).
  assert (frauds = pairs ++ detect_address_anomalies df 30) as Hfrauds
    by (unfold frauds, pairs; by rewrite <- !app_assoc).
  assert (Forall is_address_anomaly (detect_address_anomalies df 30))
    as Haddr.
  { apply Forall_forall. intros f Hf.
    by apply detect_address_anomalies_kind in Hf. }
  assert (Forall (cards_known df) frauds
          ↔ detect_address_anomalies df 30 = []) as Hall.
  { rewrite Hfrauds, Forall_app. split.
    - intros [_ Hk]. destruct (detect_address_anomalies df 30) as [|f l];
        [done|]. exfalso.
      apply Forall_cons in Hk as [(c1 & c2 & Hpair & _) _].
      apply Forall_cons in Haddr as [[d ->] _]. done.
    - intros ->. by split. }
  assert (Exists reviewed frauds
          ↔ detect_scenario_1_fake_details df ≠ []
            ∨ detect_scenario_2_fake_face face_distance df ≠ []) as Hex.
  { unfold frauds. rewrite !Exists_app.
    pose proof (detect_scenario_1_kind df) as H1.
    pose proof (detect_scenario_2_kind face_distance df) as H2.
    pose proof (detect_exact_duplicate_photos_kind average_hash df) as H3.
    split.
    - intros [He|[He|[He|He]]].
      + left. intros Hnil. rewrite Hnil in He. by apply Exists_nil in He.
      + right. intros Hnil. rewrite Hnil in He. by apply Exists_nil in He.
      + exfalso. apply Exists_exists in He as (f & Hf & Hrev).
        destruct (proj1 (Forall_forall _ _) H3 f Hf) as [d ->].
        by destruct Hrev.
      + exfalso. apply Exists_exists in He as (f & Hf & Hrev).
        destruct (proj1 (Forall_forall _ _) Haddr f Hf) as [d ->].
        by destruct Hrev.
    - intros [Hne|Hne].
      + left. destruct (detect_scenario_1_fake_details df) as [|f l];
          [done|]. apply Forall_cons in H1 as [[d ->] _].
        apply Exists_cons_hd. by left.
      + right. left.
        destruct (detect_scenario_2_fake_face face_distance df) as [|f l];
          [done|]. apply Forall_cons in H2 as [[d ->] _].
        apply Exists_cons_hd. by right. }
  assert (frauds ≠ [] → generate_report frauds report_file = Some frauds)
    as Hwritten by by destruct frauds.
  split_and!.
  - rewrite Hfrauds, Forall_app. split.
    + eapply Forall_impl; [exact Hknown|]. by right.
    + eapply Forall_impl; [exact Haddr|]. by left.
  - intros Hrows. split; [by apply Hwritten|].
    rewrite (Hwritten Hrows). cbn [review_from_file].
    destruct (generate_fraud_review_report_cases frauds df)
      as [[Hnil Hcase]|[(Hne & Hunknown & Hcase)
                       |(Hne & Hk & review & Hcase & Hlen & _)]];
      [done|rewrite Hcase; simpl..].
    + split; [done|]. intros [Hno _]. exfalso. by apply Hunknown, Hall.
    + assert (review = [] ↔ ¬ Exists reviewed frauds) as Hempty.
      { rewrite <- filter_reviewed_nil. split.
        - intros ->. by destruct (filter reviewed frauds).
        - intros Hf. rewrite Hf in Hlen. by destruct review. }
      destruct review as [|r review].
      * split; [done|]. intros [_ Hfound].
        exfalso. by apply (proj1 Hempty), Hex.
      * split; [|done]. intros _. split; [by apply Hall|].
        apply Hex.
        destruct (decide (Exists reviewed frauds)) as [|Hno]; [done|].
        by apply Hempty in Hno.
  - intros Hsome.
    assert (frauds ≠ []) as Hrows.
    { rewrite Hfrauds. intros Hnil.
      by apply app_eq_nil in Hnil as [_ ?]. }
    rewrite (Hwritten Hrows). cbn [review_from_file].
    destruct (generate_fraud_review_report_cases frauds df)
      as [[Hnil Hcase]|[(Hne & Hunknown & Hcase)
                       |(Hne & Hk & _)]].
    + done.
    + rewrite Hcase. simpl. split; [done|]. by eexists.
    + exfalso. by apply Hsome, Hall.
  - intros Hnil. rewrite Hnil. simpl. split_and!; [done..|].
    by intros ->.
Qed.

(** The theorem at the example frame, with no report file before the
    run: the report is written and its review ends without an
    exception. *)
Lemma review_of_detected_report_witness :
  (review_from_file
     (generate_report
        (report_of_run first_number_distance path_length_hash review_frame)
        None)
     review_frame).2
  = Returned ().
Proof.
  apply (proj2 (proj1 (proj2 (review_of_detected_report
                  first_number_distance path_length_hash review_frame _
                  None (detect_all_frauds_Returned _ _ _)))
                  ltac:(by vm_compute))).
  split; [reflexivity|]. left. by vm_compute.
Defined.

(** A run on a frame of one card after a run that left no file: nothing
    is written, and the review raises. *)
Example review_after_empty_report :
  review_from_file
    (generate_report
       (report_of_run first_number_distance path_length_hash [twin_1])
       None)
    [twin_1]
  = (None, Raised "FileNotFoundError").
Proof. reflexivity. Qed.

(** * Properties of the extraction *)

Lemma process_cards_Returned (process_card : string → outcome (option VoterRow))
    (files : list string) (results rows : list VoterRow) :
  process_cards process_card files results = Returned rows ↔
  ∃ read, Forall2 (λ file result, process_card file = Returned result)
            files read
    ∧ rows = results ++ omap id read.
Proof.
  revert results. induction files as [|file files IH]; intros results; simpl.
  - split.
    + intros [= <-]. exists []. split; [constructor|].
      by rewrite app_nil_r.
    + intros (read & ->%Forall2_nil_inv_l & ->). simpl.
      by rewrite app_nil_r.
  - destruct (process_card file) as [result|exc] eqn:Hfile;
      cbn [mbind outcome_bind].
    + assert (process_cards process_card files
                (results ++ option_list result) = Returned rows ↔
              ∃ read, Forall2 (λ file result,
                                 process_card file = Returned result)
                        (file :: files) read
                ∧ rows = results ++ omap id read) as Hstep.
      { rewrite IH. split.
        - intros (read & Hall & ->). exists (result :: read).
          split; [by constructor|]. rewrite <- app_assoc.
          by destruct result.
        - intros (read & Hall & ->).
          apply Forall2_cons_inv_l in Hall as (r & read' & Hr & Hall & ->).
          exists read'. split; [done|]. rewrite <- app_assoc.
          assert (r = result) as -> by congruence. by destruct result. }
      destruct result as [row|]; simpl in Hstep; [done|].
      by rewrite app_nil_r in Hstep.
    + split; [done|]. intros (read & Hall & _).
      apply Forall2_cons_inv_l in Hall as (? & ? & Hr & _). congruence.
Qed.

Lemma process_cards_none (process_card : string → outcome (option VoterRow))
    (files : list string) (results : list VoterRow) :
  Forall (λ file, process_card file = Returned None) files →
  process_cards process_card files results = Returned results.
Proof.
  induction 1 as [|file files Hfile _ IH]; [done|].
  simpl. by rewrite Hfile.
Qed.

(** X20. [process_all_cards] reads the card files in their order: all of
    them without a limit or with a limit of 0, the first [limit] of them
    with a limit above 0, all but the last [-limit] with a limit below 0.
    When it returns, the frame is not empty and has one row, in the order
    of the files, for each file read that is an image. When no file read
    is an image, in particular when there is no file, it raises a
    KeyError in its summary. *)
Theorem process_all_cards_rows (card_files : list string)
    (process_card : string → outcome (option VoterRow))
    (limit : option Z) :
  ∃ n,
    (n ≤ length card_files)%nat
    ∧ (limit = None ∨ limit = Some 0%Z → n = length card_files)
    ∧ (∀ k, limit = Some k → (0 < k)%Z →
         n = (Z.to_nat k `min` length card_files)%nat)
    ∧ (∀ k, limit = Some k → (k < 0)%Z →
         n = (length card_files - Z.to_nat (- k))%nat)
    ∧ (∀ rows,
         process_all_cards card_files process_card limit = Returned rows ↔
         rows ≠ []
         ∧ ∃ read,
             Forall2 (λ file result, process_card file = Returned result)
               (take n card_files) read
             ∧ rows = omap id read)
    ∧ (Forall (λ file, process_card file = Returned None)
         (take n card_files) →
       process_all_cards card_files process_card limit
       = Raised "KeyError").
Proof.
  set (n := match limit with
            | None => length card_files
            | Some k =>
                if decide (k = 0)%Z then length card_files
                else Z.to_nat (slice_bound (Z.of_nat (length card_files)) k)
            end).
  assert (process_all_cards card_files process_card limit
          = (results ← process_cards process_card (take n card_files) [];
             match results with
             | [] => Raised "KeyError"
             | _ :: _ => mret results
             end)) as Hrun.
  { unfold process_all_cards, n, first_files.
    destruct limit as [k|]; [case_decide|]; by rewrite ?firstn_all. }
  exists n. split_and!.
  - unfold n, slice_bound. destruct limit as [k|]; [|done].
    case_decide; [done|]. destruct (k <? 0)%Z eqn:Hk; lia.
  - unfold n. by intros [->| ->].
  - unfold n, slice_bound. intros k -> Hk.
    rewrite decide_False by lia.
    replace (k <? 0)%Z with false by lia. lia.
  - unfold n, slice_bound. intros k -> Hk.
    rewrite decide_False by lia.
    replace (k <? 0)%Z with true by lia. lia.
  - intros rows. rewrite Hrun.
    destruct (process_cards process_card (take n card_files) [])
      as [results|exc] eqn:Hloop; cbn [mbind outcome_bind].
    + apply process_cards_Returned in Hloop as (read & Hread & ->).
      simpl. split.
      * destruct (omap id read) as [|row results] eqn:Hrows; [done|].
        intros [= <-]. split; [done|]. by exists read.
      * intros (Hne & read' & Hread' & ->).
        assert (read' = read) as ->.
        { clear -Hread Hread'. revert read' Hread'.
          induction Hread as [|file result files read Hfile _ IH];
            intros read' Hread'.
          - by apply Forall2_nil_inv_l in Hread'.
          - apply Forall2_cons_inv_l in Hread'
              as (r & read'' & Hr & Hread'' & ->).
            f_equal; [congruence|by apply IH]. }
        by destruct (omap id read).
    + split; [done|]. intros (_ & read & Hread & ->).
      assert (process_cards process_card (take n card_files) []
              = Returned ([] ++ omap id read)) as Hok
        by (apply process_cards_Returned; by exists read).
      congruence.
  - intros Hnone. rewrite Hrun.
    by rewrite (process_cards_none _ _ _ Hnone).
Qed.

(** Three files, the second of which is no image, with a limit of 2: one
    row. With a limit of 0 all three files are read. *)
Example process_all_cards_sample :
  returned_cards <$> [
    process_all_cards
      ["page_3_card_1.jpg"; "notes.txt.jpg"; "page_3_card_2.jpg"]
      sample_process_card (Some 2%Z);
    process_all_cards
      ["page_3_card_1.jpg"; "notes.txt.jpg"; "page_3_card_2.jpg"]
      sample_process_card (Some 0%Z);
    process_all_cards ["notes.txt.jpg"] sample_process_card None;
    process_all_cards [] sample_process_card None]
  = [Some ["page_3_card_1.jpg"];
     Some ["page_3_card_1.jpg"; "page_3_card_2.jpg"];
     None; None].
Proof. vm_compute. reflexivity. Qed.

(** ** Embedded images *)

Lemma extract_images_spec (extract_image : Z → outcome string)
    (path_of : string → string) (page_num start : nat) (xrefs : list Z)
    (images result : list ImageInfo.t) :
  extract_images extract_image path_of page_num
    (zip (seq start (length xrefs)) xrefs) images = Returned result →
  ∃ new, result = images ++ new
    ∧ ImageInfo.index <$> new = seq (start + 1) (length xrefs)
    ∧ ImageInfo.xref <$> new = xrefs
    ∧ Forall (λ image, ImageInfo.page image = (page_num + 1)%nat) new.
Proof.
  revert start images.
  induction xrefs as [|xref xrefs IH]; intros start images.
  { simpl. intros [= <-]. exists []. by rewrite app_nil_r. }
  cbn [length seq zip zip_with extract_images].
  destruct (extract_image xref) as [image_ext|exc];
    cbn [mbind outcome_bind]; [|done].
  intros (new & -> & Hindex & Hxref & Hpage)%IH.
  eexists (_ :: new). split; [by rewrite <- app_assoc|].
  rewrite !fmap_cons, Hindex, Hxref. cbn [ImageInfo.index ImageInfo.xref].
  replace (S start + 1)%nat with (S (start + 1)) by lia.
  split_and!; [by rewrite Nat.add_1_r|done|]. by constructor.
Qed.

Lemma extract_pages_lookup (get_images : nat → outcome (list Z))
    (extract_image : Z → outcome string) (path_of : string → string)
    (pages : list nat)
    (all_images result : gmap.gmap nat (list ImageInfo.t)) :
  NoDup pages →
  (∀ page_num, page_num ∈ pages → all_images !! (page_num + 1)%nat = None) →
  extract_pages get_images extract_image path_of pages all_images
  = Returned result →
  ∀ k images,
    result !! k = Some images ↔
    (∃ page_num, page_num ∈ pages ∧ k = (page_num + 1)%nat
       ∧ extract_images_from_page get_images extract_image path_of page_num
         = Returned images
       ∧ images ≠ [])
    ∨ all_images !! k = Some images.
Proof.
  revert all_images.
  induction pages as [|page_num pages IH]; intros all_images Hdup Hfree.
  { simpl. intros [= <-] k images. split; [by right|].
    intros [(p & Hp & _)|?]; [|done]. by apply elem_of_nil in Hp. }
  apply NoDup_cons in Hdup as [Hnew Hdup]. simpl.
  destruct (extract_images_from_page get_images extract_image path_of
              page_num) as [found|exc] eqn:Hpage;
    cbn [mbind outcome_bind]; [|done].
  destruct found as [|image found].
  - intros Hrun k images. rewrite (IH all_images Hdup); [|by auto using
      list_elem_of_further|done].
    split.
    + intros [(p & Hp & Hrest)|?]; [left|by right].
      exists p. split; [by right|done].
    + intros [(p & Hp & Hk & Himages & Hne)|?]; [|by right].
      apply elem_of_cons in Hp as [->|Hp]; [congruence|].
      left. by exists p.
  - intros Hrun k images.
    rewrite (IH (<[(page_num + 1)%nat := image :: found]> all_images) Hdup);
      [| |done].
    2: { intros p Hp. rewrite fin_maps.lookup_insert_ne.
         - apply Hfree. by right.
         - intros Heq. apply Hnew.
           by replace page_num with p by lia. }
    rewrite fin_maps.lookup_insert_Some. split.
    + intros [(p & Hp & Hrest)|[[<- <-]|[_ ?]]].
      * left. exists p. split; [by right|done].
      * left. exists page_num. split_and!; [left|done..].
      * by right.
    + intros [(p & Hp & Hk & Himages & Hne)|Hold].
      * apply elem_of_cons in Hp as [->|Hp].
        -- right. left. split; [done|congruence].
        -- left. by exists p.
      * right. right. split; [|done]. intros <-.
        rewrite Hfree in Hold; [done|left].
Qed.

(** X21. The dictionary [extract_all_voter_images] returns has an entry
    exactly for the pages from [start_page] on that have an embedded
    image, under the page number counted from 1, and the entry of a page
    is what [extract_images_from_page] returns for it: no entry is empty,
    none is overwritten by a later page. The images of an entry are
    numbered 1, 2, 3 and so on in the order of the page, and carry the
    number of the page and their reference numbers. *)
Theorem extract_all_voter_images_entries
    (get_images : nat → outcome (list Z))
    (extract_image : Z → outcome string) (path_of : string → string)
    (page_count start_page : nat)
    (all_images : gmap.gmap nat (list ImageInfo.t)) :
  extract_all_voter_images get_images extract_image path_of page_count
    start_page = Returned all_images →
  (∀ k images,
     all_images !! k = Some images ↔
     ∃ page_num, k = (page_num + 1)%nat
       ∧ (start_page ≤ page_num < page_count)%nat
       ∧ extract_images_from_page get_images extract_image path_of page_num
         = Returned images
       ∧ images ≠ [])
  ∧ (∀ k images,
       all_images !! k = Some images →
       ImageInfo.index <$> images = seq 1 (length images)
       ∧ Forall (λ image, ImageInfo.page image = k) images
       ∧ get_images (k - 1)%nat = Returned (ImageInfo.xref <$> images)).
Proof.
  intros Hrun. unfold extract_all_voter_images in Hrun.
  pose proof (extract_pages_lookup _ _ _ _ _ _ (NoDup_seq _ _)
                (λ p _, fin_maps.lookup_empty _) Hrun) as Hlookup.
  assert (∀ k images,
     all_images !! k = Some images ↔
     ∃ page_num, k = (page_num + 1)%nat
       ∧ (start_page ≤ page_num < page_count)%nat
       ∧ extract_images_from_page get_images extract_image path_of page_num
         = Returned images
       ∧ images ≠ []) as Hentries.
  { intros k images. rewrite Hlookup. split.
    - intros [(p & Hp%elem_of_seq & ? & ? & ?)|Hempty].
      + exists p. split_and!; [done|lia|lia|done..].
      + by rewrite fin_maps.lookup_empty in Hempty.
    - intros (p & ? & ? & ? & ?). left. exists p.
      split_and!; [|done..]. apply elem_of_seq. lia. }
  split; [done|].
  intros k images (p & -> & _ & Hpage & _)%Hentries.
  unfold extract_images_from_page in Hpage.
  destruct (get_images p) as [xrefs|exc] eqn:Hget;
    cbn [mbind outcome_bind] in Hpage; [|done].
  apply extract_images_spec in Hpage as (new & -> & Hindex & Hxref & Hp).
  simpl. replace (p + 1 - 1)%nat with p by lia.
  rewrite Hget, Hxref. split_and!; [|done..].
  rewrite Hindex. by rewrite <- Hxref, length_fmap.
Qed.

(** The theorem at the example document from its third page on: an entry
    for page 3 with two images and one for page 5, none for page 4. *)
Lemma extract_all_voter_images_entries_witness :
  ∃ all_images,
    extract_all_voter_images sample_get_images (λ _, Returned "png")
      (λ name, "photos/" +:+ name) 5 2 = Returned all_images
    ∧ fmap (M := list) ImageInfo.path <$> all_images !! 3%nat
      = Some ["photos/page_3_img_1.png"; "photos/page_3_img_2.png"]
    ∧ all_images !! 4%nat = None
    ∧ ∃ images, all_images !! 5%nat = Some images
        ∧ ImageInfo.index <$> images = seq 1 (length images).
Proof.
  destruct (extract_all_voter_images sample_get_images
              (λ _, Returned "png") (λ name, "photos/" +:+ name) 5 2)
    as [all_images|exc] eqn:Hrun; [|by vm_compute in Hrun].
  exists all_images.
  pose proof (extract_all_voter_images_entries _ _ _ _ _ _ Hrun)
    as [_ Hvalues].
  vm_compute in Hrun. injection Hrun as <-.
  split_and!; [done..|].
  eexists. split; [reflexivity|].
  by apply (Hvalues 5%nat).
Defined.
